(** * The image block's user interface ([Ui]), embedded in Rocq

    The development follows the two revisions of the [Ui] class that the
    repository carries:

    - [src/src/ui.js] (first class of the file): width and height are typed
      into two content-editable [div]s ([nodes.imageWidth],
      [nodes.imageHeight]); the resize canvas is 700 x 410;
    - [src/unnamed/part_000]: width and height are typed into two [input]
      elements ([nodes.inputWidth], [nodes.inputHeight]); the resize canvas
      is computed from the rendered image.

    Methods whose text is the same in both revisions are embedded once
    (section [Shared]); the others live in the modules [SrcUi] and
    [Part000]. *)

From stdpp Require Import gmap strings list fin_maps pretty.
From Stdlib Require Import ZArith Lia Ascii.

Open Scope Z_scope.
Set Warnings "-register-all".

(** ** JavaScript values *)

(** The operations of the JavaScript runtime on numbers. Numbers are IEEE
    doubles and their conversions from and to text are those of the
    language; the embedding takes them as an interface, so that every
    theorem holds for whatever the runtime computes. *)
Class JsNumber := {
  number : Type;
  (** an integer literal of the source, such as [700] *)
  num_of_Z : Z → number;
  NaN : number;
  (** [Math.abs(x)] *)
  Math_abs : number → number;
  (** [x > y] on two numbers *)
  num_gt : number → number → bool;
  (** [x / y] and [x * y] *)
  num_div : number → number → number;
  num_mul : number → number → number;
  (** [ToBoolean] on a number: false for zero and [NaN] *)
  num_truthy : number → bool;
  (** [ToString] on a number, as in [`${x}`] *)
  num_to_string : number → string;
  (** [Number(s)] on a string *)
  Number : string → number;
  (** [parseInt(s)] on a string *)
  parseInt_str : string → number
}.

Section JsValues.
Context `{JsNumber}.

(** A plain object is kept as the list of its own enumerable properties. *)
Inductive jsval :=
| JUndefined
| JNull
| JBool (b : bool)
| JNum (n : number)
| JStr (s : string)
| JObj (props : list (string * jsval)).

(** [ToBoolean]: what [if (v)], [!v] and [v || w] look at. *)
Definition truthy (v : jsval) : bool :=
  match v with
  | JUndefined | JNull => false
  | JBool b => b
  | JNum n => num_truthy n
  | JStr s => negb (String.eqb s "")
  | JObj _ => true
  end.

(** [!v] *)
Definition js_not (v : jsval) : jsval := JBool (negb (truthy v)).

(** [v || w] *)
Definition js_or (v w : jsval) : jsval := if truthy v then v else w.

(** [v === 'literal'] *)
Definition strict_eq_str (v : jsval) (lit : string) : bool :=
  match v with
  | JStr s => String.eqb s lit
  | _ => false
  end.

(** [ToString], as applied by template literals and by DOM string
    properties. *)
Definition ToString (v : jsval) : string :=
  match v with
  | JUndefined => "undefined"
  | JNull => "null"
  | JBool true => "true"
  | JBool false => "false"
  | JNum n => num_to_string n
  | JStr s => s
  | JObj _ => "[object Object]"
  end.

(** [ToNumber], as applied by arithmetic and by [>] to an operand that is
    not a number. *)
Definition ToNumber (v : jsval) : number :=
  match v with
  | JUndefined => NaN
  | JNull => num_of_Z 0
  | JBool true => num_of_Z 1
  | JBool false => num_of_Z 0
  | JNum n => n
  | JStr s => Number s
  | JObj _ => NaN
  end.

(** [parseInt(v)]: the argument is converted to a string first. *)
Definition parseInt (v : jsval) : jsval := JNum (parseInt_str (ToString v)).

(** [Object.keys(v)]: a [TypeError] on [undefined] and [null] ([None]); the
    index keys of a string; nothing for a number or a boolean. *)
Definition Object_keys (v : jsval) : option (list string) :=
  match v with
  | JUndefined | JNull => None
  | JBool _ | JNum _ => Some []
  | JStr s => Some (pretty <$> seq 0 (String.length s))
  | JObj props => Some (props.*1)
  end.

(** A JavaScript object used as a record with optional fields, such as
    [this.config] and the tool data: reading an absent field gives
    [undefined]. *)
Definition field (o : gmap string jsval) (k : string) : jsval :=
  default JUndefined (o !! k).

End JsValues.

Arguments jsval {_}.

(** ** The DOM, as far as [Ui] touches it *)

Section Dom.
Context `{JsNumber}.

(** An element: its tag, its class list, the properties the code assigns
    ([el.disabled = ...], [el.textContent = ...], the attributes handed to
    [make]), its inline style declarations and the event names on which a
    listener was registered by [addEventListener].

    The model records what the script assigns, after the conversion of the
    value to the type of the property; it does not model layout, nor the
    browser's validation of CSS values. *)
Record element := Element {
  tagName : string;
  classList : gset string;
  props : gmap string jsval;
  style : gmap string jsval;
  listeners : list string
}.

Definition set_classList (f : gset string → gset string) (e : element) : element :=
  {| tagName := tagName e; classList := f (classList e); props := props e;
     style := style e; listeners := listeners e |}.

Definition set_props (f : gmap string jsval → gmap string jsval) (e : element) : element :=
  {| tagName := tagName e; classList := classList e; props := f (props e);
     style := style e; listeners := listeners e |}.

Definition set_style (f : gmap string jsval → gmap string jsval) (e : element) : element :=
  {| tagName := tagName e; classList := classList e; props := props e;
     style := f (style e); listeners := listeners e |}.

Definition set_listeners (f : list string → list string) (e : element) : element :=
  {| tagName := tagName e; classList := classList e; props := props e;
     style := style e; listeners := f (listeners e) |}.

(** Properties of type [boolean] and of type [DOMString]: an assigned value
    is converted. [innerText] and [textContent] both denote the text of the
    element, kept under [textContent]. Any other name is an own property of
    the element object and keeps the value as it is. *)
Definition boolean_props : list string :=
  ["disabled"; "autoplay"; "loop"; "muted"].

Definition string_props : list string :=
  ["contentEditable"; "textContent"; "innerHTML"; "value"; "placeholder";
   "data-placeholder"; "src"].

Definition is_boolean_prop (k : string) : bool := existsb (String.eqb k) boolean_props.
Definition is_string_prop (k : string) : bool := existsb (String.eqb k) string_props.

Definition prop_key (name : string) : string :=
  if String.eqb name "innerText" then "textContent" else name.

(** [el[name] = v] *)
Definition assign (name : string) (v : jsval) (e : element) : element :=
  let k := prop_key name in
  let stored :=
    if is_boolean_prop k then JBool (truthy v)
    else if is_string_prop k then JStr (ToString v)
    else v in
  set_props <[k := stored]> e.

(** [el[name]]: an unset boolean property reads [false], an unset string
    property reads the empty string. *)
Definition prop (e : element) (name : string) : jsval :=
  let k := prop_key name in
  match props e !! k with
  | Some v => v
  | None =>
      if is_boolean_prop k then JBool false
      else if is_string_prop k then JStr ""
      else JUndefined
  end.

(** The text of a string property. *)
Definition prop_text (e : element) (name : string) : string :=
  ToString (prop e name).

(** [el.classList.toggle(token, force)]. The second argument is optional:
    [undefined] counts as absent and the token is flipped; any other value
    is converted to a boolean, which adds or removes the token. *)
Definition classList_toggle (token : string) (force : jsval) (e : element) : element :=
  match force with
  | JUndefined =>
      if bool_decide (token ∈ classList e)
      then set_classList (λ c, c ∖ {[token]}) e
      else set_classList (λ c, {[token]} ∪ c) e
  | _ =>
      if truthy force
      then set_classList (λ c, {[token]} ∪ c) e
      else set_classList (λ c, c ∖ {[token]}) e
  end.

(** [el.style[name]]: the empty string when the declaration is absent. *)
Definition style_get (e : element) (name : string) : jsval :=
  default (JStr "") (style e !! name).

(** [el.style[name] = v]: the empty string removes the declaration. *)
Definition style_assign (name : string) (v : jsval) (e : element) : element :=
  if strict_eq_str v ""
  then set_style (delete name) e
  else set_style <[name := v]> e.

(** [el.style.cssText = ``]: the inline style is emptied. *)
Definition cssText_clear (e : element) : element := set_style (λ _, ∅) e.

(** [el.style.cssText = `width:${w}px;height:${h}px;`]: the inline style
    becomes these two declarations. *)
Definition cssText_width_height (w h : jsval) (e : element) : element :=
  set_style (λ _, {[ "width" := JStr (ToString w +:+ "px");
                     "height" := JStr (ToString h +:+ "px") ]}) e.

(** Modelled from the spec: [make] of [./utils/dom], which is not part of
    the sources at hand ("DOM factory helper: builds tagged elements with
    class lists and attributes. No state."). The attributes are assigned as
    properties of the new element. *)
Definition make (tag : string) (classNames : list string)
    (attributes : list (string * jsval)) : element :=
  foldl (λ e kv, assign kv.1 kv.2 e)
        {| tagName := tag; classList := list_to_set classNames;
           props := ∅; style := ∅; listeners := [] |}
        attributes.

End Dom.

Arguments element {_}.

(** ** The resize canvas (Konva), as far as [Ui] touches it *)

Section KonvaModel.
Context `{JsNumber}.

(** A bounding box as the transformer hands it to [boundBoxFunc]. *)
Record box := Box {
  box_x : number;
  box_y : number;
  width : number;
  height : number;
  box_rotation : number
}.

(** [this.konva] once [makeImageResizable] has run: the size given to the
    stage, the [boundBoxFunc] given to the transformer, and the geometry of
    the rectangle that the transformer draws around the image, which is what
    [this.konva.group.parent.children[1].children[0].attrs] reads (the second
    child of the layer is the transformer, whose first child is that
    rectangle). *)
Record Konva := {
  stage_width : jsval;
  stage_height : jsval;
  tr_boundBoxFunc : box → box → box;
  tr_back : box
}.

(** The transformer's contract for [boundBoxFunc]: on every resize step it
    calls [boundBoxFunc(oldBox, newBox)] with its present box and the box the
    pointer asks for, and takes the result as its box. *)
Definition transform (newBox : box) (k : Konva) : Konva :=
  {| stage_width := stage_width k; stage_height := stage_height k;
     tr_boundBoxFunc := tr_boundBoxFunc k;
     tr_back := tr_boundBoxFunc k (tr_back k) newBox |}.

End KonvaModel.

Arguments box {_}.
Arguments Konva {_}.

(** ** The state of a [Ui] object *)

(** The entries of [this.nodes] that the constructors create. The size
    fields are [imageWidth] and [imageHeight] in [src/src/ui.js], and
    [inputWidth] and [inputHeight] in [part_000]; each revision creates and
    uses its own pair only. [nodes.imageEl] is kept apart, see [Ui]. *)
Inductive node_name :=
| wrapper | imageContainer
| imageWidth | imageHeight
| inputWidth | inputHeight
| alignContainer | leftAlign | centerAlign | rightAlign
| setSizeButton | resizeModeButton | undoResizeButton
| fileButton | imagePreloader | caption.

#[global] Instance node_name_eq_dec : EqDecision node_name.
Proof. solve_decision. Defined.

Definition node_index (n : node_name) : nat :=
  match n with
  | wrapper => 0 | imageContainer => 1
  | imageWidth => 2 | imageHeight => 3
  | inputWidth => 4 | inputHeight => 5
  | alignContainer => 6 | leftAlign => 7 | centerAlign => 8 | rightAlign => 9
  | setSizeButton => 10 | resizeModeButton => 11 | undoResizeButton => 12
  | fileButton => 13 | imagePreloader => 14 | caption => 15
  end.

(** The nodes with the node [n] replaced by [e]. *)
Definition set_node {A} (n : node_name) (e : A) (ns : node_name → A)
    (m : node_name) : A :=
  if Nat.eqb (node_index m) (node_index n) then e else ns m.

(** A child of [nodes.imageContainer]: a media element that [fillImage]
    created, or the content of the Konva stage. *)
Inductive child :=
| MediaChild (i : nat)
| StageContent.

#[global] Instance child_eq_dec : EqDecision child.
Proof. solve_decision. Defined.

(** How a piece of code ends: normally with a value, or by throwing a
    [TypeError] (a property read on [undefined]). *)
Inductive completion (A : Type) :=
| Normal (a : A)
| TypeError.
Arguments Normal {A} a.
Arguments TypeError {A}.

Section State.
Context `{JsNumber}.

(** [this]. The media elements that [fillImage] creates are objects with an
    identity: they live in [media], [imageEl] ([this.nodes.imageEl]) is a
    reference into it ([None] for [undefined]) and so are the children of
    the image container. [konva] is [None] for the empty object [{}] that
    the constructor stores. *)
Record Ui := {
  config : gmap string jsval;
  nodes : node_name → element;
  imageEl : option nat;
  media : list element;
  container : list child;
  konva : option Konva
}.

Definition set_config (f : gmap string jsval → gmap string jsval) (u : Ui) : Ui :=
  {| config := f (config u); nodes := nodes u; imageEl := imageEl u;
     media := media u; container := container u; konva := konva u |}.

Definition set_nodes (f : (node_name → element) → node_name → element) (u : Ui) : Ui :=
  {| config := config u; nodes := f (nodes u); imageEl := imageEl u;
     media := media u; container := container u; konva := konva u |}.

Definition set_imageEl (i : option nat) (u : Ui) : Ui :=
  {| config := config u; nodes := nodes u; imageEl := i;
     media := media u; container := container u; konva := konva u |}.

Definition set_media (f : list element → list element) (u : Ui) : Ui :=
  {| config := config u; nodes := nodes u; imageEl := imageEl u;
     media := f (media u); container := container u; konva := konva u |}.

Definition set_container (f : list child → list child) (u : Ui) : Ui :=
  {| config := config u; nodes := nodes u; imageEl := imageEl u;
     media := media u; container := f (container u); konva := konva u |}.

Definition set_konva (k : option Konva) (u : Ui) : Ui :=
  {| config := config u; nodes := nodes u; imageEl := imageEl u;
     media := media u; container := container u; konva := k |}.

(** *** Methods as state transformers that may throw *)

(** What was written to [this] before a throw stays written. *)
Definition M (A : Type) : Type := Ui → completion A * Ui.

Definition ret {A} (a : A) : M A := λ u, (Normal a, u).

Definition bind {A B} (m : M A) (k : A → M B) : M B :=
  λ u, match m u with
       | (Normal a, u') => k a u'
       | (TypeError, u') => (TypeError, u')
       end.

Definition throw {A} : M A := λ u, (TypeError, u).

Definition gets {A} (f : Ui → A) : M A := λ u, (Normal (f u), u).

Definition modify (f : Ui → Ui) : M unit := λ u, (Normal tt, f u).

(** The state in which a method leaves [this], and whether it returned. *)
Definition exec {A} (m : M A) (u : Ui) : Ui := (m u).2.

Definition returns {A} (m : M A) (u : Ui) : bool :=
  match (m u).1 with Normal _ => true | TypeError => false end.

End State.

Arguments Ui {_}.
Arguments M {_} A.

Notation "'let*' x ':=' m 'in' k" := (bind m (λ x, k))
  (at level 10, x name, m at level 100, k at level 200).
Notation "m ';;' k" := (bind m (λ _, k))
  (at level 100, k at level 200, right associativity).

(** ** Methods that read the same in both revisions *)

Section Shared.
Context `{JsNumber}.

(** [this.config.k] and [this.config.k = v] *)
Definition get_config (k : string) : M jsval := gets (λ u, field (config u) k).
Definition put_config (k : string) (v : jsval) : M unit :=
  modify (set_config <[k := v]>).

(** A statement that updates the node [this.nodes.n]. *)
Definition on_node (n : node_name) (f : element → element) : M unit :=
  modify (set_nodes (λ ns, set_node n (f (ns n)) ns)).

(** A statement that updates [this.nodes.imageEl]; it throws when the
    entry is [undefined]. *)
Definition on_imageEl (f : element → element) : M unit :=
  λ u, match imageEl u with
       | Some i => (Normal tt, set_media (alter f i) u)
       | None => (TypeError, u)
       end.

(** An expression that reads [this.nodes.imageEl]. *)
Definition read_imageEl {A} (g : element → A) : M A :=
  λ u, match imageEl u with
       | Some i =>
           match media u !! i with
           | Some e => (Normal (g e), u)
           | None => (TypeError, u)
           end
       | None => (TypeError, u)
       end.

(** [this.nodes.imageContainer.appendChild(c)]: a node that is already a
    child moves to the end. *)
Definition appendChild (c : child) : M unit :=
  modify (set_container (λ cs, filter (λ d, d ≠ c) cs ++ [c])).

(** [for (const x of xs) body(x)] *)
Fixpoint for_each {A} (xs : list A) (body : A → M unit) : M unit :=
  match xs with
  | [] => ret tt
  | x :: xs' => body x ;; for_each xs' body
  end.

(** [get CSS()]: the class names of the tool. *)
Definition CSS_wrapper : string := "image-tool".
Definition CSS_imageContainer : string := "image-tool__image".
Definition CSS_imagePreloader : string := "image-tool__image-preloader".
Definition CSS_imageEl : string := "image-tool__image-picture".
Definition CSS_caption : string := "image-tool__caption".
Definition CSS_setImage : string := "image-tool__setImage".
Definition CSS_alignContainer : string := "image-tool__alignContainer".
Definition CSS_leftAlign : string := "image-tool__leftAlign".
Definition CSS_centerAlign : string := "image-tool__centerAlign".
Definition CSS_rightAlign : string := "image-tool__rightAlign".
Definition CSS_alignButton : string := "image-tool__alignButton".
Definition CSS_setSizeBtn : string := "image-tool__setSizeBtn".
Definition CSS_resizeModeButton : string := "image-tool__resizeModeButton".
Definition CSS_undoResizeButton : string := "image-tool__undoResizeButton".

(** [static get status()] *)
Definition status_EMPTY : string := "empty".
Definition status_UPLOADING : string := "loading".
Definition status_FILLED : string := "filled".
Definition Ui_status : list string := [status_EMPTY; status_UPLOADING; status_FILLED].

(** [toggleStatus(status)] *)
Definition toggleStatus (status : jsval) : M unit :=
  for_each Ui_status (λ statusValue,
    on_node wrapper
      (classList_toggle (CSS_wrapper +:+ "--" +:+ statusValue)
                        (JBool (strict_eq_str status statusValue)))).

(** [applyTune(tuneName, status)] *)
Definition applyTune (tuneName : string) (status : jsval) : M unit :=
  on_node wrapper (classList_toggle (CSS_wrapper +:+ "--" +:+ tuneName) status).

(** [applyAlign()] *)
Definition applyAlign : M unit :=
  let* l := get_config "isSelectedLeft" in
  on_node leftAlign (classList_toggle "image-tool__align-selected" l) ;;
  let* c := get_config "isSelectedCenter" in
  on_node centerAlign (classList_toggle "image-tool__align-selected" c) ;;
  let* r := get_config "isSelectedRight" in
  on_node rightAlign (classList_toggle "image-tool__align-selected" r).

(** [isToggle(align)] *)
Definition isToggle (align : jsval) : jsval := js_not align.

(** [onSelectAlign(align)] *)
Definition onSelectAlign (align : jsval) : M unit :=
  let* l := get_config "isSelectedLeft" in
  put_config "isSelectedLeft"
    (if strict_eq_str align "left" then isToggle l else JBool false) ;;
  let* c := get_config "isSelectedCenter" in
  put_config "isSelectedCenter"
    (if strict_eq_str align "center" then isToggle c else JBool false) ;;
  let* r := get_config "isSelectedRight" in
  put_config "isSelectedRight"
    (if strict_eq_str align "right" then isToggle r else JBool false) ;;
  let* l := get_config "isSelectedLeft" in
  applyTune "left" l ;;
  let* c := get_config "isSelectedCenter" in
  applyTune "center" c ;;
  let* r := get_config "isSelectedRight" in
  applyTune "right" r ;;
  applyAlign.

(** [Object.keys(v)] as an expression that may throw. *)
Definition keys_of (v : jsval) : M (list string) :=
  match Object_keys v with
  | Some ks => ret ks
  | None => throw
  end.

(** [render(toolData)]; the result is the node [this.nodes.wrapper]. *)
Definition render (toolData : gmap string jsval) : M node_name :=
  let file := field toolData "file" in
  let* empty :=
    (if negb (truthy file) then ret true
     else let* ks := keys_of file in ret (Nat.eqb (length ks) 0)) in
  (if empty : bool
   then toggleStatus (JStr status_EMPTY)
   else toggleStatus (JStr status_UPLOADING)) ;;
  ret wrapper.

(** [showPreloader(src)] *)
Definition showPreloader (src : jsval) : M unit :=
  on_node imagePreloader
    (style_assign "backgroundImage" (JStr ("url(" +:+ ToString src +:+ ")"))) ;;
  toggleStatus (JStr status_UPLOADING).

(** [hidePreloader()] *)
Definition hidePreloader : M unit :=
  on_node imagePreloader (style_assign "backgroundImage" (JStr "")) ;;
  toggleStatus (JStr status_EMPTY).

(** [fillCaption(text)]; [this.nodes.caption] is an element, hence truthy. *)
Definition fillCaption (text : jsval) : M unit :=
  on_node caption (assign "innerHTML" text).

(** [/\.mp4$/.test(url)]: the pattern is tried at every position of the
    input from left to right; at a position it matches when what is left of
    the input is exactly [.mp4], since [$] without the [m] flag only matches
    at the end of the input. *)
Fixpoint regexp_mp4_test (url : string) : bool :=
  if String.eqb url ".mp4" then true
  else match url with
       | EmptyString => false
       | String _ rest => regexp_mp4_test rest
       end.

(** The arrow function that [fillImage] registers on the new element. *)
Definition fillImage_listener : M unit :=
  toggleStatus (JStr status_FILLED) ;;
  on_node imagePreloader (style_assign "backgroundImage" (JStr "")).

(** The tag, the attributes and the event name that [fillImage] computes
    before it composes the element. *)
Definition fillImage_tag (url : string) : string :=
  if regexp_mp4_test url then "VIDEO" else "IMG".

Definition fillImage_attributes (url : string) : list (string * jsval) :=
  let attributes := [("src", JStr url)] in
  if String.eqb (fillImage_tag url) "VIDEO"
  then attributes ++ [("autoplay", JBool true); ("loop", JBool true);
                      ("muted", JBool true); ("playsinline", JBool true)]
  else attributes.

Definition fillImage_eventName (url : string) : string :=
  let eventName := "load" in
  if String.eqb (fillImage_tag url) "VIDEO" then "loadeddata" else eventName.

(** [this.nodes.imageEl = el]: the new element gets the next free place in
    the store. *)
Definition new_imageEl (el : element) : M unit :=
  modify (λ u, set_imageEl (Some (length (media u))) (set_media (λ m, m ++ [el]) u)).

(** [this.nodes.imageContainer.appendChild(this.nodes.imageEl)] *)
Definition append_imageEl : M unit :=
  λ u, match imageEl u with
       | Some i => appendChild (MediaChild i) u
       | None => (TypeError, u)
       end.

End Shared.

(** ** What both constructors need *)

Section Construction.
Context `{JsNumber}.

(** [this.api.styles], the class names that the editor provides. *)
Record Api := {
  styles_block : string;
  styles_loader : string;
  styles_input : string;
  styles_button : string
}.

(** The place of a node that a revision does not create. *)
Definition no_node : element :=
  {| tagName := ""; classList := ∅; props := ∅; style := ∅; listeners := [] |}.

(** An expression that reads [this.konva.stage] or [this.konva.group] and
    goes on into it; it throws on the empty object. *)
Definition read_konva {A} (g : Konva → A) : M A :=
  λ u, match konva u with
       | Some k => (Normal (g k), u)
       | None => (TypeError, u)
       end.

(** [this.konva.stage.content.remove()] *)
Definition stage_content_remove : M unit :=
  read_konva (λ _, tt) ;;
  modify (set_container (filter (λ d, d ≠ StageContent))).

(** [new Konva.Stage({container: this.nodes.imageContainer, ...})]: the
    stage empties its container and puts its own content there. *)
Definition new_Stage : M unit := modify (set_container (λ _, [StageContent])).

(** The policy that both revisions hand to the transformer, with the
    variables of the enclosing function as arguments. *)
Definition boundBoxFunc_policy (maxWidth maxHeight : number)
    (oldBoundBox newBoundBox : box) : box :=
  if num_gt (Math_abs (width newBoundBox)) maxWidth
     || num_gt (Math_abs (height newBoundBox)) maxHeight
  then oldBoundBox
  else newBoundBox.

(** What the environment of the page may do to a [Ui] object: the user's
    clicks, keys and typing, the resize steps of the transformer, the events
    of the media elements, and the calls of the tool that owns the object.
    [click_resizeModeButton] carries what the browser and Konva measure when
    resize mode is entered: the rendered size of the image and the box of
    the transformer once it is attached to the image. *)
Inductive event :=
| click_leftAlign
| click_centerAlign
| click_rightAlign
| type_width (text : string)
| type_height (text : string)
| keydown_width (keyCode : Z)
| keydown_height (keyCode : Z)
| click_setSizeButton
| click_resizeModeButton (imgWidth imgHeight : number) (trBox : box)
| click_undoResizeButton
| transformer_resize (newBox : box)
| media_event (i : nat) (name : string)
| call_render (toolData : gmap string jsval)
| call_showPreloader (src : jsval)
| call_hidePreloader
| call_fillImage (url : string)
| call_fillCaption (text : jsval).

(** A resize step of the transformer, when there is one. *)
Definition on_transformer_resize (newBox : box) : M unit :=
  modify (λ u, set_konva (transform newBox <$> konva u) u).

(** The media element [i] fires the event [name]: the listener that
    [fillImage] registered runs when it was registered for that name. *)
Definition on_media_event (i : nat) (name : string) : M unit :=
  λ u, match media u !! i with
       | Some el =>
           if bool_decide (name ∈ listeners el)
           then fillImage_listener u
           else (Normal tt, u)
       | None => (Normal tt, u)
       end.

End Construction.

(** ** [src/src/ui.js] *)

Module SrcUi.
Section Methods.
Context `{JsNumber}.

(** [constructor({ api, config, onSelectFile, readOnly })]. The labels of
    the buttons (icons and translated texts) are left out. *)
Definition constructor (api : Api) (cfg : gmap string jsval) (readOnly : jsval) : Ui :=
  {| config := cfg;
     nodes := λ n,
       match n with
       | wrapper => make "div" [styles_block api; CSS_wrapper] []
       | imageContainer => make "div" [CSS_imageContainer] []
       | imageWidth =>
           assign "data-placeholder" (field cfg "widthPlaceholder")
             (make "div" [styles_input api; CSS_caption; CSS_setImage]
                   [("contentEditable", js_not readOnly)])
       | imageHeight =>
           assign "data-placeholder" (field cfg "heightPlaceholder")
             (make "div" [styles_input api; CSS_caption; CSS_setImage]
                   [("contentEditable", js_not readOnly)])
       | inputWidth | inputHeight => no_node
       | alignContainer => make "div" [CSS_alignContainer] []
       | leftAlign => make "button" [CSS_leftAlign; CSS_alignButton] []
       | centerAlign => make "button" [CSS_centerAlign; CSS_alignButton] []
       | rightAlign => make "button" [CSS_rightAlign; CSS_alignButton] []
       | setSizeButton => make "button" [CSS_setSizeBtn] []
       | resizeModeButton => make "button" [CSS_resizeModeButton] []
       | undoResizeButton =>
           assign "disabled" (JBool true) (make "button" [CSS_undoResizeButton] [])
       | fileButton => make "div" [styles_button api] []
       | imagePreloader => make "div" [CSS_imagePreloader] []
       | caption =>
           assign "data-placeholder" (field cfg "captionPlaceholder")
             (make "div" [styles_input api; CSS_caption]
                   [("contentEditable", js_not readOnly)])
       end;
     imageEl := None;
     media := [];
     container := [];
     konva := None |}.

(** [fillImage(url)] *)
Definition fillImage (url : string) : M unit :=
  let el := make (fillImage_tag url) [CSS_imageEl] (fillImage_attributes url) in
  new_imageEl el ;;
  on_imageEl (set_listeners (λ l, l ++ [fillImage_eventName url])) ;;
  append_imageEl.

(** The [boundBoxFunc] of [makeImageResizable]: [MAX_WIDTH = 700],
    [MAX_HEIGHT = 410]. *)
Definition MAX_WIDTH : number := num_of_Z 700.
Definition MAX_HEIGHT : number := num_of_Z 410.

Definition boundBoxFunc (oldBoundBox newBoundBox : box) : box :=
  if num_gt (Math_abs (width newBoundBox)) MAX_WIDTH
     || num_gt (Math_abs (height newBoundBox)) MAX_HEIGHT
  then oldBoundBox
  else newBoundBox.

(** [makeImageResizable(imageEl)] *)
Definition makeImageResizable (trBox : box) : M unit :=
  new_Stage ;;
  modify (set_konva (Some {| stage_width := JNum (num_of_Z 700);
                             stage_height := JNum (num_of_Z 410);
                             tr_boundBoxFunc := boundBoxFunc;
                             tr_back := trBox |})).

(** [get getImageWidth()] and [get getImageHeight()] *)
Definition getImageWidth : M string :=
  gets (λ u, prop_text (nodes u imageWidth) "textContent").
Definition getImageHeight : M string :=
  gets (λ u, prop_text (nodes u imageHeight) "textContent").

(** [onSetImageSize()] *)
Definition onSetImageSize : M unit :=
  let* w := getImageWidth in
  put_config "imageWidth"
    (if String.eqb w "" then JNum (num_of_Z 0) else JNum (Number w)) ;;
  let* h := getImageHeight in
  put_config "imageHeight"
    (if String.eqb h "" then JNum (num_of_Z 0) else JNum (Number h)) ;;
  (if negb (Nat.eqb (String.length w) 0)
   then put_config "konvaWidth" (JNum (Number w)) else ret tt) ;;
  (if negb (Nat.eqb (String.length h) 0)
   then put_config "konvaHeight" (JNum (Number h)) else ret tt) ;;
  on_imageEl (style_assign "width"
    (if String.eqb w "" then JStr "" else JStr (w +:+ "px"))) ;;
  on_imageEl (style_assign "height"
    (if String.eqb h "" then JStr "" else JStr (h +:+ "px"))).

(** The click listener of [createUndoResizeButton]. *)
Definition undoResizeButton_click : M unit :=
  let* m := get_config "isChangeResizeMode" in
  if truthy m then
    put_config "isChangeResizeMode" (js_not m) ;;
    let* m := get_config "isChangeResizeMode" in
    applyTune "resizeMode-on" m ;;
    on_node undoResizeButton (assign "disabled" (js_not m)) ;;
    on_node setSizeButton (assign "disabled" m) ;;
    on_node imageWidth (assign "contentEditable" (js_not m)) ;;
    on_node imageHeight (assign "contentEditable" (js_not m)) ;;
    stage_content_remove ;;
    on_imageEl cssText_clear ;;
    append_imageEl
  else
    on_node undoResizeButton (assign "disabled" m) ;;
    applyTune "resizeMode-on" m.

(** The click listener of [createResizeModeButton]. *)
Definition resizeModeButton_click (trBox : box) : M unit :=
  let* m := get_config "isChangeResizeMode" in
  put_config "isChangeResizeMode" (js_not m) ;;
  let* m := get_config "isChangeResizeMode" in
  applyTune "resizeMode-on" m ;;
  on_node setSizeButton (assign "disabled" m) ;;
  on_node imageWidth (assign "contentEditable" (js_not m)) ;;
  on_node imageHeight (assign "contentEditable" (js_not m)) ;;
  if truthy m then
    on_node undoResizeButton (assign "disabled" (js_not m)) ;;
    makeImageResizable trBox
  else
    on_node undoResizeButton (assign "disabled" (js_not m)) ;;
    stage_content_remove ;;
    let* w := read_konva (λ k, JNum (width (tr_back k))) in
    put_config "konvaWidth" w ;;
    let* h := read_konva (λ k, JNum (height (tr_back k))) in
    put_config "konvaHeight" h ;;
    let* kw := get_config "konvaWidth" in
    let* kh := get_config "konvaHeight" in
    on_imageEl (cssText_width_height kw kh) ;;
    append_imageEl ;;
    on_node imageWidth (assign "innerText" (parseInt kw)) ;;
    on_node imageHeight (assign "innerText" (parseInt kh)) ;;
    put_config "imageWidth" (parseInt kw) ;;
    put_config "imageHeight" (parseInt kh).

(** The listener that each event runs. Which events the browser delivers
    (none to a disabled button, no typing into a field that is not
    editable) is not modelled: every listener may run in every state. *)
Definition handle (e : event) : M unit :=
  match e with
  | click_leftAlign => onSelectAlign (JStr "left")
  | click_centerAlign => onSelectAlign (JStr "center")
  | click_rightAlign => onSelectAlign (JStr "right")
  | type_width text => on_node imageWidth (assign "textContent" (JStr text))
  | type_height text => on_node imageHeight (assign "textContent" (JStr text))
  | keydown_width keyCode | keydown_height keyCode =>
      if Z.eqb keyCode 13 then onSetImageSize else ret tt
  | click_setSizeButton => onSetImageSize
  | click_resizeModeButton _ _ trBox => resizeModeButton_click trBox
  | click_undoResizeButton => undoResizeButton_click
  | transformer_resize newBox => on_transformer_resize newBox
  | media_event i name => on_media_event i name
  | call_render toolData => render toolData ;; ret tt
  | call_showPreloader src => showPreloader src
  | call_hidePreloader => hidePreloader
  | call_fillImage url => fillImage url
  | call_fillCaption text => fillCaption text
  end.

Definition step (u : Ui) (e : event) : Ui := exec (handle e) u.

(** The state after a run of events. *)
Definition run (u : Ui) (es : list event) : Ui := foldl step u es.

End Methods.
End SrcUi.

(** ** [src/unnamed/part_000] *)

Module Part000.
Section Methods.
Context `{JsNumber}.

(** [constructor({ api, config, onSelectFile, readOnly })]. The labels of
    the buttons (icons and translated texts) are left out. *)
Definition constructor (api : Api) (cfg : gmap string jsval) (readOnly : jsval) : Ui :=
  {| config := cfg;
     nodes := λ n,
       match n with
       | wrapper => make "div" [styles_block api; CSS_wrapper] []
       | imageContainer => make "div" [CSS_imageContainer] []
       | inputWidth =>
           assign "placeholder"
             (js_or (field cfg "width") (field cfg "widthPlaceholder"))
             (make "input" [styles_input api; CSS_caption; CSS_setImage]
                   [("contentEditable", js_not readOnly)])
       | inputHeight =>
           assign "placeholder"
             (js_or (field cfg "height") (field cfg "heightPlaceholder"))
             (make "input" [styles_input api; CSS_caption; CSS_setImage]
                   [("contentEditable", js_not readOnly)])
       | imageWidth | imageHeight => no_node
       | alignContainer => make "div" [CSS_alignContainer] []
       | leftAlign => make "button" [CSS_leftAlign; CSS_alignButton] []
       | centerAlign => make "button" [CSS_centerAlign; CSS_alignButton] []
       | rightAlign => make "button" [CSS_rightAlign; CSS_alignButton] []
       | setSizeButton => make "button" [CSS_setSizeBtn] []
       | resizeModeButton => make "button" [CSS_resizeModeButton] []
       | undoResizeButton =>
           assign "disabled" (JBool true) (make "button" [CSS_undoResizeButton] [])
       | fileButton => make "div" [styles_button api] []
       | imagePreloader => make "div" [CSS_imagePreloader] []
       | caption =>
           assign "data-placeholder" (field cfg "captionPlaceholder")
             (make "div" [styles_input api; CSS_caption]
                   [("contentEditable", js_not readOnly)])
       end;
     imageEl := None;
     media := [];
     container := [];
     konva := None |}.

(** [fillImage(url)] *)
Definition fillImage (url : string) : M unit :=
  let el := make (fillImage_tag url) [CSS_imageEl] (fillImage_attributes url) in
  new_imageEl el ;;
  let* w := get_config "width" in
  on_imageEl (style_assign "width" w) ;;
  let* h := get_config "height" in
  on_imageEl (style_assign "height" h) ;;
  on_imageEl (set_listeners (λ l, l ++ [fillImage_eventName url])) ;;
  append_imageEl.

(** The [boundBoxFunc] of [makeImageResizable]; [canvasWidth] is the value
    of [this.config.konvaWidth], which [>] converts to a number, and
    [canvasHeight] is a number. *)
Definition boundBoxFunc (canvasWidth : jsval) (canvasHeight : number)
    (oldBoundBox newBoundBox : box) : box :=
  if num_gt (Math_abs (width newBoundBox)) (ToNumber canvasWidth)
     || num_gt (Math_abs (height newBoundBox)) canvasHeight
  then oldBoundBox
  else newBoundBox.

(** [makeImageResizable(imageEl)]; [imgWidth] and [imgHeight] are what
    [this.nodes.imageEl.width] and [this.nodes.imageEl.height] read. *)
Definition makeImageResizable (imgWidth imgHeight : number) (trBox : box) : M unit :=
  let* imgWidth := read_imageEl (λ _, imgWidth) in
  let* imgHeight := read_imageEl (λ _, imgHeight) in
  let* canvasWidth := get_config "konvaWidth" in
  let canvasHeight := num_mul (num_div imgHeight imgWidth) (ToNumber canvasWidth) in
  new_Stage ;;
  modify (set_konva (Some {| stage_width := canvasWidth;
                             stage_height := JNum canvasHeight;
                             tr_boundBoxFunc := boundBoxFunc canvasWidth canvasHeight;
                             tr_back := trBox |})).

(** [onSetImageSize()] *)
Definition onSetImageSize : M unit :=
  let* wv := gets (λ u, prop_text (nodes u inputWidth) "value") in
  let* hv := gets (λ u, prop_text (nodes u inputHeight) "value") in
  let currentInputWidth := JNum (Number wv) in
  let currentInputHeight := JNum (Number hv) in
  if truthy (JStr wv) then
    if truthy (JStr hv) then
      on_imageEl (style_assign "width" currentInputWidth) ;;
      on_imageEl (style_assign "height" currentInputHeight)
    else
      let* prevHeight := read_imageEl (λ el, style_get el "height") in
      on_imageEl (style_assign "width" currentInputWidth) ;;
      on_imageEl (style_assign "height" prevHeight)
  else
    if truthy (JStr hv) then
      let* prevWidth := read_imageEl (λ el, style_get el "width") in
      on_imageEl (style_assign "width" prevWidth) ;;
      on_imageEl (style_assign "height" currentInputHeight)
    else ret tt.

(** The click listener of [createSetSizeButton]. *)
Definition setSizeButton_click : M unit :=
  onSetImageSize ;;
  let* w := read_imageEl (λ el, style_get el "width") in
  on_node inputWidth (assign "placeholder" w) ;;
  let* h := read_imageEl (λ el, style_get el "height") in
  on_node inputHeight (assign "placeholder" h).

(** The keydown listeners of the two size fields. *)
Definition inputWidth_keydown (keyCode : Z) : M unit :=
  if Z.eqb keyCode 13 then
    onSetImageSize ;;
    let* w := read_imageEl (λ el, style_get el "width") in
    on_node inputWidth (assign "placeholder" w)
  else ret tt.

Definition inputHeight_keydown (keyCode : Z) : M unit :=
  if Z.eqb keyCode 13 then
    onSetImageSize ;;
    let* h := read_imageEl (λ el, style_get el "height") in
    on_node inputHeight (assign "placeholder" h)
  else ret tt.

(** The click listener of [createUndoResizeButton]. *)
Definition undoResizeButton_click : M unit :=
  let* m := get_config "isChangeResizeMode" in
  if truthy m then
    put_config "isChangeResizeMode" (js_not m) ;;
    let* m := get_config "isChangeResizeMode" in
    applyTune "resizeMode-on" m ;;
    on_node undoResizeButton (assign "disabled" (js_not m)) ;;
    on_node setSizeButton (assign "disabled" m) ;;
    on_node inputWidth (assign "contentEditable" (js_not m)) ;;
    on_node inputHeight (assign "contentEditable" (js_not m)) ;;
    stage_content_remove ;;
    on_imageEl cssText_clear ;;
    append_imageEl
  else
    on_node undoResizeButton (assign "disabled" m) ;;
    applyTune "resizeMode-on" m.

(** The click listener of [createResizeModeButton]. *)
Definition resizeModeButton_click (imgWidth imgHeight : number) (trBox : box) : M unit :=
  let* m := get_config "isChangeResizeMode" in
  put_config "isChangeResizeMode" (js_not m) ;;
  let* m := get_config "isChangeResizeMode" in
  applyTune "resizeMode-on" m ;;
  on_node setSizeButton (assign "disabled" m) ;;
  on_node inputWidth (assign "contentEditable" (js_not m)) ;;
  on_node inputHeight (assign "contentEditable" (js_not m)) ;;
  if truthy m then
    on_node imageContainer
      (style_assign "backgroundImage"
         (JStr "url('https://cdn.pixabay.com/photo/2016/07/29/23/03/white-1556097_1280.png')")) ;;
    makeImageResizable imgWidth imgHeight trBox ;;
    on_node undoResizeButton (style_assign "visibility" (JStr "hidden"))
  else
    stage_content_remove ;;
    on_node imageContainer (style_assign "backgroundImage" (JStr "")) ;;
    on_node undoResizeButton (style_assign "visibility" (JStr "visible")) ;;
    on_node undoResizeButton (assign "disabled" (JBool false)) ;;
    let* w := read_konva (λ k, JNum (width (tr_back k))) in
    put_config "width" w ;;
    let* h := read_konva (λ k, JNum (height (tr_back k))) in
    put_config "height" h ;;
    let* cw := get_config "width" in
    let* ch := get_config "height" in
    on_imageEl (cssText_width_height cw ch) ;;
    append_imageEl ;;
    on_node inputHeight
      (assign "placeholder" (JStr (ToString (parseInt ch) +:+ " px"))).

(** The listener that each event runs; as in [SrcUi.handle], every listener
    may run in every state. *)
Definition handle (e : event) : M unit :=
  match e with
  | click_leftAlign => onSelectAlign (JStr "left")
  | click_centerAlign => onSelectAlign (JStr "center")
  | click_rightAlign => onSelectAlign (JStr "right")
  | type_width text => on_node inputWidth (assign "value" (JStr text))
  | type_height text => on_node inputHeight (assign "value" (JStr text))
  | keydown_width keyCode => inputWidth_keydown keyCode
  | keydown_height keyCode => inputHeight_keydown keyCode
  | click_setSizeButton => setSizeButton_click
  | click_resizeModeButton imgWidth imgHeight trBox =>
      resizeModeButton_click imgWidth imgHeight trBox
  | click_undoResizeButton => undoResizeButton_click
  | transformer_resize newBox => on_transformer_resize newBox
  | media_event i name => on_media_event i name
  | call_render toolData => render toolData ;; ret tt
  | call_showPreloader src => showPreloader src
  | call_hidePreloader => hidePreloader
  | call_fillImage url => fillImage url
  | call_fillCaption text => fillCaption text
  end.

Definition step (u : Ui) (e : event) : Ui := exec (handle e) u.

(** The state after a run of events. *)
Definition run (u : Ui) (es : list event) : Ui := foldl step u es.

End Methods.
End Part000.

(** ** [src/src/ui.js], second class *)

(** The file carries a second [Ui] class (from line 646), an earlier
    revision without the controls of the resize canvas. Its
    [onSetImageSize] reads the same two fields as the first class. *)
Module SrcUi2.
Section Methods.
Context `{JsNumber}.

(** [onSetImageSize()] *)
Definition onSetImageSize : M unit :=
  let* w := SrcUi.getImageWidth in
  put_config "imageWidth"
    (if String.eqb w "" then JNum (num_of_Z 0) else JNum (Number w)) ;;
  let* h := SrcUi.getImageHeight in
  put_config "imageHeight"
    (if String.eqb h "" then JNum (num_of_Z 0) else JNum (Number h)) ;;
  on_imageEl (style_assign "width"
    (if String.eqb w "" then JStr "" else JStr (w +:+ "px"))) ;;
  on_imageEl (style_assign "height"
    (if String.eqb h "" then JStr "" else JStr (h +:+ "px"))).

End Methods.
End SrcUi2.

(** ** The interface on integers, to run the model *)

(** Integers and [NaN]. The operations agree with JavaScript on the integers
    below 2^53 in magnitude, on texts that are empty or a decimal integer
    (for [Number]) or that start with one (for [parseInt]), and on divisions
    that leave no remainder; other inputs give [INaN]. The examples below
    stay within these. *)
Inductive intnum :=
| INaN
| IInt (z : Z).

Definition digit_of (c : ascii) : option Z :=
  let n := Z.of_N (N_of_ascii c) in
  if (48 <=? n) && (n <=? 57) then Some (n - 48) else None.

(** The value of the longest prefix of digits, after [acc], and what is left
    of the text. *)
Fixpoint read_digits (s : string) (acc : option Z) : option Z * string :=
  match s with
  | EmptyString => (acc, s)
  | String c rest =>
      match digit_of c with
      | Some d => read_digits rest (Some (10 * default 0 acc + d))
      | None => (acc, s)
      end
  end.

Definition read_signed (s : string) : option Z * string :=
  match s with
  | String "-"%char rest => let '(v, r) := read_digits rest None in (Z.opp <$> v, r)
  | String "+"%char rest => read_digits rest None
  | _ => read_digits s None
  end.

Definition int_Number (s : string) : intnum :=
  if String.eqb s "" then IInt 0
  else match read_signed s with
       | (Some z, EmptyString) => IInt z
       | _ => INaN
       end.

Definition int_parseInt (s : string) : intnum :=
  match read_signed s with
  | (Some z, _) => IInt z
  | _ => INaN
  end.

Definition int_abs (a : intnum) : intnum :=
  match a with IInt z => IInt (Z.abs z) | INaN => INaN end.

Definition int_gt (a b : intnum) : bool :=
  match a, b with IInt p, IInt q => q <? p | _, _ => false end.

Definition int_div (a b : intnum) : intnum :=
  match a, b with
  | IInt p, IInt q =>
      if (q =? 0) || negb (p mod q =? 0) then INaN else IInt (p / q)
  | _, _ => INaN
  end.

Definition int_mul (a b : intnum) : intnum :=
  match a, b with IInt p, IInt q => IInt (p * q) | _, _ => INaN end.

Definition int_truthy (a : intnum) : bool :=
  match a with IInt z => negb (z =? 0) | INaN => false end.

Definition int_to_string (a : intnum) : string :=
  match a with IInt z => pretty z | INaN => "NaN" end.

#[global] Instance int_JsNumber : JsNumber := {|
  number := intnum;
  num_of_Z := IInt;
  NaN := INaN;
  Math_abs := int_abs;
  num_gt := int_gt;
  num_div := int_div;
  num_mul := int_mul;
  num_truthy := int_truthy;
  num_to_string := int_to_string;
  Number := int_Number;
  parseInt_str := int_parseInt
|}.

(** A box of integer size at the origin. *)
Definition int_box (w h : Z) : box :=
  {| box_x := IInt 0; box_y := IInt 0; width := IInt w; height := IInt h;
     box_rotation := IInt 0 |}.

(** The class names of the editor used in the examples. *)
Definition example_api : Api :=
  {| styles_block := "cdx-block"; styles_loader := "cdx-loader";
     styles_input := "cdx-input"; styles_button := "cdx-button" |}.

(** ** Vocabulary of the properties *)

(** The three positions that the alignment buttons pass to
    [onSelectAlign]. *)
Inductive position :=
| pos_left
| pos_center
| pos_right.

#[global] Instance position_eq_dec : EqDecision position.
Proof. solve_decision. Defined.

Definition positions : list position := [pos_left; pos_center; pos_right].

(** The argument of [onSelectAlign] and the flag of [this.config] that
    belong to a position. *)
Definition pos_name (p : position) : string :=
  match p with
  | pos_left => "left"
  | pos_center => "center"
  | pos_right => "right"
  end.

Definition flag (p : position) : string :=
  match p with
  | pos_left => "isSelectedLeft"
  | pos_center => "isSelectedCenter"
  | pos_right => "isSelectedRight"
  end.

Section Vocabulary.
Context `{JsNumber}.

(** A position is selected when its flag is true. *)
Definition selected (u : Ui) (p : position) : bool :=
  truthy (field (config u) (flag p)).

(** How many of the three flags are true. *)
Definition count_selected (u : Ui) : nat :=
  length (filter (λ p, selected u p = true) positions).

(** A run of [onSelectAlign] calls. *)
Definition select_all (u : Ui) (ps : list position) : Ui :=
  foldl (λ u p, exec (onSelectAlign (JStr (pos_name p))) u) u ps.

(** The statuses whose class the wrapper carries, in the order of
    [Ui.status]. The component is in a status when this is that status
    alone. *)
Definition shown_status (u : Ui) : list string :=
  filter (λ st, CSS_wrapper +:+ "--" +:+ st ∈ classList (nodes u wrapper)) Ui_status.

(** Interactive-resize mode is on when [this.config.isChangeResizeMode] is
    true. *)
Definition resize_mode (u : Ui) : bool :=
  truthy (field (config u) "isChangeResizeMode").

(** A field can be typed into when its [contentEditable] is ["true"]; a
    button can be pressed when it is not disabled. *)
Definition editable (e : element) : bool :=
  strict_eq_str (prop e "contentEditable") "true".

Definition enabled (e : element) : bool :=
  negb (truthy (prop e "disabled")).

(** A box exceeds the extent [maxWidth] x [maxHeight] when the test of
    [boundBoxFunc] says so. *)
Definition exceeds (maxWidth maxHeight : number) (b : box) : bool :=
  num_gt (Math_abs (width b)) maxWidth || num_gt (Math_abs (height b)) maxHeight.

(** The inline style of the element that [this.nodes.imageEl] refers to. *)
Definition image_style (u : Ui) : option (gmap string jsval) :=
  i ← imageEl u; style <$> media u !! i.

(** A text ends in [suffix]. *)
Definition ends_in (suffix s : string) : Prop := ∃ prefix, s = prefix +:+ suffix.

(** The status that [render] shows, by the shape of [toolData.file]: the
    loading status for an object with at least one property of its own and
    for a non-empty string, the empty status for everything else. *)
Definition render_status (file : jsval) : string :=
  match file with
  | JObj (_ :: _) => status_UPLOADING
  | JStr (String _ _) => status_UPLOADING
  | _ => status_EMPTY
  end.

(** The box of a transformer after a run of resize steps. *)
Definition resizes (k : Konva) (news : list box) : Konva :=
  foldl (λ k newBox, transform newBox k) k news.

(** Entering resize mode, then a run of resize steps: a session. *)
Definition SrcUi_session (u : Ui) (imgWidth imgHeight : number) (trBox : box)
    (news : list box) : Ui :=
  SrcUi.run u (click_resizeModeButton imgWidth imgHeight trBox
               :: (transformer_resize <$> news)).

Definition Part000_session (u : Ui) (imgWidth imgHeight : number) (trBox : box)
    (news : list box) : Ui :=
  Part000.run u (click_resizeModeButton imgWidth imgHeight trBox
                 :: (transformer_resize <$> news)).

(** A declaration of the inline style of the image, as [style[name]] reads
    it. *)
Definition image_style_get (u : Ui) (name : string) : option jsval :=
  i ← imageEl u; (λ e, style_get e name) <$> media u !! i.

(** While resize mode is on, the apply-size control is disabled and the two
    size fields are not editable. *)
Definition single_writer (widthField heightField : node_name) (u : Ui) : Prop :=
  resize_mode u = true →
  enabled (nodes u setSizeButton) = false ∧
  editable (nodes u widthField) = false ∧
  editable (nodes u heightField) = false.

End Vocabulary.

(** The class that [applyTune] and [toggleStatus] toggle on the wrapper for
    a name. *)
Definition tune_class (name : string) : string := CSS_wrapper +:+ "--" +:+ name.

(** The button of a position. *)
Definition align_button (p : position) : node_name :=
  match p with
  | pos_left => leftAlign
  | pos_center => centerAlign
  | pos_right => rightAlign
  end.

Section FurtherVocabulary.
Context `{JsNumber}.

(** The last box of a run of requests that does not exceed the extent, and
    [start] when there is none. *)
Definition last_accepted (maxWidth maxHeight : number) (start : box)
    (news : list box) : box :=
  default start (last (filter (λ b, exceeds maxWidth maxHeight b = false) news)).

(** The canvas of the resize session is on the page exactly while resize
    mode is on, and then [this.konva] holds its stage. *)
Definition stage_shown (u : Ui) : Prop :=
  (resize_mode u = true → StageContent ∈ container u ∧ is_Some (konva u)) ∧
  (resize_mode u = false → StageContent ∉ container u).

(** The statuses whose class an element carries. *)
Definition status_classes (e : element) : list string :=
  filter (λ st, CSS_wrapper +:+ "--" +:+ st ∈ classList e) Ui_status.

End FurtherVocabulary.

(** ** Blocks used in the concrete runs *)

(** A block in the editor: constructed with an empty configuration, then
    filled with a still image. *)
Definition src_ui_filled : Ui :=
  SrcUi.run (SrcUi.constructor example_api ∅ (JBool false)) [call_fillImage "a.jpg"].

Definition part000_filled : Ui :=
  Part000.run
    (Part000.constructor example_api {[ "konvaWidth" := JNum (IInt 600) ]} (JBool false))
    [call_fillImage "a.jpg"].

(** The same block after 300 and 200 were typed and applied. *)
Definition src_ui_sized : Ui :=
  SrcUi.run src_ui_filled [type_width "300"; type_height "200"; click_setSizeButton].

(** A block as the constructor leaves it, read-only or not. *)
Definition src_ui_fresh (readOnly : bool) : Ui :=
  SrcUi.constructor example_api ∅ (JBool readOnly).

Definition part000_fresh (readOnly : bool) : Ui :=
  Part000.constructor example_api ∅ (JBool readOnly).

(** A filled block with 300 and 200 typed into its size fields. *)
Definition src_ui_typed : Ui :=
  SrcUi.run src_ui_filled [type_width "300"; type_height "200"].

Definition part000_typed : Ui :=
  Part000.run part000_filled [type_width "300"; type_height "200"].

(** A filled block in resize mode. *)
Definition src_ui_resizing : Ui :=
  SrcUi.run src_ui_filled
    [click_resizeModeButton (IInt 300) (IInt 200) (int_box 300 200)].

(** A filled block in resize mode with 400 typed into its width field. *)
Definition src_ui_entering_400 : Ui :=
  SrcUi.run (src_ui_fresh false)
    [call_fillImage "a.jpg";
     click_resizeModeButton (IInt 300) (IInt 200) (int_box 300 200);
     type_width "400"].

Definition part000_entering_400 : Ui :=
  Part000.run (part000_fresh false)
    [call_fillImage "a.jpg";
     click_resizeModeButton (IInt 300) (IInt 200) (int_box 300 200);
     type_width "400"].

(** ** Basic facts *)

Section BasicFacts.
Context `{JsNumber}.

Lemma field_insert k v (c : gmap string jsval) : field (<[k:=v]> c) k = v.
Proof. unfold field. by rewrite lookup_insert_eq. Qed.

Lemma field_insert_ne k k' v (c : gmap string jsval) :
  k ≠ k' → field (<[k:=v]> c) k' = field c k'.
Proof. intros Hne. unfold field. by rewrite lookup_insert_ne. Qed.

Lemma truthy_js_not v : truthy (js_not v) = negb (truthy v).
Proof. reflexivity. Qed.

(** Sequencing after code that returns. *)
Lemma exec_bind {A B} (m : M A) (k : A → M B) u a u1 :
  m u = (Normal a, u1) → exec (bind m k) u = exec (k a) u1.
Proof. intros Hm. unfold exec, bind. by rewrite Hm. Qed.

(** [onSelectAlign] always returns. *)
Lemma onSelectAlign_returns align u :
  onSelectAlign align u = (Normal tt, exec (onSelectAlign align) u).
Proof. reflexivity. Qed.

(** The flags after one call of [onSelectAlign]. *)
Lemma onSelectAlign_config align u :
  config (exec (onSelectAlign align) u) =
  <["isSelectedRight" :=
      if strict_eq_str align "right"
      then isToggle (field (config u) "isSelectedRight") else JBool false]>
  (<["isSelectedCenter" :=
      if strict_eq_str align "center"
      then isToggle (field (config u) "isSelectedCenter") else JBool false]>
  (<["isSelectedLeft" :=
      if strict_eq_str align "left"
      then isToggle (field (config u) "isSelectedLeft") else JBool false]>
   (config u))).
Proof.
  unfold onSelectAlign, applyAlign, applyTune, on_node, put_config, get_config,
    exec, bind, gets, modify.
  cbn. by rewrite !field_insert_ne.
Qed.

Lemma onSelectAlign_flag align u q :
  field (config (exec (onSelectAlign align) u)) (flag q) =
  if strict_eq_str align (pos_name q)
  then JBool (negb (selected u q)) else JBool false.
Proof.
  rewrite onSelectAlign_config. unfold selected.
  destruct q; cbn [flag pos_name];
    rewrite ?field_insert; rewrite ?field_insert_ne by done;
    rewrite ?field_insert; rewrite ?field_insert_ne by done;
    rewrite ?field_insert; reflexivity.
Qed.

Lemma strict_eq_pos_name p q :
  strict_eq_str (JStr (pos_name p)) (pos_name q) = bool_decide (p = q).
Proof. by destruct p, q. Qed.

Lemma count_selected_flags u (b : position → bool) :
  (∀ q, selected u q = b q) →
  count_selected u =
  (Nat.b2n (b pos_left) + Nat.b2n (b pos_center) + Nat.b2n (b pos_right))%nat.
Proof.
  intros Hb. unfold count_selected, positions.
  rewrite !filter_cons, filter_nil, !Hb.
  destruct (b pos_left), (b pos_center), (b pos_right); reflexivity.
Qed.

End BasicFacts.

(** ** Alignment *)

Section Alignment.
Context `{JsNumber}.

(** C1. After every call of a run of [onSelectAlign] calls with positions
    among left, center and right, at most one of the three flags is true:
    the position of the call is selected exactly when it was not selected
    before the call, and every other position is not selected, so that
    selecting a position clears whichever other one was selected. *)
Theorem onSelectAlign_at_most_one (u0 : Ui) (ps : list position) (p : position) :
  let u := select_all u0 ps in
  let u' := exec (onSelectAlign (JStr (pos_name p))) u in
  (count_selected u' ≤ 1)%nat ∧
  ∀ q, field (config u') (flag q) = JBool (bool_decide (p = q) && negb (selected u q)).
Proof.
  intros u u'.
  assert (Hq : ∀ q, field (config u') (flag q)
                 = JBool (bool_decide (p = q) && negb (selected u q))).
  { intros q. unfold u'. rewrite onSelectAlign_flag, strict_eq_pos_name.
    by destruct (bool_decide (p = q)). }
  split; [|exact Hq].
  rewrite (count_selected_flags u' (λ q, bool_decide (p = q) && negb (selected u q))).
  - destruct p; repeat case_bool_decide; try done;
      repeat destruct (selected u _); cbn; lia.
  - intros q. unfold selected at 1. by rewrite Hq.
Qed.

(** C2, as the code has it. Two calls of [onSelectAlign] in a row with the
    same position leave the flag of that position at the boolean value it
    started from and the other two flags false: no alignment is selected
    afterwards exactly when that position was not selected at the start. *)
Theorem onSelectAlign_twice (x : position) (u : Ui) :
  let u' := exec (onSelectAlign (JStr (pos_name x)) ;; onSelectAlign (JStr (pos_name x))) u in
  (∀ q, field (config u') (flag q) = JBool (bool_decide (x = q) && selected u q)) ∧
  (count_selected u' = 0%nat ↔ selected u x = false).
Proof.
  intros u'.
  assert (Hq : ∀ q, field (config u') (flag q)
                 = JBool (bool_decide (x = q) && selected u q)).
  { intros q. unfold u'.
    rewrite (exec_bind _ (λ _, onSelectAlign (JStr (pos_name x))) u tt _
               (onSelectAlign_returns _ u)).
    rewrite onSelectAlign_flag, strict_eq_pos_name.
    unfold selected at 1. rewrite onSelectAlign_flag, strict_eq_pos_name.
    destruct (bool_decide (x = q)); cbn; [by rewrite negb_involutive | done]. }
  split; [exact Hq|].
  rewrite (count_selected_flags u' (λ q, bool_decide (x = q) && selected u q)).
  - destruct x; repeat case_bool_decide; try done;
      cbn; (match goal with |- _ ↔ ?s = false => destruct s end);
      cbn; split; intros; try done; try lia.
  - intros q. unfold selected at 1. by rewrite Hq.
Qed.

(** C10. An argument that is none of ['left'], ['center'] and ['right']
    sets all three flags to [false]. *)
Theorem onSelectAlign_unknown_position (align : jsval) (u : Ui) :
  align ≠ JStr "left" → align ≠ JStr "center" → align ≠ JStr "right" →
  ∀ q, field (config (exec (onSelectAlign align) u)) (flag q) = JBool false.
Proof.
  intros Hl Hc Hr q. rewrite onSelectAlign_flag.
  assert (Hne : strict_eq_str align (pos_name q) = false).
  { destruct align as [| | | |s|]; try reflexivity. cbn.
    apply String.eqb_neq. intros ->. destruct q; contradiction. }
  by rewrite Hne.
Qed.

End Alignment.

(** ** Statuses, [render] and [fillImage] *)

Section Status.
Context `{JsNumber}.

Lemma classList_toggle_bool tok (b : bool) e :
  classList (classList_toggle tok (JBool b) e) =
  if b then {[tok]} ∪ classList e else classList e ∖ {[tok]}.
Proof. by destruct b. Qed.

(** [toggleStatus] always returns. *)
Lemma toggleStatus_returns s u :
  toggleStatus s u = (Normal tt, exec (toggleStatus s) u).
Proof. reflexivity. Qed.

Lemma toggleStatus_classList s u :
  classList (nodes (exec (toggleStatus s) u) wrapper) =
  let c0 := classList (nodes u wrapper) in
  let c1 := if strict_eq_str s "empty"
            then {["image-tool--empty"]} ∪ c0 else c0 ∖ {["image-tool--empty"]} in
  let c2 := if strict_eq_str s "loading"
            then {["image-tool--loading"]} ∪ c1 else c1 ∖ {["image-tool--loading"]} in
  if strict_eq_str s "filled"
  then {["image-tool--filled"]} ∪ c2 else c2 ∖ {["image-tool--filled"]}.
Proof.
  unfold toggleStatus, Ui_status, for_each, on_node, exec, bind, modify, ret.
  cbn -[classList_toggle]. by rewrite !classList_toggle_bool.
Qed.

(** After [toggleStatus(s)] with one of the three statuses, the component
    is in that status. *)
Lemma toggleStatus_shown st u :
  st ∈ Ui_status → shown_status (exec (toggleStatus (JStr st)) u) = [st].
Proof.
  intros Hst. unfold shown_status. rewrite toggleStatus_classList.
  unfold Ui_status, status_EMPTY, status_UPLOADING, status_FILLED in *.
  set_unfold in Hst.
  destruct Hst as [->|[->|[->|[]]]]; cbn [strict_eq_str];
    repeat match goal with
           | |- context [String.eqb ?a ?b] =>
               let r := eval vm_compute in (String.eqb a b) in
               change (String.eqb a b) with r
           end; cbn zeta iota;
    change (CSS_wrapper +:+ "--" +:+ "empty") with "image-tool--empty";
    change (CSS_wrapper +:+ "--" +:+ "loading") with "image-tool--loading";
    change (CSS_wrapper +:+ "--" +:+ "filled") with "image-tool--filled";
    rewrite !filter_cons, filter_nil; repeat case_decide; try done;
    exfalso; set_unfold; intuition (congruence || done).
Qed.

(** C8, as the code has it. [render(toolData)] never throws. It shows the
    empty status when [toolData.file] is absent, [undefined], [null], a
    number, a boolean, the empty string or an object without properties, and
    the loading status when it is an object with at least one property
    (with or without [url]) or a non-empty string. *)
Theorem render_shows_status (toolData : gmap string jsval) (u : Ui) :
  returns (render toolData) u = true ∧
  shown_status (exec (render toolData) u) = [render_status (field toolData "file")].
Proof.
  unfold returns, render, keys_of, exec, bind, ret, throw.
  destruct (field toolData "file") as [| |[|]|n|[|c s]|[|kv ps]] eqn:Hfile;
    cbn -[toggleStatus]; try destruct (num_truthy n); cbn -[toggleStatus];
    rewrite toggleStatus_returns; cbn -[toggleStatus];
    (split; [reflexivity|]); apply toggleStatus_shown;
    unfold Ui_status; rewrite !elem_of_cons; auto.
Qed.

(** [/\\.mp4$/.test(url)] holds exactly of the texts that end in [.mp4]. *)
Lemma regexp_mp4_test_sound url : regexp_mp4_test url = true → ends_in ".mp4" url.
Proof.
  induction url as [|c rest IH]; cbn [regexp_mp4_test].
  - destruct (String.eqb "" ".mp4") eqn:E; [discriminate E | discriminate].
  - destruct (String.eqb (String c rest) ".mp4") eqn:E.
    + intros _. apply String.eqb_eq in E. exists "". by rewrite E.
    + intros Hrest. destruct (IH Hrest) as [p ->]. by exists (String c p).
Qed.

Lemma regexp_mp4_test_complete prefix : regexp_mp4_test (prefix +:+ ".mp4") = true.
Proof.
  induction prefix as [|c p IH]; [reflexivity|].
  change (String c p +:+ ".mp4") with (String c (p +:+ ".mp4")).
  cbn [regexp_mp4_test]. rewrite IH. by case_match.
Qed.

Lemma regexp_mp4_test_ends_in url : regexp_mp4_test url = true ↔ ends_in ".mp4" url.
Proof.
  split; [apply regexp_mp4_test_sound|].
  intros [p ->]. apply regexp_mp4_test_complete.
Qed.

(** The element that [fillImage] stores. *)
Lemma fillImage_imageEl url u :
  let u' := exec (SrcUi.fillImage url) u in
  imageEl u' = Some (length (media u)) ∧
  media u' !! length (media u) =
    Some (set_listeners (λ l, l ++ [fillImage_eventName url])
            (make (fillImage_tag url) [CSS_imageEl] (fillImage_attributes url))) ∧
  nodes u' = nodes u ∧ config u' = config u.
Proof.
  unfold SrcUi.fillImage, new_imageEl, on_imageEl, append_imageEl, appendChild,
    exec, bind, modify.
  cbn -[make fillImage_tag fillImage_attributes fillImage_eventName].
  split; [reflexivity|]. split; [|by split].
  rewrite list_lookup_alter. case_decide; [|done].
  rewrite lookup_app_r by lia. by rewrite Nat.sub_diag.
Qed.

(** C7. [fillImage(url)] composes a [VIDEO] element exactly when the URL
    ends in [.mp4], with [autoplay], [loop], [muted] and [playsinline] set to
    true and a listener on [loadeddata]; otherwise it composes an [IMG]
    element with a listener on [load]. The call leaves the status as it is;
    the status becomes filled when the new element fires the event of its
    listener, and stays as it is when it fires any other event. *)
Theorem fillImage_video_iff_mp4 (url : string) (u : Ui) :
  let u' := exec (SrcUi.fillImage url) u in
  let i := length (media u) in
  ∃ el, imageEl u' = Some i ∧ media u' !! i = Some el ∧
    (tagName el = "VIDEO" ↔ ends_in ".mp4" url) ∧
    (ends_in ".mp4" url →
       prop el "autoplay" = JBool true ∧ prop el "loop" = JBool true ∧
       prop el "muted" = JBool true ∧ prop el "playsinline" = JBool true ∧
       prop el "src" = JStr url ∧ listeners el = ["loadeddata"]) ∧
    (¬ ends_in ".mp4" url →
       tagName el = "IMG" ∧ props el = {[ "src" := JStr url ]} ∧
       listeners el = ["load"]) ∧
    shown_status u' = shown_status u ∧
    ∀ name,
      shown_status (exec (on_media_event i name) u') =
      if bool_decide (name ∈ listeners el) then [status_FILLED] else shown_status u.
Proof.
  intros u' i.
  destruct (fillImage_imageEl url u) as (Hi & Hel & Hnodes & _).
  fold u' i in Hi, Hel, Hnodes.
  eexists. split; [exact Hi|]. split; [exact Hel|].
  rewrite <- regexp_mp4_test_ends_in.
  assert (Hshown : shown_status u' = shown_status u).
  { unfold shown_status. by rewrite Hnodes. }
  assert (Hevent : ∀ el name, media u' !! i = Some el →
            shown_status (exec (on_media_event i name) u') =
            if bool_decide (name ∈ listeners el) then [status_FILLED] else shown_status u).
  { intros el name Hl. unfold on_media_event, exec. rewrite Hl.
    case_bool_decide; [|exact Hshown].
    unfold fillImage_listener, bind. rewrite toggleStatus_returns.
    cbn -[toggleStatus].
    change (nodes (exec (toggleStatus (JStr status_FILLED)) u') wrapper)
      with ((nodes (exec (toggleStatus (JStr status_FILLED)) u')) wrapper).
    pose proof (toggleStatus_shown status_FILLED u') as Hf.
    unfold shown_status in Hf. unfold shown_status. cbn -[toggleStatus filter].
    apply Hf. unfold Ui_status. rewrite !elem_of_cons. auto. }
  unfold fillImage_tag, fillImage_attributes, fillImage_eventName, fillImage_tag
    in Hel |- *.
  destruct (regexp_mp4_test url) eqn:Htest.
  - repeat split; try done. intros name. by apply Hevent.
  - repeat split; try done. intros name. by apply Hevent.
Qed.

End Status.

(** ** Symbolic execution of the listeners *)

(** Runs the listeners on a state whose components are explicit; the
    operations on elements and on values stay folded. *)
Ltac run_ui :=
  cbv beta iota zeta delta
    [SrcUi.run SrcUi.step SrcUi.handle SrcUi.resizeModeButton_click
     SrcUi.undoResizeButton_click SrcUi.makeImageResizable SrcUi.onSetImageSize
     SrcUi.getImageWidth SrcUi.getImageHeight SrcUi.fillImage
     Part000.run Part000.step Part000.handle Part000.resizeModeButton_click
     Part000.undoResizeButton_click Part000.makeImageResizable
     Part000.onSetImageSize Part000.setSizeButton_click
     Part000.inputWidth_keydown Part000.inputHeight_keydown Part000.fillImage
     new_imageEl onSelectAlign applyAlign render keys_of showPreloader
     hidePreloader fillCaption on_transformer_resize on_media_event
     fillImage_listener toggleStatus for_each Ui_status
     stage_content_remove read_konva read_imageEl new_Stage
     applyTune on_node put_config get_config on_imageEl append_imageEl
     appendChild exec bind gets modify ret throw
     set_config set_nodes set_imageEl set_media set_container set_konva
     config nodes imageEl media container konva
     set_node node_index Nat.eqb fst snd negb foldl
     option_fmap option_map fmap].

Ltac simpl_field :=
  repeat (rewrite field_insert || rewrite field_insert_ne by done).

Section ElementFacts.
Context `{JsNumber}.

(** Reading a property after an assignment. *)
Lemma prop_assign n v e n' :
  prop (assign n v e) n' =
  if String.eqb (prop_key n) (prop_key n')
  then (if is_boolean_prop (prop_key n) then JBool (truthy v)
        else if is_string_prop (prop_key n) then JStr (ToString v) else v)
  else prop e n'.
Proof.
  unfold prop, assign. cbn [props set_props].
  destruct (String.eqb_spec (prop_key n) (prop_key n')) as [<-|Hne].
  - by rewrite lookup_insert_eq.
  - by rewrite lookup_insert_ne.
Qed.

Lemma prop_classList_toggle t f e n : prop (classList_toggle t f e) n = prop e n.
Proof. unfold classList_toggle. by repeat case_match. Qed.

Lemma prop_style_assign k v e n : prop (style_assign k v e) n = prop e n.
Proof. unfold style_assign. by case_match. Qed.

(** Reading a declaration of the inline style after an assignment. *)
Lemma style_get_assign k v e : style_get (style_assign k v e) k = v.
Proof.
  unfold style_get, style_assign.
  destruct (strict_eq_str v "") eqn:Hv; cbn [style set_style].
  - rewrite lookup_delete_eq. destruct v as [| | | |s|]; try discriminate Hv.
    cbn in Hv. apply String.eqb_eq in Hv. by subst s.
  - by rewrite lookup_insert_eq.
Qed.

Lemma style_get_assign_ne k k' v e :
  k ≠ k' → style_get (style_assign k v e) k' = style_get e k'.
Proof.
  intros Hne. unfold style_get, style_assign.
  destruct (strict_eq_str v ""); cbn [style set_style].
  - by rewrite lookup_delete_ne.
  - by rewrite lookup_insert_ne.
Qed.

End ElementFacts.

(** Rewrites reads of properties through the assignments of a listener. *)
Ltac simpl_prop :=
  unfold prop_text, enabled, editable;
  rewrite ?prop_assign, ?prop_classList_toggle, ?prop_style_assign;
  repeat match goal with
         | |- context [String.eqb (prop_key ?a) (prop_key ?b)] =>
             let r := eval vm_compute in (String.eqb (prop_key a) (prop_key b)) in
             change (String.eqb (prop_key a) (prop_key b)) with r
         | |- context [is_boolean_prop (prop_key ?a)] =>
             let r := eval vm_compute in (is_boolean_prop (prop_key a)) in
             change (is_boolean_prop (prop_key a)) with r
         | |- context [is_string_prop (prop_key ?a)] =>
             let r := eval vm_compute in (is_string_prop (prop_key a)) in
             change (is_string_prop (prop_key a)) with r
         end;
  cbv beta iota.

(** ** The bound-box policy and the resize session *)

Section Resize.
Context `{JsNumber}.

Lemma resizes_boundBoxFunc k news :
  tr_boundBoxFunc (resizes k news) = tr_boundBoxFunc k.
Proof.
  revert k. induction news as [|b news IH]; intros k; [reflexivity|].
  cbn [resizes foldl]. fold (resizes (transform b k) news). by rewrite IH.
Qed.

Lemma resizes_snoc k news newBox :
  tr_back (resizes k (news ++ [newBox])) =
  tr_boundBoxFunc k (tr_back (resizes k news)) newBox.
Proof.
  unfold resizes at 1. rewrite foldl_app. cbn [foldl transform tr_back].
  fold (resizes k news). by rewrite resizes_boundBoxFunc.
Qed.

(** Both revisions instantiate one policy. *)
Lemma SrcUi_boundBoxFunc_policy :
  SrcUi.boundBoxFunc = boundBoxFunc_policy SrcUi.MAX_WIDTH SrcUi.MAX_HEIGHT.
Proof. reflexivity. Qed.

Lemma Part000_boundBoxFunc_policy canvasWidth canvasHeight :
  Part000.boundBoxFunc canvasWidth canvasHeight =
  boundBoxFunc_policy (ToNumber canvasWidth) canvasHeight.
Proof. reflexivity. Qed.

(** A box that does not exceed the extent stays so under the policy,
    whatever is asked for. *)
Lemma policy_keeps_extent maxWidth maxHeight oldBox newBox :
  exceeds maxWidth maxHeight oldBox = false →
  exceeds maxWidth maxHeight (boundBoxFunc_policy maxWidth maxHeight oldBox newBox) = false.
Proof.
  intros Hold. unfold boundBoxFunc_policy.
  fold (exceeds maxWidth maxHeight newBox).
  by destruct (exceeds maxWidth maxHeight newBox) eqn:Hnew.
Qed.

Lemma resizes_keep_extent maxWidth maxHeight k news :
  tr_boundBoxFunc k = boundBoxFunc_policy maxWidth maxHeight →
  exceeds maxWidth maxHeight (tr_back k) = false →
  exceeds maxWidth maxHeight (tr_back (resizes k news)) = false.
Proof.
  intros Hf Hk. induction news as [|b news IH] using rev_ind; [exact Hk|].
  rewrite resizes_snoc, Hf. by apply policy_keeps_extent.
Qed.

(** A run of resize steps only moves the transformer. *)
Lemma SrcUi_run_resizes u news :
  SrcUi.run u (transformer_resize <$> news) =
  set_konva ((λ k, resizes k news) <$> konva u) u.
Proof.
  revert u. induction news as [|b news IH]; intros u.
  - destruct u as [? ? ? ? ? [k|]]; reflexivity.
  - cbn [fmap list_fmap]. unfold SrcUi.run. cbn [foldl].
    fold (SrcUi.run (SrcUi.step u (transformer_resize b)) (transformer_resize <$> news)).
    rewrite IH. destruct u as [? ? ? ? ? [k|]]; reflexivity.
Qed.

Lemma Part000_run_resizes u news :
  Part000.run u (transformer_resize <$> news) =
  set_konva ((λ k, resizes k news) <$> konva u) u.
Proof.
  revert u. induction news as [|b news IH]; intros u.
  - destruct u as [? ? ? ? ? [k|]]; reflexivity.
  - cbn [fmap list_fmap]. unfold Part000.run. cbn [foldl].
    fold (Part000.run (Part000.step u (transformer_resize b)) (transformer_resize <$> news)).
    rewrite IH. destruct u as [? ? ? ? ? [k|]]; reflexivity.
Qed.

(** The state of a session of [src/src/ui.js]. *)
Lemma SrcUi_session_state u imgWidth imgHeight trBox news :
  resize_mode u = false →
  let u2 := SrcUi_session u imgWidth imgHeight trBox news in
  resize_mode u2 = true ∧
  (∀ k, k ≠ "isChangeResizeMode" → field (config u2) k = field (config u) k) ∧
  imageEl u2 = imageEl u ∧ media u2 = media u ∧
  container u2 = [StageContent] ∧
  konva u2 = Some (resizes {| stage_width := JNum (num_of_Z 700);
                              stage_height := JNum (num_of_Z 410);
                              tr_boundBoxFunc := SrcUi.boundBoxFunc;
                              tr_back := trBox |} news).
Proof.
  unfold resize_mode, SrcUi_session. intros Hm.
  change (SrcUi.run u (click_resizeModeButton imgWidth imgHeight trBox
                       :: (transformer_resize <$> news)))
    with (SrcUi.run (SrcUi.step u (click_resizeModeButton imgWidth imgHeight trBox))
                    (transformer_resize <$> news)).
  rewrite SrcUi_run_resizes.
  destruct u as [cfg nds iel med cont kv]. cbn in Hm.
  run_ui. simpl_field. rewrite truthy_js_not, Hm. run_ui.
  repeat split; try reflexivity.
  - by rewrite ?field_insert, truthy_js_not, Hm.
  - intros k Hk. by rewrite field_insert_ne.
Qed.

(** The state of a session of [part_000], when there is an image. *)
Lemma Part000_session_state u imgWidth imgHeight trBox news i el :
  resize_mode u = false → imageEl u = Some i → media u !! i = Some el →
  let u2 := Part000_session u imgWidth imgHeight trBox news in
  let canvasWidth := field (config u) "konvaWidth" in
  let canvasHeight := num_mul (num_div imgHeight imgWidth) (ToNumber canvasWidth) in
  resize_mode u2 = true ∧
  (∀ k, k ≠ "isChangeResizeMode" → field (config u2) k = field (config u) k) ∧
  imageEl u2 = imageEl u ∧ media u2 = media u ∧
  container u2 = [StageContent] ∧
  konva u2 = Some (resizes {| stage_width := canvasWidth;
                              stage_height := JNum canvasHeight;
                              tr_boundBoxFunc := Part000.boundBoxFunc canvasWidth canvasHeight;
                              tr_back := trBox |} news).
Proof.
  unfold resize_mode, Part000_session. intros Hm Hi Hel.
  change (Part000.run u (click_resizeModeButton imgWidth imgHeight trBox
                         :: (transformer_resize <$> news)))
    with (Part000.run (Part000.step u (click_resizeModeButton imgWidth imgHeight trBox))
                      (transformer_resize <$> news)).
  rewrite Part000_run_resizes.
  destruct u as [cfg nds iel med cont kv]. cbn in Hm, Hi, Hel. subst iel.
  run_ui. simpl_field. rewrite truthy_js_not, Hm. run_ui.
  repeat (rewrite Hel; run_ui). simpl_field.
  repeat split; try reflexivity.
  - by rewrite ?field_insert, truthy_js_not, Hm.
  - intros k Hk. by rewrite field_insert_ne.
Qed.

End Resize.

Section LeavingResizeMode.
Context `{JsNumber}.

(** A press of the resize-mode control while the mode is on, in
    [src/src/ui.js]. *)
Lemma SrcUi_exit u2 a b trBox k i :
  resize_mode u2 = true → konva u2 = Some k → imageEl u2 = Some i →
  let u3 := SrcUi.step u2 (click_resizeModeButton a b trBox) in
  let w := JNum (width (tr_back k)) in
  let h := JNum (height (tr_back k)) in
  resize_mode u3 = false ∧
  field (config u3) "konvaWidth" = w ∧ field (config u3) "konvaHeight" = h ∧
  field (config u3) "imageWidth" = parseInt w ∧
  field (config u3) "imageHeight" = parseInt h ∧
  imageEl u3 = Some i ∧
  media u3 = alter (cssText_width_height w h) i (media u2) ∧
  container u3 =
    filter (λ d, d ≠ MediaChild i) (filter (λ d, d ≠ StageContent) (container u2))
    ++ [MediaChild i] ∧
  prop_text (nodes u3 imageWidth) "textContent" = ToString (parseInt w) ∧
  prop_text (nodes u3 imageHeight) "textContent" = ToString (parseInt h).
Proof.
  unfold resize_mode. intros Hm Hk Hi.
  destruct u2 as [cfg nds iel med cont kv]. cbn in Hm, Hk, Hi. subst iel kv.
  run_ui. simpl_field. rewrite truthy_js_not, Hm. run_ui. simpl_field.
  repeat split; try reflexivity; try (by simpl_prop).
  by rewrite truthy_js_not, Hm.
Qed.

(** The same in [part_000]. *)
Lemma Part000_exit u2 a b trBox k i :
  resize_mode u2 = true → konva u2 = Some k → imageEl u2 = Some i →
  let u3 := Part000.step u2 (click_resizeModeButton a b trBox) in
  let w := JNum (width (tr_back k)) in
  let h := JNum (height (tr_back k)) in
  resize_mode u3 = false ∧
  field (config u3) "width" = w ∧ field (config u3) "height" = h ∧
  imageEl u3 = Some i ∧
  media u3 = alter (cssText_width_height w h) i (media u2) ∧
  container u3 =
    filter (λ d, d ≠ MediaChild i) (filter (λ d, d ≠ StageContent) (container u2))
    ++ [MediaChild i] ∧
  prop_text (nodes u3 inputHeight) "placeholder" = ToString (parseInt h) +:+ " px".
Proof.
  unfold resize_mode. intros Hm Hk Hi.
  destruct u2 as [cfg nds iel med cont kv]. cbn in Hm, Hk, Hi. subst iel kv.
  run_ui. simpl_field. rewrite truthy_js_not, Hm. run_ui. simpl_field.
  repeat split; try reflexivity; try (by simpl_prop).
  by rewrite truthy_js_not, Hm.
Qed.

(** A press of the undo control while the mode is on, in either revision. *)
Lemma SrcUi_undo u2 k i :
  resize_mode u2 = true → konva u2 = Some k → imageEl u2 = Some i →
  let u3 := SrcUi.step u2 click_undoResizeButton in
  resize_mode u3 = false ∧
  (∀ key, key ≠ "isChangeResizeMode" → field (config u3) key = field (config u2) key) ∧
  imageEl u3 = Some i ∧
  media u3 = alter cssText_clear i (media u2) ∧
  container u3 =
    filter (λ d, d ≠ MediaChild i) (filter (λ d, d ≠ StageContent) (container u2))
    ++ [MediaChild i].
Proof.
  unfold resize_mode. intros Hm Hk Hi.
  destruct u2 as [cfg nds iel med cont kv]. cbn in Hm, Hk, Hi. subst iel kv.
  run_ui. rewrite Hm. run_ui. simpl_field.
  repeat split; try reflexivity.
  - by rewrite truthy_js_not, Hm.
  - intros key Hkey. by rewrite field_insert_ne.
Qed.

Lemma Part000_undo u2 k i :
  resize_mode u2 = true → konva u2 = Some k → imageEl u2 = Some i →
  let u3 := Part000.step u2 click_undoResizeButton in
  resize_mode u3 = false ∧
  (∀ key, key ≠ "isChangeResizeMode" → field (config u3) key = field (config u2) key) ∧
  imageEl u3 = Some i ∧
  media u3 = alter cssText_clear i (media u2) ∧
  container u3 =
    filter (λ d, d ≠ MediaChild i) (filter (λ d, d ≠ StageContent) (container u2))
    ++ [MediaChild i].
Proof.
  unfold resize_mode. intros Hm Hk Hi.
  destruct u2 as [cfg nds iel med cont kv]. cbn in Hm, Hk, Hi. subst iel kv.
  run_ui. rewrite Hm. run_ui. simpl_field.
  repeat split; try reflexivity.
  - by rewrite truthy_js_not, Hm.
  - intros key Hkey. by rewrite field_insert_ne.
Qed.

(** The inline style of the image after its element was altered. *)
Lemma image_style_alter (u u' : Ui) i el f :
  imageEl u' = Some i → media u !! i = Some el → media u' = alter f i (media u) →
  image_style u' = Some (style (f el)).
Proof.
  intros Hi Hel Hm. unfold image_style. rewrite Hi, Hm. cbn.
  rewrite list_lookup_alter. case_decide; [|done]. by rewrite Hel.
Qed.

(** The image container once the stage is gone and the image is back. *)
Lemma container_after_session i :
  filter (λ d, d ≠ MediaChild i) (filter (λ d, d ≠ StageContent) [StageContent])
  ++ [MediaChild i] = [MediaChild i].
Proof.
  rewrite filter_cons, filter_nil. case_decide; [done|]. by rewrite filter_nil.
Qed.

End LeavingResizeMode.

Section ResizeClaims.
Context `{JsNumber}.

(** C3, as the code has it. In both revisions [boundBoxFunc] returns the old
    box unchanged whenever the width or the height asked for exceeds the
    extent of the canvas in absolute value, and the box asked for otherwise.
    Consequently, in a session whose transformer starts from a box that does
    not exceed the extent, the box never exceeds it, and neither does the
    size that leaving resize mode commits. (The extent is 700 x 410 in
    [src/src/ui.js]; in [part_000] it is [config.konvaWidth] by the height
    computed from the rendered image.) *)
Theorem boundBoxFunc_rejects_oversize :
  (∀ oldBox newBox,
     SrcUi.boundBoxFunc oldBox newBox =
     if exceeds SrcUi.MAX_WIDTH SrcUi.MAX_HEIGHT newBox then oldBox else newBox) ∧
  (∀ canvasWidth canvasHeight oldBox newBox,
     Part000.boundBoxFunc canvasWidth canvasHeight oldBox newBox =
     if exceeds (ToNumber canvasWidth) canvasHeight newBox then oldBox else newBox) ∧
  (∀ u imgW imgH trBox news imgW' imgH' trBox' i,
     resize_mode u = false → imageEl u = Some i →
     exceeds SrcUi.MAX_WIDTH SrcUi.MAX_HEIGHT trBox = false →
     let u2 := SrcUi_session u imgW imgH trBox news in
     let u3 := SrcUi.step u2 (click_resizeModeButton imgW' imgH' trBox') in
     ∃ b, tr_back <$> konva u2 = Some b ∧
          exceeds SrcUi.MAX_WIDTH SrcUi.MAX_HEIGHT b = false ∧
          field (config u3) "konvaWidth" = JNum (width b) ∧
          field (config u3) "konvaHeight" = JNum (height b)) ∧
  (∀ u imgW imgH trBox news imgW' imgH' trBox' i el,
     resize_mode u = false → imageEl u = Some i → media u !! i = Some el →
     let canvasWidth := ToNumber (field (config u) "konvaWidth") in
     let canvasHeight := num_mul (num_div imgH imgW) canvasWidth in
     exceeds canvasWidth canvasHeight trBox = false →
     let u2 := Part000_session u imgW imgH trBox news in
     let u3 := Part000.step u2 (click_resizeModeButton imgW' imgH' trBox') in
     ∃ b, tr_back <$> konva u2 = Some b ∧
          exceeds canvasWidth canvasHeight b = false ∧
          field (config u3) "width" = JNum (width b) ∧
          field (config u3) "height" = JNum (height b)).
Proof.
  split; [reflexivity|]. split; [reflexivity|]. split.
  - intros u imgW imgH trBox news imgW' imgH' trBox' i Hm Hi Hbox u2 u3.
    destruct (SrcUi_session_state u imgW imgH trBox news Hm)
      as (Hm2 & _ & Hi2 & _ & _ & Hk2).
    fold u2 in Hm2, Hi2, Hk2. rewrite Hi in Hi2.
    destruct (SrcUi_exit u2 imgW' imgH' trBox' _ i Hm2 Hk2 Hi2)
      as (_ & Hw & Hh & _).
    fold u3 in Hw, Hh.
    eexists. rewrite Hk2. split; [reflexivity|]. split; [|by split].
    by apply resizes_keep_extent.
  - intros u imgW imgH trBox news imgW' imgH' trBox' i el Hm Hi Hel
           canvasWidth canvasHeight Hbox u2 u3.
    destruct (Part000_session_state u imgW imgH trBox news i el Hm Hi Hel)
      as (Hm2 & _ & Hi2 & _ & _ & Hk2).
    fold u2 in Hm2, Hi2, Hk2. rewrite Hi in Hi2.
    destruct (Part000_exit u2 imgW' imgH' trBox' _ i Hm2 Hk2 Hi2)
      as (_ & Hw & Hh & _).
    fold u3 in Hw, Hh.
    eexists. rewrite Hk2. split; [reflexivity|]. split; [|by split].
    by apply resizes_keep_extent.
Qed.

(** C4. Entering resize mode, resizing the proxy (through any steps) to a
    last size that does not exceed the extent, and pressing the resize-mode
    control again: the width and the height of that last box are written
    to [config.konvaWidth] and [config.konvaHeight] in [src/src/ui.js]
    ([config.imageWidth] and [config.imageHeight] get their [parseInt]) and
    to [config.width] and [config.height] in [part_000]; the image element
    gets the inline style [width:<w>px;height:<h>px;] and is the only child
    of the image container again; resize mode is off. *)
Theorem resize_commits_final_size :
  (∀ u imgW imgH trBox news newBox imgW' imgH' trBox' i el,
     resize_mode u = false → imageEl u = Some i → media u !! i = Some el →
     exceeds SrcUi.MAX_WIDTH SrcUi.MAX_HEIGHT newBox = false →
     let u3 := SrcUi.step (SrcUi_session u imgW imgH trBox (news ++ [newBox]))
                          (click_resizeModeButton imgW' imgH' trBox') in
     let w := JNum (width newBox) in
     let h := JNum (height newBox) in
     field (config u3) "konvaWidth" = w ∧ field (config u3) "konvaHeight" = h ∧
     field (config u3) "imageWidth" = parseInt w ∧
     field (config u3) "imageHeight" = parseInt h ∧
     image_style u3 = Some {[ "width" := JStr (num_to_string (width newBox) +:+ "px");
                              "height" := JStr (num_to_string (height newBox) +:+ "px") ]} ∧
     container u3 = [MediaChild i] ∧
     resize_mode u3 = false) ∧
  (∀ u imgW imgH trBox news newBox imgW' imgH' trBox' i el,
     resize_mode u = false → imageEl u = Some i → media u !! i = Some el →
     let canvasWidth := ToNumber (field (config u) "konvaWidth") in
     let canvasHeight := num_mul (num_div imgH imgW) canvasWidth in
     exceeds canvasWidth canvasHeight newBox = false →
     let u3 := Part000.step (Part000_session u imgW imgH trBox (news ++ [newBox]))
                            (click_resizeModeButton imgW' imgH' trBox') in
     field (config u3) "width" = JNum (width newBox) ∧
     field (config u3) "height" = JNum (height newBox) ∧
     image_style u3 = Some {[ "width" := JStr (num_to_string (width newBox) +:+ "px");
                              "height" := JStr (num_to_string (height newBox) +:+ "px") ]} ∧
     container u3 = [MediaChild i] ∧
     resize_mode u3 = false).
Proof.
  split.
  - intros u imgW imgH trBox news newBox imgW' imgH' trBox' i el Hm Hi Hel Hnew u3 w h.
    destruct (SrcUi_session_state u imgW imgH trBox (news ++ [newBox]) Hm)
      as (Hm2 & _ & Hi2 & Hmedia2 & Hc2 & Hk2).
    rewrite Hi in Hi2.
    destruct (SrcUi_exit _ imgW' imgH' trBox' _ i Hm2 Hk2 Hi2)
      as (Hm3 & Hw & Hh & Hiw & Hih & Hi3 & Hmedia3 & Hc3 & _).
    fold u3 in Hm3, Hw, Hh, Hiw, Hih, Hi3, Hmedia3, Hc3.
    rewrite resizes_snoc in Hw, Hh, Hiw, Hih, Hmedia3. cbn [tr_boundBoxFunc] in *.
    unfold SrcUi.boundBoxFunc in *. fold (exceeds SrcUi.MAX_WIDTH SrcUi.MAX_HEIGHT newBox) in *.
    rewrite Hnew in *. rewrite Hmedia2 in Hmedia3. rewrite Hc2 in Hc3.
    repeat split; try assumption;
      try (by rewrite Hc3, container_after_session).
    by rewrite (image_style_alter _ u3 i el _ Hi3 Hel Hmedia3).
  - intros u imgW imgH trBox news newBox imgW' imgH' trBox' i el Hm Hi Hel
           canvasWidth canvasHeight Hnew u3.
    destruct (Part000_session_state u imgW imgH trBox (news ++ [newBox]) i el Hm Hi Hel)
      as (Hm2 & _ & Hi2 & Hmedia2 & Hc2 & Hk2).
    rewrite Hi in Hi2.
    destruct (Part000_exit _ imgW' imgH' trBox' _ i Hm2 Hk2 Hi2)
      as (Hm3 & Hw & Hh & Hi3 & Hmedia3 & Hc3 & _).
    fold u3 in Hm3, Hw, Hh, Hi3, Hmedia3, Hc3.
    rewrite resizes_snoc in Hw, Hh, Hmedia3. cbn [tr_boundBoxFunc] in *.
    unfold Part000.boundBoxFunc in *.
    fold canvasWidth in Hw, Hh, Hmedia3. fold canvasHeight in Hw, Hh, Hmedia3.
    fold (exceeds canvasWidth canvasHeight newBox) in *.
    rewrite Hnew in *. rewrite Hmedia2 in Hmedia3. rewrite Hc2 in Hc3.
    repeat split; try assumption;
      try (by rewrite Hc3, container_after_session).
    by rewrite (image_style_alter _ u3 i el _ Hi3 Hel Hmedia3).
Qed.

(** C5, as the code has it. Entering resize mode, resizing the proxy in any
    way, and pressing the undo control: every field of [this.config] other
    than the mode flag, hence every width and height field, has the value
    from before resize mode was entered; the stage is gone and the image
    element is the only child of the image container again; resize mode is
    off. The inline style of the image element is emptied: the image keeps
    the inline size it had before exactly when it had no inline style. *)
Theorem undo_discards_resize :
  (∀ u imgW imgH trBox news i el,
     resize_mode u = false → imageEl u = Some i → media u !! i = Some el →
     let u3 := SrcUi.step (SrcUi_session u imgW imgH trBox news) click_undoResizeButton in
     (∀ key, key ≠ "isChangeResizeMode" → field (config u3) key = field (config u) key) ∧
     image_style u3 = Some ∅ ∧
     (image_style u3 = image_style u ↔ style el = ∅) ∧
     container u3 = [MediaChild i] ∧
     resize_mode u3 = false) ∧
  (∀ u imgW imgH trBox news i el,
     resize_mode u = false → imageEl u = Some i → media u !! i = Some el →
     let u3 := Part000.step (Part000_session u imgW imgH trBox news) click_undoResizeButton in
     (∀ key, key ≠ "isChangeResizeMode" → field (config u3) key = field (config u) key) ∧
     image_style u3 = Some ∅ ∧
     (image_style u3 = image_style u ↔ style el = ∅) ∧
     container u3 = [MediaChild i] ∧
     resize_mode u3 = false).
Proof.
  assert (Hstyle : ∀ u i el, imageEl u = Some i → media u !! i = Some el →
            image_style u = Some (style el)).
  { intros u i el Hi Hel. unfold image_style. rewrite Hi. cbn. by rewrite Hel. }
  split.
  - intros u imgW imgH trBox news i el Hm Hi Hel u3.
    destruct (SrcUi_session_state u imgW imgH trBox news Hm)
      as (Hm2 & Hcfg2 & Hi2 & Hmedia2 & Hc2 & Hk2).
    rewrite Hi in Hi2.
    destruct (SrcUi_undo _ _ i Hm2 Hk2 Hi2) as (Hm3 & Hcfg3 & Hi3 & Hmedia3 & Hc3).
    fold u3 in Hm3, Hcfg3, Hi3, Hmedia3, Hc3.
    rewrite Hmedia2 in Hmedia3. rewrite Hc2 in Hc3.
    assert (Hs3 : image_style u3 = Some ∅)
      by (by rewrite (image_style_alter _ u3 i el _ Hi3 Hel Hmedia3)).
    repeat split; try assumption;
      try (by rewrite Hc3, container_after_session);
      try (rewrite Hs3, (Hstyle u i el Hi Hel); congruence).
    intros key Hkey. by rewrite Hcfg3, Hcfg2.
  - intros u imgW imgH trBox news i el Hm Hi Hel u3.
    destruct (Part000_session_state u imgW imgH trBox news i el Hm Hi Hel)
      as (Hm2 & Hcfg2 & Hi2 & Hmedia2 & Hc2 & Hk2).
    rewrite Hi in Hi2.
    destruct (Part000_undo _ _ i Hm2 Hk2 Hi2) as (Hm3 & Hcfg3 & Hi3 & Hmedia3 & Hc3).
    fold u3 in Hm3, Hcfg3, Hi3, Hmedia3, Hc3.
    rewrite Hmedia2 in Hmedia3. rewrite Hc2 in Hc3.
    assert (Hs3 : image_style u3 = Some ∅)
      by (by rewrite (image_style_alter _ u3 i el _ Hi3 Hel Hmedia3)).
    repeat split; try assumption;
      try (by rewrite Hc3, container_after_session);
      try (rewrite Hs3, (Hstyle u i el Hi Hel); congruence).
    intros key Hkey. by rewrite Hcfg3, Hcfg2.
Qed.

End ResizeClaims.

(** ** Manual size entry *)

Section ManualSize.
Context `{JsNumber}.

Lemma image_style_get_alter2 cfg nds med cont kv i el f g name :
  med !! i = Some el →
  image_style_get {| config := cfg; nodes := nds; imageEl := Some i;
                     media := alter g i (alter f i med);
                     container := cont; konva := kv |} name
  = Some (style_get (g (f el)) name).
Proof.
  intros Hel. unfold image_style_get. cbn [imageEl media mbind option_bind].
  rewrite !list_lookup_alter. case_decide; [|done]. by rewrite Hel.
Qed.

(** [onSetImageSize] of [src/src/ui.js] with a width and no height. *)
Lemma SrcUi_onSetImageSize_width u w i el :
  prop_text (nodes u imageWidth) "textContent" = w → w ≠ "" →
  prop_text (nodes u imageHeight) "textContent" = "" →
  imageEl u = Some i → media u !! i = Some el →
  let u' := exec SrcUi.onSetImageSize u in
  field (config u') "imageWidth" = JNum (Number w) ∧
  field (config u') "konvaWidth" = JNum (Number w) ∧
  image_style_get u' "width" = Some (JStr (w +:+ "px")) ∧
  field (config u') "imageHeight" = JNum (num_of_Z 0) ∧
  image_style_get u' "height" = Some (JStr "") ∧
  field (config u') "konvaHeight" = field (config u) "konvaHeight".
Proof.
  intros Hw Hne Hh Hi Hel.
  destruct u as [cfg nds iel med cont kv]. cbn in Hw, Hh, Hi, Hel. subst iel.
  destruct w as [|c w']; [done|].
  run_ui. rewrite Hw, Hh. cbn [String.eqb String.length Nat.eqb negb]. run_ui.
  simpl_field.
  repeat split; try reflexivity.
  - rewrite (image_style_get_alter2 _ _ med _ _ i el _ _ "width" Hel).
    by rewrite style_get_assign_ne, style_get_assign.
  - rewrite (image_style_get_alter2 _ _ med _ _ i el _ _ "height" Hel).
    by rewrite style_get_assign.
Qed.

(** The same with a height and no width. *)
Lemma SrcUi_onSetImageSize_height u h i el :
  prop_text (nodes u imageWidth) "textContent" = "" →
  prop_text (nodes u imageHeight) "textContent" = h → h ≠ "" →
  imageEl u = Some i → media u !! i = Some el →
  let u' := exec SrcUi.onSetImageSize u in
  field (config u') "imageHeight" = JNum (Number h) ∧
  field (config u') "konvaHeight" = JNum (Number h) ∧
  image_style_get u' "height" = Some (JStr (h +:+ "px")) ∧
  field (config u') "imageWidth" = JNum (num_of_Z 0) ∧
  image_style_get u' "width" = Some (JStr "") ∧
  field (config u') "konvaWidth" = field (config u) "konvaWidth".
Proof.
  intros Hw Hh Hne Hi Hel.
  destruct u as [cfg nds iel med cont kv]. cbn in Hw, Hh, Hi, Hel. subst iel.
  destruct h as [|c h']; [done|].
  run_ui. rewrite Hw, Hh. cbn [String.eqb String.length Nat.eqb negb]. run_ui.
  simpl_field.
  repeat split; try reflexivity.
  - rewrite (image_style_get_alter2 _ _ med _ _ i el _ _ "height" Hel).
    by rewrite style_get_assign.
  - rewrite (image_style_get_alter2 _ _ med _ _ i el _ _ "width" Hel).
    by rewrite style_get_assign_ne, style_get_assign.
Qed.

(** [onSetImageSize] of [part_000] with a width and no height. *)
Lemma Part000_onSetImageSize_width u w i el :
  prop_text (nodes u inputWidth) "value" = w → w ≠ "" →
  prop_text (nodes u inputHeight) "value" = "" →
  imageEl u = Some i → media u !! i = Some el →
  let u' := exec Part000.onSetImageSize u in
  image_style_get u' "width" = Some (JNum (Number w)) ∧
  image_style_get u' "height" = Some (style_get el "height") ∧
  config u' = config u.
Proof.
  intros Hw Hne Hh Hi Hel.
  destruct u as [cfg nds iel med cont kv]. cbn in Hw, Hh, Hi, Hel. subst iel.
  destruct w as [|c w']; [done|].
  run_ui. rewrite Hw, Hh. cbn [truthy String.eqb negb]. run_ui.
  rewrite Hel. run_ui.
  repeat split.
  - rewrite (image_style_get_alter2 _ _ med _ _ i el _ _ "width" Hel).
    by rewrite style_get_assign_ne, style_get_assign.
  - rewrite (image_style_get_alter2 _ _ med _ _ i el _ _ "height" Hel).
    by rewrite style_get_assign.
Qed.

(** The same with a height and no width. *)
Lemma Part000_onSetImageSize_height u h i el :
  prop_text (nodes u inputWidth) "value" = "" →
  prop_text (nodes u inputHeight) "value" = h → h ≠ "" →
  imageEl u = Some i → media u !! i = Some el →
  let u' := exec Part000.onSetImageSize u in
  image_style_get u' "height" = Some (JNum (Number h)) ∧
  image_style_get u' "width" = Some (style_get el "width") ∧
  config u' = config u.
Proof.
  intros Hw Hh Hne Hi Hel.
  destruct u as [cfg nds iel med cont kv]. cbn in Hw, Hh, Hi, Hel. subst iel.
  destruct h as [|c h']; [done|].
  run_ui. rewrite Hw, Hh. cbn [truthy String.eqb negb]. run_ui.
  rewrite Hel. run_ui.
  repeat split.
  - rewrite (image_style_get_alter2 _ _ med _ _ i el _ _ "height" Hel).
    by rewrite style_get_assign.
  - rewrite (image_style_get_alter2 _ _ med _ _ i el _ _ "width" Hel).
    by rewrite style_get_assign_ne, style_get_assign.
Qed.

(** C6, as the code has it. With a text in the width field and the height
    field empty, [onSetImageSize] of [src/src/ui.js] sets
    [config.imageWidth], [config.konvaWidth] and the inline width of the
    image from the text, and clears the height: [config.imageHeight]
    becomes 0 and the inline height is removed; only [config.konvaHeight]
    keeps its value. [onSetImageSize] of [part_000] assigns the number
    entered to the inline width and leaves the inline height (and
    [this.config]) as it was. Symmetrically for a height without a width. *)
Theorem onSetImageSize_one_field_empty :
  (∀ u w i el,
     prop_text (nodes u imageWidth) "textContent" = w → w ≠ "" →
     prop_text (nodes u imageHeight) "textContent" = "" →
     imageEl u = Some i → media u !! i = Some el →
     let u' := exec SrcUi.onSetImageSize u in
     field (config u') "imageWidth" = JNum (Number w) ∧
     field (config u') "konvaWidth" = JNum (Number w) ∧
     image_style_get u' "width" = Some (JStr (w +:+ "px")) ∧
     field (config u') "imageHeight" = JNum (num_of_Z 0) ∧
     image_style_get u' "height" = Some (JStr "") ∧
     field (config u') "konvaHeight" = field (config u) "konvaHeight") ∧
  (∀ u h i el,
     prop_text (nodes u imageWidth) "textContent" = "" →
     prop_text (nodes u imageHeight) "textContent" = h → h ≠ "" →
     imageEl u = Some i → media u !! i = Some el →
     let u' := exec SrcUi.onSetImageSize u in
     field (config u') "imageHeight" = JNum (Number h) ∧
     field (config u') "konvaHeight" = JNum (Number h) ∧
     image_style_get u' "height" = Some (JStr (h +:+ "px")) ∧
     field (config u') "imageWidth" = JNum (num_of_Z 0) ∧
     image_style_get u' "width" = Some (JStr "") ∧
     field (config u') "konvaWidth" = field (config u) "konvaWidth") ∧
  (∀ u w i el,
     prop_text (nodes u inputWidth) "value" = w → w ≠ "" →
     prop_text (nodes u inputHeight) "value" = "" →
     imageEl u = Some i → media u !! i = Some el →
     let u' := exec Part000.onSetImageSize u in
     image_style_get u' "width" = Some (JNum (Number w)) ∧
     image_style_get u' "height" = Some (style_get el "height") ∧
     config u' = config u) ∧
  (∀ u h i el,
     prop_text (nodes u inputWidth) "value" = "" →
     prop_text (nodes u inputHeight) "value" = h → h ≠ "" →
     imageEl u = Some i → media u !! i = Some el →
     let u' := exec Part000.onSetImageSize u in
     image_style_get u' "height" = Some (JNum (Number h)) ∧
     image_style_get u' "width" = Some (style_get el "width") ∧
     config u' = config u).
Proof.
  split; [exact SrcUi_onSetImageSize_width|].
  split; [exact SrcUi_onSetImageSize_height|].
  split; [exact Part000_onSetImageSize_width|exact Part000_onSetImageSize_height].
Qed.

End ManualSize.

(** ** Manual entry and resize mode never write together *)

Section SingleWriter.
Context `{JsNumber}.

Ltac case_stuck :=
  match goal with
  | |- context [match ?x with Some _ => _ | None => _ end] => destruct x eqn:?
  | |- context [if ?b then _ else _] => destruct b eqn:?
  end.

(** Every listener of [src/src/ui.js] keeps the discipline. *)
Lemma SrcUi_step_single_writer u e :
  single_writer imageWidth imageHeight u →
  single_writer imageWidth imageHeight (SrcUi.step u e).
Proof.
  unfold single_writer, resize_mode.
  destruct u as [cfg nds iel med cont kv]. cbn [config nodes].
  intros Hinv. unfold enabled, editable in Hinv.
  destruct e; run_ui; repeat (case_stuck; run_ui); simpl_field; simpl_prop;
    try exact Hinv;
    unfold js_not; cbn [negb truthy ToString strict_eq_str];
    destruct (truthy (field cfg "isChangeResizeMode")); cbn; done.
Qed.

(** Every listener of [part_000] keeps the discipline. *)
Lemma Part000_step_single_writer u e :
  single_writer inputWidth inputHeight u →
  single_writer inputWidth inputHeight (Part000.step u e).
Proof.
  unfold single_writer, resize_mode.
  destruct u as [cfg nds iel med cont kv]. cbn [config nodes].
  intros Hinv. unfold enabled, editable in Hinv.
  destruct e; run_ui; repeat (case_stuck; run_ui); simpl_field; simpl_prop;
    try exact Hinv;
    unfold js_not; cbn [negb truthy ToString strict_eq_str];
    destruct (truthy (field cfg "isChangeResizeMode")); cbn; done.
Qed.

Lemma SrcUi_run_single_writer es u :
  single_writer imageWidth imageHeight u →
  single_writer imageWidth imageHeight (SrcUi.run u es).
Proof.
  revert u. induction es as [|e es IH]; intros u Hu; [exact Hu|].
  apply (IH (SrcUi.step u e)). by apply SrcUi_step_single_writer.
Qed.

Lemma Part000_run_single_writer es u :
  single_writer inputWidth inputHeight u →
  single_writer inputWidth inputHeight (Part000.run u es).
Proof.
  revert u. induction es as [|e es IH]; intros u Hu; [exact Hu|].
  apply (IH (Part000.step u e)). by apply Part000_step_single_writer.
Qed.

(** X19. A [Ui] object is constructed with resize mode off. In every state
    that it reaches, under any run of clicks, keys, typing, resize steps,
    media events and calls, resize mode being on implies that the
    apply-size control is disabled and that the width and height fields have
    [contentEditable] false. In both revisions. *)
Theorem resize_mode_disables_size_controls (api : Api) (cfg : gmap string jsval)
    (readOnly : jsval) (es : list event) :
  truthy (field cfg "isChangeResizeMode") = false →
  let a := SrcUi.run (SrcUi.constructor api cfg readOnly) es in
  let c := Part000.run (Part000.constructor api cfg readOnly) es in
  single_writer imageWidth imageHeight a ∧
  single_writer inputWidth inputHeight c.
Proof.
  intros Hoff a c. split.
  - apply SrcUi_run_single_writer. unfold single_writer, resize_mode.
    cbn [config SrcUi.constructor]. by rewrite Hoff.
  - apply Part000_run_single_writer. unfold single_writer, resize_mode.
    cbn [config Part000.constructor]. by rewrite Hoff.
Qed.

End SingleWriter.

(** ** Manual entry while resize mode is on *)

Section ManualEntryInResizeMode.
Context `{JsNumber}.

(** Enter in the width field of [src/src/ui.js] while resize mode is on. *)
Lemma SrcUi_keydown_in_resize_mode u w i el :
  resize_mode u = true →
  prop_text (nodes u imageWidth) "textContent" = w → w ≠ "" →
  imageEl u = Some i → media u !! i = Some el →
  let a := SrcUi.step u (keydown_width 13) in
  returns (SrcUi.handle (keydown_width 13)) u = true ∧
  resize_mode a = true ∧
  field (config a) "imageWidth" = JNum (Number w) ∧
  field (config a) "konvaWidth" = JNum (Number w) ∧
  image_style_get a "width" = Some (JStr (w +:+ "px")).
Proof.
  intros Hm Hw Hne Hi Hel a. unfold a, returns, resize_mode in *. clear a.
  destruct u as [cfg nds iel med cont kv]. cbn [config nodes imageEl media] in *.
  subst iel. destruct w as [|c w']; [done|].
  run_ui. change (13 =? 13) with true. run_ui.
  rewrite Hw. cbn [String.eqb String.length Nat.eqb negb].
  destruct (prop_text (nds imageHeight) "textContent") as [|c2 h];
    cbn [String.eqb String.length Nat.eqb negb]; run_ui; simpl_field;
    (repeat split; try reflexivity; try assumption);
    rewrite (image_style_get_alter2 _ _ med _ _ i el _ _ "width" Hel);
    by rewrite style_get_assign_ne, style_get_assign.
Qed.

(** The same in [part_000]. *)
Lemma Part000_keydown_in_resize_mode v w j el :
  resize_mode v = true →
  prop_text (nodes v inputWidth) "value" = w → w ≠ "" →
  imageEl v = Some j → media v !! j = Some el →
  let c := Part000.step v (keydown_width 13) in
  returns (Part000.handle (keydown_width 13)) v = true ∧
  resize_mode c = true ∧
  image_style_get c "width" = Some (JNum (Number w)) ∧
  prop_text (nodes c inputWidth) "placeholder" = num_to_string (Number w).
Proof.
  intros Hm Hw Hne Hj Hel c. unfold c, returns, resize_mode in *. clear c.
  destruct v as [cfg nds iel med cont kv]. cbn [config nodes imageEl media] in *.
  subst iel. destruct w as [|c w']; [done|].
  run_ui. change (13 =? 13) with true. run_ui.
  rewrite Hw. cbn [truthy String.eqb negb].
  destruct (prop_text (nds inputHeight) "value") as [|c2 h];
    cbn [truthy String.eqb negb]; run_ui; repeat (rewrite ?Hel; run_ui);
    rewrite ?list_lookup_alter; repeat case_decide; try done; rewrite ?Hel; run_ui;
    (repeat split; try reflexivity; try assumption);
    try (rewrite (image_style_get_alter2 _ _ med _ _ j el _ _ "width" Hel);
         by rewrite style_get_assign_ne, style_get_assign);
    simpl_prop; by rewrite style_get_assign_ne, style_get_assign.
Qed.

(** C9 fails on the code. While resize mode is on, the key listeners of the
    size fields still run [onSetImageSize]: they test the key code only, not
    [config.isChangeResizeMode]. With a text [w] in the width field and an
    image in place, Enter (key code 13) in that field returns normally,
    leaves resize mode on, and applies the size typed: in [src/src/ui.js]
    [config.imageWidth] and [config.konvaWidth] become [Number(w)] and the
    inline width of the image becomes [w] followed by [px]; in [part_000]
    the number is assigned to the inline width of the image and shown as
    the placeholder of the field. So the manual path writes while the
    interactive path is active, although the apply-size control is disabled
    and the fields have [contentEditable] false then. *)
Theorem keydown_applies_size_in_resize_mode (u v : Ui) (w : string) (i j : nat)
    (el el' : element) :
  resize_mode u = true →
  prop_text (nodes u imageWidth) "textContent" = w →
  imageEl u = Some i → media u !! i = Some el →
  resize_mode v = true →
  prop_text (nodes v inputWidth) "value" = w →
  imageEl v = Some j → media v !! j = Some el' →
  w ≠ "" →
  let a := SrcUi.step u (keydown_width 13) in
  let c := Part000.step v (keydown_width 13) in
  (returns (SrcUi.handle (keydown_width 13)) u = true ∧
   resize_mode a = true ∧
   field (config a) "imageWidth" = JNum (Number w) ∧
   field (config a) "konvaWidth" = JNum (Number w) ∧
   image_style_get a "width" = Some (JStr (w +:+ "px"))) ∧
  (returns (Part000.handle (keydown_width 13)) v = true ∧
   resize_mode c = true ∧
   image_style_get c "width" = Some (JNum (Number w)) ∧
   prop_text (nodes c inputWidth) "placeholder" = num_to_string (Number w)).
Proof.
  intros Hu Hw Hi Hel Hv Hw' Hj Hel' Hne a c. split.
  - by apply (SrcUi_keydown_in_resize_mode u w i el).
  - by apply (Part000_keydown_in_resize_mode v w j el').
Qed.

End ManualEntryInResizeMode.

(** ** The claims on concrete runs *)

(** C2 fails when the position is selected at the start: with left selected
    (after one click on the left button), two more calls with ['left'] leave
    left selected. *)
Lemma onSelectAlign_twice_counterexample :
  let u := SrcUi.run (SrcUi.constructor example_api ∅ (JBool false)) [click_leftAlign] in
  let u' := exec (onSelectAlign (JStr "left") ;; onSelectAlign (JStr "left")) u in
  selected u pos_left = true ∧
  field (config u') "isSelectedLeft" = JBool true ∧
  count_selected u' = 1%nat.
Proof. intros u u'. repeat split; reflexivity. Qed.

(** C10 on the argument ['justify'], with left selected before the call. *)
Lemma onSelectAlign_unknown_position_witness :
  let u := SrcUi.run (SrcUi.constructor example_api ∅ (JBool false)) [click_leftAlign] in
  (JStr "justify" ≠ JStr "left" ∧ JStr "justify" ≠ JStr "center" ∧
   JStr "justify" ≠ JStr "right") ∧
  selected u pos_left = true ∧
  ∀ q, field (config (exec (onSelectAlign (JStr "justify")) u)) (flag q) = JBool false.
Proof.
  intros u. split; [repeat split; discriminate|].
  split; [reflexivity|].
  apply (onSelectAlign_unknown_position (JStr "justify") u); discriminate.
Defined.

(** C8 fails on a malformed [file]: a string in place of the object is
    shown as loading, not as empty. *)
Lemma render_counterexample :
  let toolData : gmap string jsval := {[ "file" := JStr "a.jpg" ]} in
  let u := SrcUi.constructor example_api ∅ (JBool false) in
  returns (render toolData) u = true ∧
  shown_status (exec (render toolData) u) = [status_UPLOADING].
Proof. intros toolData u. split; reflexivity. Qed.

(** C3 fails when the transformer starts beyond the extent: from a box of
    800 x 500, a request for 900 x 600 is rejected, the box stays at
    800 x 500, and leaving resize mode commits 800 x 500, beyond 700 x 410. *)
Lemma boundBoxFunc_counterexample :
  let u := SrcUi.run src_ui_filled
             [type_width "800"; type_height "500"; click_setSizeButton;
              click_resizeModeButton (IInt 800) (IInt 500) (int_box 800 500);
              transformer_resize (int_box 900 600);
              click_resizeModeButton (IInt 800) (IInt 500) (int_box 800 500)] in
  SrcUi.boundBoxFunc (int_box 800 500) (int_box 900 600) = int_box 800 500 ∧
  field (config u) "konvaWidth" = JNum (IInt 800) ∧
  field (config u) "konvaHeight" = JNum (IInt 500) ∧
  num_gt (IInt 800) SrcUi.MAX_WIDTH = true ∧
  num_gt (IInt 500) SrcUi.MAX_HEIGHT = true.
Proof. intros u. repeat split; reflexivity. Qed.

(** C3 on a session that starts at 300 x 200: a request for 900 x 600 is
    rejected, one for 500 x 400 is accepted, and what is committed does not
    exceed 700 x 410. *)
Lemma boundBoxFunc_rejects_oversize_witness :
  let news := [int_box 900 600; int_box 500 400] in
  let u2 := SrcUi_session src_ui_sized (IInt 300) (IInt 200) (int_box 300 200) news in
  let u3 := SrcUi.step u2 (click_resizeModeButton (IInt 300) (IInt 200) (int_box 300 200)) in
  (resize_mode src_ui_sized = false ∧ imageEl src_ui_sized = Some 0%nat ∧
   exceeds SrcUi.MAX_WIDTH SrcUi.MAX_HEIGHT (int_box 300 200) = false) ∧
  ∃ b, tr_back <$> konva u2 = Some b ∧
       exceeds SrcUi.MAX_WIDTH SrcUi.MAX_HEIGHT b = false ∧
       field (config u3) "konvaWidth" = JNum (width b) ∧
       field (config u3) "konvaHeight" = JNum (height b).
Proof.
  intros news u2 u3. split; [repeat split; reflexivity|].
  destruct boundBoxFunc_rejects_oversize as (_ & _ & Hsession & _).
  apply (Hsession src_ui_sized (IInt 300) (IInt 200) (int_box 300 200) news
           (IInt 300) (IInt 200) (int_box 300 200) 0%nat);
    reflexivity.
Defined.

(** C4 on a session that ends at 500 x 400, in both revisions. *)
Lemma resize_commits_final_size_witness :
  let click := click_resizeModeButton (IInt 300) (IInt 300) (int_box 300 200) in
  let a := SrcUi.step (SrcUi_session src_ui_sized (IInt 300) (IInt 300) (int_box 300 200)
                         ([int_box 900 600] ++ [int_box 500 400])) click in
  let c := Part000.step (Part000_session part000_filled (IInt 300) (IInt 300) (int_box 300 200)
                           ([int_box 900 600] ++ [int_box 500 400])) click in
  (resize_mode src_ui_sized = false ∧ imageEl src_ui_sized = Some 0%nat ∧
   exceeds SrcUi.MAX_WIDTH SrcUi.MAX_HEIGHT (int_box 500 400) = false ∧
   resize_mode part000_filled = false ∧ imageEl part000_filled = Some 0%nat ∧
   exceeds (IInt 600) (IInt 600) (int_box 500 400) = false) ∧
  (field (config a) "konvaWidth" = JNum (IInt 500) ∧
   field (config a) "konvaHeight" = JNum (IInt 400) ∧
   image_style a = Some {[ "width" := JStr (int_to_string (IInt 500) +:+ "px");
                           "height" := JStr (int_to_string (IInt 400) +:+ "px") ]}) ∧
  (field (config c) "width" = JNum (IInt 500) ∧
   field (config c) "height" = JNum (IInt 400) ∧
   image_style c = Some {[ "width" := JStr (int_to_string (IInt 500) +:+ "px");
                           "height" := JStr (int_to_string (IInt 400) +:+ "px") ]}).
Proof.
  intros click a c.
  split; [repeat split; reflexivity|].
  destruct resize_commits_final_size as (Ha & Hc).
  split.
  - assert (H1 : resize_mode src_ui_sized = false) by (reflexivity).
    assert (H2 : imageEl src_ui_sized = Some 0%nat) by (reflexivity).
    assert (Hlen : length (media src_ui_sized) = 1%nat) by (reflexivity).
    destruct (lookup_lt_is_Some_2 (media src_ui_sized) 0%nat) as [el H3];
      [rewrite Hlen; lia|].
    assert (H4 : exceeds SrcUi.MAX_WIDTH SrcUi.MAX_HEIGHT (int_box 500 400) = false)
      by (reflexivity).
    pose proof (Ha src_ui_sized (IInt 300) (IInt 300) (int_box 300 200) [int_box 900 600]
                  (int_box 500 400) (IInt 300) (IInt 300) (int_box 300 200) 0%nat
                  _ H1 H2 H3 H4)
      as Hall.
    cbv zeta in Hall. destruct Hall as (Hw & Hh & _ & _ & Hs & _).
    split; [exact Hw|]. split; [exact Hh | exact Hs].
  - assert (H1 : resize_mode part000_filled = false) by (reflexivity).
    assert (H2 : imageEl part000_filled = Some 0%nat) by (reflexivity).
    assert (Hlen : length (media part000_filled) = 1%nat) by (reflexivity).
    destruct (lookup_lt_is_Some_2 (media part000_filled) 0%nat) as [el H3];
      [rewrite Hlen; lia|].
    assert (H4 : exceeds (ToNumber (field (config part000_filled) "konvaWidth"))
                   (num_mul (num_div (IInt 300) (IInt 300))
                      (ToNumber (field (config part000_filled) "konvaWidth")))
                   (int_box 500 400) = false)
      by (reflexivity).
    pose proof (Hc part000_filled (IInt 300) (IInt 300) (int_box 300 200) [int_box 900 600]
                  (int_box 500 400) (IInt 300) (IInt 300) (int_box 300 200) 0%nat
                  _ H1 H2 H3 H4)
      as Hall.
    cbv zeta in Hall. destruct Hall as (Hw & Hh & Hs & _).
    split; [exact Hw|]. split; [exact Hh | exact Hs].
Defined.

(** C5 fails for the displayed size when an inline size was set before
    resize mode was entered: the image at 300 x 200, resize mode entered and
    undone, has no inline size any more, while [this.config] still holds
    300 and 200. *)
Lemma undo_counterexample :
  let u3 := SrcUi.step (SrcUi_session src_ui_sized (IInt 300) (IInt 200) (int_box 300 200) [])
                       click_undoResizeButton in
  image_style src_ui_sized = Some {[ "width" := JStr "300px"; "height" := JStr "200px" ]} ∧
  image_style u3 = Some ∅ ∧
  field (config u3) "imageWidth" = JNum (IInt 300) ∧
  field (config u3) "imageHeight" = JNum (IInt 200).
Proof. intros u3. repeat split; reflexivity. Qed.

(** C5 on the same run: the fields of [this.config] are untouched and the
    image is back in its container. *)
Lemma undo_discards_resize_witness :
  let u3 := SrcUi.step (SrcUi_session src_ui_sized (IInt 300) (IInt 200) (int_box 300 200)
                          [int_box 500 400])
                       click_undoResizeButton in
  (resize_mode src_ui_sized = false ∧ imageEl src_ui_sized = Some 0%nat) ∧
  (∀ key, key ≠ "isChangeResizeMode" →
          field (config u3) key = field (config src_ui_sized) key) ∧
  image_style u3 = Some ∅ ∧
  container u3 = [MediaChild 0] ∧
  resize_mode u3 = false.
Proof.
  intros u3. split; [split; reflexivity|].
  destruct undo_discards_resize as (Ha & _).
  assert (H1 : resize_mode src_ui_sized = false) by (reflexivity).
  assert (H2 : imageEl src_ui_sized = Some 0%nat) by (reflexivity).
  assert (Hlen : length (media src_ui_sized) = 1%nat) by (reflexivity).
  destruct (lookup_lt_is_Some_2 (media src_ui_sized) 0%nat) as [el H3];
    [rewrite Hlen; lia|].
  pose proof (Ha src_ui_sized (IInt 300) (IInt 200) (int_box 300 200) [int_box 500 400]
                0%nat _ H1 H2 H3)
    as Hall.
  cbv zeta in Hall. destruct Hall as (Hcfg & Hs & _ & Hc & Hm).
  split; [exact Hcfg|]. split; [exact Hs|]. split; [exact Hc | exact Hm].
Defined.

(** C6 fails in [src/src/ui.js]: with 300 x 200 committed, typing 400 into
    the width field, emptying the height field and applying resets the
    height: [config.imageHeight] is 0 and the inline height is gone. *)
Lemma onSetImageSize_counterexample :
  let u := SrcUi.run src_ui_sized [type_width "400"; type_height ""; click_setSizeButton] in
  field (config src_ui_sized) "imageHeight" = JNum (IInt 200) ∧
  image_style_get src_ui_sized "height" = Some (JStr "200px") ∧
  field (config u) "imageWidth" = JNum (IInt 400) ∧
  field (config u) "imageHeight" = JNum (IInt 0) ∧
  image_style_get u "height" = Some (JStr "") ∧
  field (config u) "konvaHeight" = JNum (IInt 200).
Proof. intros u. repeat split; reflexivity. Qed.

(** C6 on the same input, in both revisions. *)
Lemma onSetImageSize_one_field_empty_witness :
  let a := SrcUi.run src_ui_sized [type_width "400"; type_height ""] in
  let c := Part000.run part000_filled
             [type_width "300"; type_height "200"; click_setSizeButton;
              type_width "400"; type_height ""] in
  (prop_text (nodes a imageWidth) "textContent" = "400" ∧
   prop_text (nodes a imageHeight) "textContent" = "" ∧
   prop_text (nodes c inputWidth) "value" = "400" ∧
   prop_text (nodes c inputHeight) "value" = "") ∧
  (field (config (exec SrcUi.onSetImageSize a)) "imageHeight" = JNum (IInt 0) ∧
   field (config (exec SrcUi.onSetImageSize a)) "konvaHeight" = JNum (IInt 200)) ∧
  (image_style_get (exec Part000.onSetImageSize c) "width" = Some (JNum (IInt 400)) ∧
   image_style_get (exec Part000.onSetImageSize c) "height" = Some (JNum (IInt 200))).
Proof.
  intros a c. split; [repeat split; reflexivity|].
  destruct onSetImageSize_one_field_empty as (Ha & _ & Hc & _).
  split.
  - assert (H1 : prop_text (nodes a imageWidth) "textContent" = "400")
      by (reflexivity).
    assert (H2 : "400" ≠ "") by discriminate.
    assert (H3 : prop_text (nodes a imageHeight) "textContent" = "")
      by (reflexivity).
    assert (H4 : imageEl a = Some 0%nat) by (reflexivity).
    assert (Hlen : length (media a) = 1%nat) by (reflexivity).
    destruct (lookup_lt_is_Some_2 (media a) 0%nat) as [el H5];
      [rewrite Hlen; lia|].
    pose proof (Ha a "400" 0%nat _ H1 H2 H3 H4 H5) as Hall.
    cbv zeta in Hall. destruct Hall as (_ & _ & _ & Hih & _ & Hkh).
    split; [exact Hih|]. etrans; [exact Hkh|]. reflexivity.
  - assert (H1 : prop_text (nodes c inputWidth) "value" = "400")
      by (reflexivity).
    assert (H2 : "400" ≠ "") by discriminate.
    assert (H3 : prop_text (nodes c inputHeight) "value" = "")
      by (reflexivity).
    assert (H4 : imageEl c = Some 0%nat) by (reflexivity).
    assert (Hlen : length (media c) = 1%nat) by (reflexivity).
    destruct (lookup_lt_is_Some_2 (media c) 0%nat) as [el H5];
      [rewrite Hlen; lia|].
    pose proof (Hc c "400" 0%nat _ H1 H2 H3 H4 H5) as Hall.
    cbv zeta in Hall. destruct Hall as (Hw & Hh & _).
    split; [exact Hw|]. etrans; [exact Hh|].
    assert (Hs : (λ e, style_get e "height") <$> media c !! 0%nat
                 = Some (JNum (IInt 200))) by (reflexivity).
    rewrite H5 in Hs. exact Hs.
Defined.

(** X19 on a run that enters resize mode and tries the manual path. *)
Lemma resize_mode_disables_size_controls_witness :
  let es := [call_fillImage "a.jpg";
             click_resizeModeButton (IInt 300) (IInt 200) (int_box 300 200);
             type_width "400"; keydown_width 13; click_setSizeButton] in
  let a := SrcUi.run (SrcUi.constructor example_api ∅ (JBool false)) es in
  let c := Part000.run (Part000.constructor example_api ∅ (JBool false)) es in
  truthy (field (∅ : gmap string jsval) "isChangeResizeMode") = false ∧
  resize_mode a = true ∧ resize_mode c = true ∧
  single_writer imageWidth imageHeight a ∧
  single_writer inputWidth inputHeight c.
Proof.
  intros es a c.
  split; [reflexivity|]. split; [reflexivity|].
  split; [reflexivity|].
  assert (Hoff : truthy (field (∅ : gmap string jsval) "isChangeResizeMode") = false)
    by (reflexivity).
  pose proof (resize_mode_disables_size_controls example_api ∅ (JBool false) es Hoff)
    as Hall.
  cbv zeta in Hall. exact Hall.
Defined.

(** C9 at the failing input: a filled block in resize mode, 400 typed into
    the width field, Enter pressed there. Before the key the apply-size
    control is disabled, the field has [contentEditable] false, and no width
    is set; after it the mode is still on and the width is 400. *)
Lemma keydown_applies_size_in_resize_mode_witness :
  let u := src_ui_entering_400 in
  let v := part000_entering_400 in
  let a := SrcUi.step u (keydown_width 13) in
  let c := Part000.step v (keydown_width 13) in
  (resize_mode u = true ∧
   prop_text (nodes u imageWidth) "textContent" = "400" ∧
   imageEl u = Some 0%nat ∧ is_Some (media u !! 0%nat) ∧
   resize_mode v = true ∧
   prop_text (nodes v inputWidth) "value" = "400" ∧
   imageEl v = Some 0%nat ∧ is_Some (media v !! 0%nat)) ∧
  (enabled (nodes u setSizeButton) = false ∧
   editable (nodes u imageWidth) = false ∧
   enabled (nodes v setSizeButton) = false ∧
   editable (nodes v inputWidth) = false ∧
   field (config u) "imageWidth" = JUndefined ∧
   image_style_get u "width" = Some (JStr "")) ∧
  (resize_mode a = true ∧
   field (config a) "imageWidth" = JNum (IInt 400) ∧
   field (config a) "konvaWidth" = JNum (IInt 400) ∧
   image_style_get a "width" = Some (JStr "400px")) ∧
  (resize_mode c = true ∧
   image_style_get c "width" = Some (JNum (IInt 400)) ∧
   prop_text (nodes c inputWidth) "placeholder" = "400").
Proof.
  intros u v a c.
  assert (H1 : resize_mode u = true) by reflexivity.
  assert (H2 : prop_text (nodes u imageWidth) "textContent" = "400") by reflexivity.
  assert (H3 : imageEl u = Some 0%nat) by reflexivity.
  assert (Hlen : length (media u) = 1%nat) by reflexivity.
  destruct (lookup_lt_is_Some_2 (media u) 0%nat) as [el H4]; [rewrite Hlen; lia|].
  assert (H5 : resize_mode v = true) by reflexivity.
  assert (H6 : prop_text (nodes v inputWidth) "value" = "400") by reflexivity.
  assert (H7 : imageEl v = Some 0%nat) by reflexivity.
  assert (Hlen' : length (media v) = 1%nat) by reflexivity.
  destruct (lookup_lt_is_Some_2 (media v) 0%nat) as [el' H8]; [rewrite Hlen'; lia|].
  assert (N : "400" ≠ "") by discriminate.
  split; [repeat split; try assumption; by eexists|].
  split; [repeat split; reflexivity|].
  pose proof (keydown_applies_size_in_resize_mode u v "400" 0%nat 0%nat el el'
                H1 H2 H3 H4 H5 H6 H7 H8 N) as Hall.
  cbv zeta in Hall.
  destruct Hall as ((_ & Ha1 & Ha2 & Ha3 & Ha4) & (_ & Hc1 & Hc2 & Hc3)).
  split; [by repeat split|]. by repeat split.
Defined.

(** ** Further properties of the listeners *)

(** Destructs what a listener is stuck on. *)
Ltac case_split :=
  match goal with
  | |- context [match ?x with Some _ => _ | None => _ end] => destruct x eqn:?
  | |- context [if ?b then _ else _] => destruct b eqn:?
  end.

Section StatusFacts.
Context `{JsNumber}.

(** What [toggleStatus] leaves alone. *)
Lemma toggleStatus_frame s u :
  let u' := exec (toggleStatus s) u in
  config u' = config u ∧ (∀ n, n ≠ wrapper → nodes u' n = nodes u n) ∧
  imageEl u' = imageEl u ∧ media u' = media u ∧ container u' = container u ∧
  konva u' = konva u.
Proof.
  destruct u as [cfg nds iel med cont kv]. run_ui.
  repeat split. intros n Hn. by destruct n.
Qed.

(** The three status classes, decided on the class list that
    [toggleStatus] leaves. *)
Lemma toggleStatus_classes s u t :
  t ∈ classList (nodes (exec (toggleStatus s) u) wrapper) ↔
  (t = "image-tool--empty" ∧ strict_eq_str s "empty" = true) ∨
  (t = "image-tool--loading" ∧ strict_eq_str s "loading" = true) ∨
  (t = "image-tool--filled" ∧ strict_eq_str s "filled" = true) ∨
  (t ≠ "image-tool--empty" ∧ t ≠ "image-tool--loading" ∧ t ≠ "image-tool--filled" ∧
   t ∈ classList (nodes u wrapper)).
Proof.
  rewrite toggleStatus_classList. cbv zeta.
  destruct (strict_eq_str s "empty"), (strict_eq_str s "loading"),
    (strict_eq_str s "filled"); set_unfold;
    destruct (decide (t = "image-tool--empty")), (decide (t = "image-tool--loading")),
      (decide (t = "image-tool--filled")); subst; intuition congruence.
Qed.

(** X1. [toggleStatus(status)] never throws, whatever the argument. After
    it the wrapper carries the class of a status exactly when the argument
    is that status, so at most one status class, and none when the argument
    is not one of the three statuses; every other class of the wrapper,
    every other node, [this.config], the media elements and the image
    container are as before. *)
Theorem toggleStatus_exclusive (status : jsval) (u : Ui) :
  let u' := exec (toggleStatus status) u in
  returns (toggleStatus status) u = true ∧
  (∀ st, st ∈ Ui_status →
     (tune_class st ∈ classList (nodes u' wrapper) ↔ strict_eq_str status st = true)) ∧
  (∀ t, (∀ st, st ∈ Ui_status → t ≠ tune_class st) →
     (t ∈ classList (nodes u' wrapper) ↔ t ∈ classList (nodes u wrapper))) ∧
  (length (shown_status u') ≤ 1)%nat ∧
  config u' = config u ∧ (∀ n, n ≠ wrapper → nodes u' n = nodes u n) ∧
  imageEl u' = imageEl u ∧ media u' = media u ∧ container u' = container u ∧
  konva u' = konva u.
Proof.
  intros u'. split; [reflexivity|].
  assert (Hst : ∀ st, st ∈ Ui_status →
     (tune_class st ∈ classList (nodes u' wrapper) ↔ strict_eq_str status st = true)).
  { intros st Hst. unfold u'. rewrite toggleStatus_classes.
    unfold Ui_status, status_EMPTY, status_UPLOADING, status_FILLED in Hst.
    rewrite !elem_of_cons, elem_of_nil in Hst.
    destruct Hst as [->|[->|[->|[]]]];
      change (tune_class "empty") with "image-tool--empty";
      change (tune_class "loading") with "image-tool--loading";
      change (tune_class "filled") with "image-tool--filled";
      split; intros Hyp; try (intuition congruence). }
  split; [exact Hst|]. split.
  { intros t Ht. unfold u'. rewrite toggleStatus_classes.
    assert (t ≠ "image-tool--empty") by (apply (Ht "empty"); unfold Ui_status; rewrite !elem_of_cons; auto).
    assert (t ≠ "image-tool--loading") by (apply (Ht "loading"); unfold Ui_status; rewrite !elem_of_cons; auto).
    assert (t ≠ "image-tool--filled") by (apply (Ht "filled"); unfold Ui_status; rewrite !elem_of_cons; auto).
    intuition congruence. }
  split; [|apply toggleStatus_frame].
  unfold shown_status, Ui_status. rewrite !filter_cons, filter_nil.
  pose proof (Hst "empty") as He. pose proof (Hst "loading") as Hl.
  pose proof (Hst "filled") as Hf.
  unfold Ui_status in He, Hl, Hf. rewrite !elem_of_cons in He, Hl, Hf.
  unfold tune_class, status_EMPTY, status_UPLOADING, status_FILLED in *.
  destruct status as [| | | |s|]; cbn [strict_eq_str] in *;
    repeat case_decide; cbn [length]; try lia;
    repeat match goal with
           | Hyp : _ ∨ _ → _ |- _ => specialize (Hyp ltac:(auto))
           end;
    try (intuition congruence).
  all: repeat match goal with
           | Hyp : _ ↔ _ , Hin : _ ∈ _ |- _ => apply Hyp in Hin
           end.
  all: repeat match goal with
           | Hyp : String.eqb _ _ = true |- _ => apply String.eqb_eq in Hyp
           end; congruence.
Qed.
End StatusFacts.

Section PreloaderFacts.
Context `{JsNumber}.

Lemma url_not_empty s : strict_eq_str (JStr ("url(" +:+ s +:+ ")")) "" = false.
Proof. reflexivity. Qed.

(** X2. [showPreloader(src)] assigns [url(src)] to the background image of
    the preloader and shows the loading status; [hidePreloader()] after it
    removes that declaration again, leaving the inline style of the
    preloader as before without a background image, and shows the empty
    status. Neither throws, and neither touches [this.config], the media
    elements or the image container. *)
Theorem showPreloader_hidePreloader (src : jsval) (u : Ui) :
  let u1 := exec (showPreloader src) u in
  let u2 := exec hidePreloader u1 in
  returns (showPreloader src) u = true ∧ returns hidePreloader u1 = true ∧
  style_get (nodes u1 imagePreloader) "backgroundImage"
    = JStr ("url(" +:+ ToString src +:+ ")") ∧
  shown_status u1 = [status_UPLOADING] ∧
  style (nodes u2 imagePreloader) = delete "backgroundImage" (style (nodes u imagePreloader)) ∧
  shown_status u2 = [status_EMPTY] ∧
  config u2 = config u ∧ imageEl u2 = imageEl u ∧ media u2 = media u ∧
  container u2 = container u ∧ konva u2 = konva u.
Proof.
  intros u1 u2.
  assert (Hin : ∀ st, st ∈ Ui_status ↔ st = "empty" ∨ st = "loading" ∨ st = "filled").
  { intros st. unfold Ui_status, status_EMPTY, status_UPLOADING, status_FILLED.
    rewrite !elem_of_cons, elem_of_nil. tauto. }
  assert (H1 : ∀ v, exec (showPreloader src) v =
            exec (toggleStatus (JStr status_UPLOADING))
              (exec (on_node imagePreloader
                 (style_assign "backgroundImage" (JStr ("url(" +:+ ToString src +:+ ")")))) v))
    by reflexivity.
  assert (H2 : ∀ v, exec hidePreloader v =
            exec (toggleStatus (JStr status_EMPTY))
              (exec (on_node imagePreloader (style_assign "backgroundImage" (JStr ""))) v))
    by reflexivity.
  split; [reflexivity|]. split; [reflexivity|].
  split.
  { unfold u1. rewrite H1.
    destruct (toggleStatus_frame (JStr status_UPLOADING)
      (exec (on_node imagePreloader
         (style_assign "backgroundImage" (JStr ("url(" +:+ ToString src +:+ ")")))) u))
      as (_ & Hn & _).
    rewrite Hn by done. destruct u as [cfg nds iel med cont kv]. run_ui.
    apply style_get_assign. }
  split.
  { unfold u1. rewrite H1. apply toggleStatus_shown. apply Hin. auto. }
  split.
  { unfold u2. rewrite H2.
    destruct (toggleStatus_frame (JStr status_EMPTY)
      (exec (on_node imagePreloader (style_assign "backgroundImage" (JStr ""))) u1))
      as (_ & Hn & _).
    rewrite Hn by done. unfold u1. rewrite H1.
    destruct u as [cfg nds iel med cont kv]. run_ui.
    unfold style_assign. rewrite url_not_empty. cbn [strict_eq_str String.eqb style set_style].
    apply map_eq. intros k. destruct (decide (k = "backgroundImage")) as [->|Hk].
    - by rewrite !lookup_delete_eq.
    - by rewrite !lookup_delete_ne, lookup_insert_ne. }
  split.
  { unfold u2. rewrite H2. apply toggleStatus_shown. apply Hin. auto. }
  unfold u2, u1. destruct u as [cfg nds iel med cont kv]. by run_ui.
Qed.

(** X3. The listener that [fillImage] registers: when a media element
    fires an event for which it has the listener, the status becomes filled
    and the background image of the preloader is removed; when the element
    has no listener for the event, or there is no such element, the state
    stays as it is. In both cases nothing throws and [this.config], the
    media elements and the image container are untouched. *)
Theorem media_event_effect (i : nat) (name : string) (u : Ui) :
  let u' := exec (on_media_event i name) u in
  returns (on_media_event i name) u = true ∧
  (∀ el, media u !! i = Some el → name ∈ listeners el →
     shown_status u' = [status_FILLED] ∧
     style (nodes u' imagePreloader) = delete "backgroundImage" (style (nodes u imagePreloader))) ∧
  ((∀ el, media u !! i = Some el → name ∉ listeners el) → u' = u) ∧
  config u' = config u ∧ imageEl u' = imageEl u ∧ media u' = media u ∧
  container u' = container u ∧ konva u' = konva u.
Proof.
  intros u'.
  assert (Hl : ∀ v, exec fillImage_listener v =
            exec (on_node imagePreloader (style_assign "backgroundImage" (JStr "")))
                 (exec (toggleStatus (JStr status_FILLED)) v)) by reflexivity.
  split.
  { unfold returns, on_media_event. destruct (media u !! i); [|done].
    by case_bool_decide. }
  split.
  { intros el Hel Hname. unfold u', on_media_event, exec. rewrite Hel.
    rewrite bool_decide_eq_true_2 by done. fold (exec fillImage_listener u).
    rewrite Hl. split.
    - pose proof (toggleStatus_shown status_FILLED u) as Hs.
      unfold shown_status in *. 
      replace (nodes (exec (on_node imagePreloader (style_assign "backgroundImage" (JStr "")))
                 (exec (toggleStatus (JStr status_FILLED)) u)) wrapper)
        with (nodes (exec (toggleStatus (JStr status_FILLED)) u) wrapper)
        by by destruct u.
      apply Hs. unfold Ui_status. rewrite !elem_of_cons. auto.
    - destruct u as [cfg nds iel med cont kv]. by run_ui. }
  split.
  { intros Hno. unfold u', on_media_event, exec.
    destruct (media u !! i) as [el|] eqn:Hel; [|done].
    by rewrite bool_decide_eq_false_2 by by apply Hno. }
  unfold u', on_media_event, exec.
  destruct (media u !! i) as [el|]; [|done].
  case_bool_decide; [|done]. destruct u as [cfg nds iel med cont kv]. by run_ui.
Qed.

End PreloaderFacts.

Section FillImageFacts.
Context `{JsNumber}.

Lemma filter_all {A} (P : A → Prop) `{∀ x, Decision (P x)} (l : list A) :
  Forall P l → filter P l = l.
Proof.
  induction 1 as [|x l Hx _ IH]; [done|]. by rewrite filter_cons_True, IH.
Qed.

(** The children of the image container when every media element created
    so far is one of them, in the order of creation. *)
Lemma fmap_alter_same {A B} (f : A → B) (g : A → A) (i : nat) (l : list A) :
  (∀ x, f (g x) = f x) → f <$> alter g i l = f <$> l.
Proof.
  intros Hg. rewrite (list_fmap_alter f g id) by by apply Forall_forall.
  by apply list_alter_id.
Qed.

Lemma tagName_make tag classNames attributes :
  tagName (make tag classNames attributes) = tag.
Proof.
  unfold make. induction attributes as [|kv l IH] using rev_ind; [done|].
  by rewrite foldl_app.
Qed.

Lemma appendChild_next (n : nat) :
  filter (λ d, d ≠ MediaChild n) (MediaChild <$> seq 0 n) ++ [MediaChild n]
  = MediaChild <$> seq 0 (S n).
Proof.
  rewrite seq_S, fmap_app. cbn [fmap list_fmap plus]. f_equal.
  apply filter_all, Forall_fmap, Forall_forall. intros j Hj%elem_of_seq.
  cbn. intros [= ->]. lia.
Qed.

(** One call of [fillImage] in such a state. *)
Lemma SrcUi_fillImage_step url u :
  container u = MediaChild <$> seq 0 (length (media u)) →
  let u' := SrcUi.step u (call_fillImage url) in
  container u' = MediaChild <$> seq 0 (length (media u')) ∧
  tagName <$> media u' = (tagName <$> media u) ++ [fillImage_tag url] ∧
  imageEl u' = Some (length (media u)) ∧
  length (media u') = S (length (media u)).
Proof.
  intros Hc. destruct u as [cfg nds iel med cont kv]. cbn in Hc. subst cont.
  run_ui. rewrite length_alter, length_app, Nat.add_1_r. cbn [length].
  repeat split.
  - apply appendChild_next.
  - change (list_fmap element string tagName) with (fmap (M:=list) tagName).
    rewrite fmap_alter_same by done.
    rewrite fmap_app. cbn [fmap list_fmap]. by rewrite tagName_make.
Qed.

Lemma Part000_fillImage_step url u :
  container u = MediaChild <$> seq 0 (length (media u)) →
  let u' := Part000.step u (call_fillImage url) in
  container u' = MediaChild <$> seq 0 (length (media u')) ∧
  tagName <$> media u' = (tagName <$> media u) ++ [fillImage_tag url] ∧
  imageEl u' = Some (length (media u)) ∧
  length (media u') = S (length (media u)).
Proof.
  intros Hc. destruct u as [cfg nds iel med cont kv]. cbn in Hc. subst cont.
  run_ui. rewrite !length_alter, length_app, Nat.add_1_r. cbn [length].
  repeat split.
  - apply appendChild_next.
  - change (list_fmap element string tagName) with (fmap (M:=list) tagName).
    rewrite !fmap_alter_same by (intros x; unfold style_assign; by repeat case_match).
    rewrite fmap_app. cbn [fmap list_fmap]. by rewrite tagName_make.
Qed.

Lemma SrcUi_fillImage_run urls : ∀ u,
  container u = MediaChild <$> seq 0 (length (media u)) →
  let u' := SrcUi.run u (call_fillImage <$> urls) in
  container u' = MediaChild <$> seq 0 (length (media u) + length urls) ∧
  tagName <$> media u' = (tagName <$> media u) ++ (fillImage_tag <$> urls) ∧
  imageEl u' = match urls with
               | [] => imageEl u
               | _ => Some (length (media u) + length urls - 1)%nat
               end.
Proof.
  induction urls as [|url urls IH]; intros u Hc.
  - cbn. rewrite Nat.add_0_r, app_nil_r. by rewrite Hc.
  - destruct (SrcUi_fillImage_step url u Hc) as (Hc' & Ht & Hi & Hl).
    destruct (IH _ Hc') as (IHc & IHt & IHi).
    cbn zeta in *. cbn [fmap list_fmap length]. unfold SrcUi.run. cbn [foldl].
    fold (SrcUi.run (SrcUi.step u (call_fillImage url)) (call_fillImage <$> urls)).
    rewrite IHc, IHt, IHi, Ht, Hl, Hi, <- app_assoc. cbn [app].
    repeat split; try (f_equal; f_equal; lia).
    destruct urls; cbn [length]; f_equal; lia.
Qed.

Lemma Part000_fillImage_run urls : ∀ u,
  container u = MediaChild <$> seq 0 (length (media u)) →
  let u' := Part000.run u (call_fillImage <$> urls) in
  container u' = MediaChild <$> seq 0 (length (media u) + length urls) ∧
  tagName <$> media u' = (tagName <$> media u) ++ (fillImage_tag <$> urls) ∧
  imageEl u' = match urls with
               | [] => imageEl u
               | _ => Some (length (media u) + length urls - 1)%nat
               end.
Proof.
  induction urls as [|url urls IH]; intros u Hc.
  - cbn. rewrite Nat.add_0_r, app_nil_r. by rewrite Hc.
  - destruct (Part000_fillImage_step url u Hc) as (Hc' & Ht & Hi & Hl).
    destruct (IH _ Hc') as (IHc & IHt & IHi).
    cbn zeta in *. cbn [fmap list_fmap length]. unfold Part000.run. cbn [foldl].
    fold (Part000.run (Part000.step u (call_fillImage url)) (call_fillImage <$> urls)).
    rewrite IHc, IHt, IHi, Ht, Hl, Hi, <- app_assoc. cbn [app].
    repeat split; try (f_equal; f_equal; lia).
    destruct urls; cbn [length]; f_equal; lia.
Qed.

(** X4. [fillImage] never removes an element it created before: after a
    run of calls on a new block the image container holds one child per
    call, in the order of the calls, the tag of each is the one its URL
    asks for, and [this.nodes.imageEl] is the element of the last call
    ([undefined] when there was no call). In both revisions. *)
Theorem fillImage_accumulates (api : Api) (cfg : gmap string jsval) (readOnly : jsval)
    (urls : list string) :
  let a := SrcUi.run (SrcUi.constructor api cfg readOnly) (call_fillImage <$> urls) in
  let c := Part000.run (Part000.constructor api cfg readOnly) (call_fillImage <$> urls) in
  (container a = MediaChild <$> seq 0 (length urls) ∧
   tagName <$> media a = fillImage_tag <$> urls ∧
   imageEl a = last (seq 0 (length urls))) ∧
  (container c = MediaChild <$> seq 0 (length urls) ∧
   tagName <$> media c = fillImage_tag <$> urls ∧
   imageEl c = last (seq 0 (length urls))).
Proof.
  intros a c.
  assert (Hlast : ∀ n, last (seq 0 (S n)) = Some n).
  { intros n. by rewrite seq_S, last_snoc. }
  split.
  - destruct (SrcUi_fillImage_run urls (SrcUi.constructor api cfg readOnly) eq_refl)
      as (Hc & Ht & Hi).
    fold a in Hc, Ht, Hi. cbn in Hc, Ht, Hi.
    repeat split; [exact Hc|exact Ht|].
    rewrite Hi. destruct urls; [done|]. cbn [length]. rewrite Hlast. f_equal. lia.
  - destruct (Part000_fillImage_run urls (Part000.constructor api cfg readOnly) eq_refl)
      as (Hc & Ht & Hi).
    fold c in Hc, Ht, Hi. cbn in Hc, Ht, Hi.
    repeat split; [exact Hc|exact Ht|].
    rewrite Hi. destruct urls; [done|]. cbn [length]. rewrite Hlast. f_equal. lia.
Qed.

End FillImageFacts.

Section AlignFacts.
Context `{JsNumber}.

(** [classList.toggle(token, force)] with a boolean [force]. *)
Lemma elem_of_classList_toggle_bool t tok (b : bool) e :
  t ∈ classList (classList_toggle tok (JBool b) e) ↔
  (t = tok ∧ b = true) ∨ (t ≠ tok ∧ t ∈ classList e).
Proof.
  rewrite classList_toggle_bool. destruct b; set_unfold;
    destruct (decide (t = tok)); intuition congruence.
Qed.

(** The flags that [onSelectAlign] writes are booleans. *)
Lemma onSelectAlign_flag_bool align u q :
  field (config (exec (onSelectAlign align) u)) (flag q) =
  JBool (selected (exec (onSelectAlign align) u) q).
Proof.
  unfold selected. rewrite onSelectAlign_flag. by case_match.
Qed.

(** X5. After [onSelectAlign(align)], for any argument and from any
    state, the page shows what [this.config] says: the wrapper carries the
    tune class of a position exactly when the flag of the position is true,
    and a button carries [image-tool__align-selected] exactly when the flag
    of its position is true. The call leaves the status, the other fields of
    [this.config], the media elements, the image container and the canvas as
    they are. *)
Theorem onSelectAlign_view (align : jsval) (u : Ui) :
  let u' := exec (onSelectAlign align) u in
  (∀ q, tune_class (pos_name q) ∈ classList (nodes u' wrapper) ↔ selected u' q = true) ∧
  (∀ q, "image-tool__align-selected" ∈ classList (nodes u' (align_button q))
        ↔ selected u' q = true) ∧
  shown_status u' = shown_status u ∧
  (∀ k, (∀ q, k ≠ flag q) → field (config u') k = field (config u) k) ∧
  imageEl u' = imageEl u ∧ media u' = media u ∧ container u' = container u ∧
  konva u' = konva u.
Proof.
  intros u'.
  pose proof (onSelectAlign_flag_bool align u) as Hb. fold u' in Hb.
  assert (Hcfg : config u' = _) by apply onSelectAlign_config.
  assert (Hw : nodes u' wrapper =
    classList_toggle (tune_class "right") (field (config u') "isSelectedRight")
      (classList_toggle (tune_class "center") (field (config u') "isSelectedCenter")
        (classList_toggle (tune_class "left") (field (config u') "isSelectedLeft")
          (nodes u wrapper)))).
  { rewrite Hcfg. unfold u'. destruct u as [cfg nds iel med cont kv]. run_ui.
    by simpl_field. }
  assert (Hbtn : ∀ q, nodes u' (align_button q) =
    classList_toggle "image-tool__align-selected" (field (config u') (flag q))
      (nodes u (align_button q))).
  { intros q. rewrite Hcfg. unfold u'. destruct u as [cfg nds iel med cont kv].
    destruct q; run_ui; by simpl_field. }
  pose proof (Hb pos_left) as Hl. pose proof (Hb pos_center) as Hc.
  pose proof (Hb pos_right) as Hr. cbn [flag] in Hl, Hc, Hr.
  split.
  { intros q. rewrite Hw, Hl, Hc, Hr. rewrite !elem_of_classList_toggle_bool.
    destruct q; cbn [pos_name];
      change (tune_class "left") with "image-tool--left";
      change (tune_class "center") with "image-tool--center";
      change (tune_class "right") with "image-tool--right";
      intuition congruence. }
  split.
  { intros q. rewrite Hbtn, Hb, elem_of_classList_toggle_bool. intuition congruence. }
  split.
  { unfold shown_status. rewrite Hw, Hl, Hc, Hr.
    assert (Hsame : ∀ st, st ∈ Ui_status →
              (CSS_wrapper +:+ "--" +:+ st ∈ classList
                 (classList_toggle (tune_class "right") (JBool (selected u' pos_right))
                    (classList_toggle (tune_class "center") (JBool (selected u' pos_center))
                       (classList_toggle (tune_class "left") (JBool (selected u' pos_left))
                          (nodes u wrapper))))
               ↔ CSS_wrapper +:+ "--" +:+ st ∈ classList (nodes u wrapper))).
    { intros st Hst. rewrite !elem_of_classList_toggle_bool.
      unfold Ui_status, status_EMPTY, status_UPLOADING, status_FILLED in Hst.
      rewrite !elem_of_cons, elem_of_nil in Hst.
      destruct Hst as [->|[->|[->|[]]]];
        change (tune_class "left") with "image-tool--left";
        change (tune_class "center") with "image-tool--center";
        change (tune_class "right") with "image-tool--right";
        match goal with
        | |- context [CSS_wrapper +:+ "--" +:+ ?s] =>
            let r := eval vm_compute in (CSS_wrapper +:+ "--" +:+ s) in
            change (CSS_wrapper +:+ "--" +:+ s) with r
        end; intuition congruence. }
    pose proof (Hsame "empty") as He. pose proof (Hsame "loading") as Hlo.
    pose proof (Hsame "filled") as Hf.
    unfold Ui_status, status_EMPTY, status_UPLOADING, status_FILLED in *.
    rewrite !elem_of_cons in He, Hlo, Hf.
    specialize (He ltac:(auto)). specialize (Hlo ltac:(auto)). specialize (Hf ltac:(auto)).
    rewrite !filter_cons, !filter_nil.
    repeat case_decide; tauto. }
  split.
  { intros k Hk. rewrite Hcfg.
    pose proof (Hk pos_left). pose proof (Hk pos_center). pose proof (Hk pos_right).
    cbn [flag] in *. by rewrite !field_insert_ne. }
  unfold u'. destruct u as [cfg nds iel med cont kv]. by run_ui.
Qed.

End AlignFacts.

(** [run_ui] with the second class of [src/src/ui.js]. *)
Ltac run_ui2 := cbv beta delta [SrcUi2.onSetImageSize]; run_ui.

(** Destructs the option on which a listener is stuck. *)
Ltac case_option :=
  match goal with
  | |- context [match ?x with Some _ => _ | None => _ end] =>
      first [is_var x | lazymatch x with _ !! _ => idtac end]; destruct x eqn:?
  end.

Section ControlFacts.
Context `{JsNumber}.

Lemma elem_of_classList_toggle_not t tok v e :
  t ∈ classList (classList_toggle tok (js_not v) e) ↔
  (t = tok ∧ truthy v = false) ∨ (t ≠ tok ∧ t ∈ classList e).
Proof.
  unfold js_not. rewrite elem_of_classList_toggle_bool.
  destruct (truthy v); cbn; intuition congruence.
Qed.

(** The controls after a press of the resize-mode control, in
    [src/src/ui.js]. *)
Lemma SrcUi_resize_click_controls u imgWidth imgHeight trBox :
  let a := SrcUi.step u (click_resizeModeButton imgWidth imgHeight trBox) in
  resize_mode a = negb (resize_mode u) ∧
  enabled (nodes a setSizeButton) = negb (resize_mode a) ∧
  editable (nodes a imageWidth) = negb (resize_mode a) ∧
  editable (nodes a imageHeight) = negb (resize_mode a) ∧
  enabled (nodes a undoResizeButton) = resize_mode a ∧
  (tune_class "resizeMode-on" ∈ classList (nodes a wrapper) ↔ resize_mode a = true).
Proof.
  intros a. unfold a, resize_mode. clear a.
  destruct u as [cfg nds iel med cont kv]. cbn [config].
  destruct (truthy (field cfg "isChangeResizeMode")) eqn:Hm; cbn [negb];
    run_ui; simpl_field; rewrite truthy_js_not, Hm; cbn [negb];
    repeat (run_ui; simpl_field; try case_option);
    simpl_prop; rewrite ?elem_of_classList_toggle_not, ?truthy_js_not, ?Hm;
    unfold js_not; cbn [truthy negb ToString strict_eq_str]; rewrite ?Hm;
    repeat split; try reflexivity; try (intuition congruence).
Qed.

(** The same in [part_000]. *)
Lemma Part000_resize_click_controls u imgWidth imgHeight trBox :
  let c := Part000.step u (click_resizeModeButton imgWidth imgHeight trBox) in
  resize_mode c = negb (resize_mode u) ∧
  enabled (nodes c setSizeButton) = negb (resize_mode c) ∧
  editable (nodes c inputWidth) = negb (resize_mode c) ∧
  editable (nodes c inputHeight) = negb (resize_mode c) ∧
  (tune_class "resizeMode-on" ∈ classList (nodes c wrapper) ↔ resize_mode c = true).
Proof.
  intros c. unfold c, resize_mode. clear c.
  destruct u as [cfg nds iel med cont kv]. cbn [config].
  destruct (truthy (field cfg "isChangeResizeMode")) eqn:Hm; cbn [negb];
    run_ui; simpl_field; rewrite truthy_js_not, Hm; cbn [negb];
    repeat (run_ui; simpl_field; try case_option);
    simpl_prop; rewrite ?elem_of_classList_toggle_not, ?truthy_js_not, ?Hm;
    unfold js_not; cbn [truthy negb ToString strict_eq_str]; rewrite ?Hm;
    repeat split; try reflexivity; try (intuition congruence).
Qed.

(** The controls after a press of the undo control while resize mode is
    on. *)
Lemma SrcUi_undo_controls u :
  resize_mode u = true →
  let a := SrcUi.step u click_undoResizeButton in
  resize_mode a = false ∧
  enabled (nodes a setSizeButton) = true ∧
  editable (nodes a imageWidth) = true ∧
  editable (nodes a imageHeight) = true ∧
  enabled (nodes a undoResizeButton) = false ∧
  tune_class "resizeMode-on" ∉ classList (nodes a wrapper).
Proof.
  intros Hm a. unfold a, resize_mode in *. clear a.
  destruct u as [cfg nds iel med cont kv]. cbn [config] in Hm.
  run_ui; rewrite Hm;
    repeat (run_ui; simpl_field; try case_option);
    simpl_prop; rewrite ?elem_of_classList_toggle_not, ?truthy_js_not, ?Hm;
    unfold js_not; cbn [truthy negb ToString strict_eq_str]; rewrite ?Hm;
    repeat split; try reflexivity; try (intuition congruence).
Qed.

Lemma Part000_undo_controls u :
  resize_mode u = true →
  let c := Part000.step u click_undoResizeButton in
  resize_mode c = false ∧
  enabled (nodes c setSizeButton) = true ∧
  editable (nodes c inputWidth) = true ∧
  editable (nodes c inputHeight) = true ∧
  enabled (nodes c undoResizeButton) = false ∧
  tune_class "resizeMode-on" ∉ classList (nodes c wrapper).
Proof.
  intros Hm c. unfold c, resize_mode in *. clear c.
  destruct u as [cfg nds iel med cont kv]. cbn [config] in Hm.
  run_ui; rewrite Hm;
    repeat (run_ui; simpl_field; try case_option);
    simpl_prop; rewrite ?elem_of_classList_toggle_not, ?truthy_js_not, ?Hm;
    unfold js_not; cbn [truthy negb ToString strict_eq_str]; rewrite ?Hm;
    repeat split; try reflexivity; try (intuition congruence).
Qed.

(** X6. A press of the resize-mode control flips
    [config.isChangeResizeMode], and, from any state and whether or not the
    listener goes on to throw, leaves the controls in step with the new
    mode: the apply-size control is disabled, and the two size fields have
    [contentEditable] false, exactly when the mode is now on, and the
    wrapper carries the class [image-tool--resizeMode-on] exactly then. In
    [src/src/ui.js] the undo control is enabled exactly when the mode is
    now on. *)
Theorem resizeModeButton_click_controls (u : Ui) (imgWidth imgHeight : number)
    (trBox : box) :
  let a := SrcUi.step u (click_resizeModeButton imgWidth imgHeight trBox) in
  let c := Part000.step u (click_resizeModeButton imgWidth imgHeight trBox) in
  (resize_mode a = negb (resize_mode u) ∧
   enabled (nodes a setSizeButton) = negb (resize_mode a) ∧
   editable (nodes a imageWidth) = negb (resize_mode a) ∧
   editable (nodes a imageHeight) = negb (resize_mode a) ∧
   enabled (nodes a undoResizeButton) = resize_mode a ∧
   (tune_class "resizeMode-on" ∈ classList (nodes a wrapper) ↔ resize_mode a = true)) ∧
  (resize_mode c = negb (resize_mode u) ∧
   enabled (nodes c setSizeButton) = negb (resize_mode c) ∧
   editable (nodes c inputWidth) = negb (resize_mode c) ∧
   editable (nodes c inputHeight) = negb (resize_mode c) ∧
   (tune_class "resizeMode-on" ∈ classList (nodes c wrapper) ↔ resize_mode c = true)).
Proof.
  intros a c. split.
  - apply SrcUi_resize_click_controls.
  - apply Part000_resize_click_controls.
Qed.

(** X7. A press of the undo control while resize mode is on turns the
    mode off, enables the apply-size control, makes both size fields
    editable, disables the undo control and removes the class
    [image-tool--resizeMode-on] from the wrapper; in both revisions, and
    also when the listener throws afterwards for want of a canvas or an
    image. *)
Theorem undoResizeButton_click_controls (u : Ui) :
  resize_mode u = true →
  let a := SrcUi.step u click_undoResizeButton in
  let c := Part000.step u click_undoResizeButton in
  (resize_mode a = false ∧
   enabled (nodes a setSizeButton) = true ∧
   editable (nodes a imageWidth) = true ∧
   editable (nodes a imageHeight) = true ∧
   enabled (nodes a undoResizeButton) = false ∧
   tune_class "resizeMode-on" ∉ classList (nodes a wrapper)) ∧
  (resize_mode c = false ∧
   enabled (nodes c setSizeButton) = true ∧
   editable (nodes c inputWidth) = true ∧
   editable (nodes c inputHeight) = true ∧
   enabled (nodes c undoResizeButton) = false ∧
   tune_class "resizeMode-on" ∉ classList (nodes c wrapper)).
Proof.
  intros Hm a c. split.
  - by apply SrcUi_undo_controls.
  - by apply Part000_undo_controls.
Qed.

(** X8. A press of the undo control while resize mode is off undoes
    nothing: it does not throw; [this.config] (and so any size committed
    before), the media elements with their inline styles, the image
    container and the canvas are as before; of the nodes only the undo
    control and the wrapper may change, and the undo control is enabled
    afterwards. In both revisions. *)
Theorem undoResizeButton_click_outside_resize_mode (u : Ui) :
  resize_mode u = false →
  let a := SrcUi.step u click_undoResizeButton in
  let c := Part000.step u click_undoResizeButton in
  (returns (SrcUi.handle click_undoResizeButton) u = true ∧
   config a = config u ∧ imageEl a = imageEl u ∧ media a = media u ∧
   container a = container u ∧ konva a = konva u ∧
   (∀ n, n ≠ undoResizeButton → n ≠ wrapper → nodes a n = nodes u n) ∧
   enabled (nodes a undoResizeButton) = true) ∧
  (returns (Part000.handle click_undoResizeButton) u = true ∧
   config c = config u ∧ imageEl c = imageEl u ∧ media c = media u ∧
   container c = container u ∧ konva c = konva u ∧
   (∀ n, n ≠ undoResizeButton → n ≠ wrapper → nodes c n = nodes u n) ∧
   enabled (nodes c undoResizeButton) = true).
Proof.
  intros Hm a c. unfold a, c, returns, resize_mode in *. clear a c.
  destruct u as [cfg nds iel med cont kv]. cbn [config] in Hm.
  split;
    (run_ui; rewrite Hm; run_ui;
     repeat split; try reflexivity;
     [intros n Hn1 Hn2; by destruct n
     |simpl_prop; by rewrite Hm]).
Qed.

End ControlFacts.

Section LastAccepted.
Context `{JsNumber}.

(** Under the policy the transformer holds the last request that did not
    exceed the extent. *)
Lemma resizes_last_accepted maxWidth maxHeight k news :
  tr_boundBoxFunc k = boundBoxFunc_policy maxWidth maxHeight →
  tr_back (resizes k news) = last_accepted maxWidth maxHeight (tr_back k) news.
Proof.
  intros Hf. unfold last_accepted.
  induction news as [|b news IH] using rev_ind; [reflexivity|].
  rewrite resizes_snoc, Hf, filter_app, filter_cons, filter_nil.
  unfold boundBoxFunc_policy. fold (exceeds maxWidth maxHeight b).
  destruct (exceeds maxWidth maxHeight b) eqn:Hb; case_decide; try done.
  - by rewrite app_nil_r.
  - by rewrite last_snoc.
Qed.

(** X9. Requests that the policy rejects leave no trace in a resize
    session: leaving resize mode through its control commits the last
    request of the session that did not exceed the extent, wherever it
    stands among the requests, and the box that the transformer started
    from when there is no such request. In [src/src/ui.js] the size goes to
    [config.konvaWidth] and [config.konvaHeight], in [part_000] to
    [config.width] and [config.height]. *)
Theorem resize_commits_last_accepted (u v : Ui) (imgW imgH : number) (trBox : box)
    (news : list box) (imgW' imgH' : number) (trBox' : box) (i j : nat) (el : element) :
  resize_mode u = false → imageEl u = Some i →
  resize_mode v = false → imageEl v = Some j → media v !! j = Some el →
  let a := SrcUi.step (SrcUi_session u imgW imgH trBox news)
                      (click_resizeModeButton imgW' imgH' trBox') in
  let c := Part000.step (Part000_session v imgW imgH trBox news)
                        (click_resizeModeButton imgW' imgH' trBox') in
  let canvasWidth := ToNumber (field (config v) "konvaWidth") in
  let canvasHeight := num_mul (num_div imgH imgW) canvasWidth in
  let b := last_accepted SrcUi.MAX_WIDTH SrcUi.MAX_HEIGHT trBox news in
  let d := last_accepted canvasWidth canvasHeight trBox news in
  (field (config a) "konvaWidth" = JNum (width b) ∧
   field (config a) "konvaHeight" = JNum (height b)) ∧
  (field (config c) "width" = JNum (width d) ∧
   field (config c) "height" = JNum (height d)).
Proof.
  intros Hu Hi Hv Hj Hel a c canvasWidth canvasHeight b d.
  split.
  - destruct (SrcUi_session_state u imgW imgH trBox news Hu) as (Hm & _ & Hi2 & _ & _ & Hk).
    rewrite Hi in Hi2.
    destruct (SrcUi_exit _ imgW' imgH' trBox' _ i Hm Hk Hi2) as (_ & Hw & Hh & _).
    fold a in Hw, Hh. rewrite Hw, Hh.
    by rewrite (resizes_last_accepted SrcUi.MAX_WIDTH SrcUi.MAX_HEIGHT).
  - destruct (Part000_session_state v imgW imgH trBox news j el Hv Hj Hel)
      as (Hm & _ & Hi2 & _ & _ & Hk).
    rewrite Hj in Hi2.
    destruct (Part000_exit _ imgW' imgH' trBox' _ j Hm Hk Hi2) as (_ & Hw & Hh & _).
    fold c in Hw, Hh. rewrite Hw, Hh.
    by rewrite (resizes_last_accepted canvasWidth canvasHeight).
Qed.

End LastAccepted.

Section WithoutImage.
Context `{JsNumber}.

(** X10. [onSetImageSize()] before any image was filled
    ([this.nodes.imageEl] is [undefined]). In [src/src/ui.js] it throws, but
    only after it has written [this.config]: [imageWidth] and [imageHeight]
    are the numbers entered (0 for an empty field) and [konvaWidth] and
    [konvaHeight] are updated for the fields that are not empty. In
    [part_000] it throws unless both fields are empty, and changes nothing;
    the listener of the apply-size control always throws, and changes
    nothing. *)
Theorem onSetImageSize_without_image (u : Ui) :
  imageEl u = None →
  let w := prop_text (nodes u imageWidth) "textContent" in
  let h := prop_text (nodes u imageHeight) "textContent" in
  let wv := prop_text (nodes u inputWidth) "value" in
  let hv := prop_text (nodes u inputHeight) "value" in
  let a := exec SrcUi.onSetImageSize u in
  (returns SrcUi.onSetImageSize u = false ∧
   field (config a) "imageWidth"
     = (if String.eqb w "" then JNum (num_of_Z 0) else JNum (Number w)) ∧
   field (config a) "imageHeight"
     = (if String.eqb h "" then JNum (num_of_Z 0) else JNum (Number h)) ∧
   field (config a) "konvaWidth"
     = (if String.eqb w "" then field (config u) "konvaWidth" else JNum (Number w)) ∧
   field (config a) "konvaHeight"
     = (if String.eqb h "" then field (config u) "konvaHeight" else JNum (Number h)) ∧
   nodes a = nodes u ∧ media a = media u ∧ container a = container u) ∧
  (returns Part000.onSetImageSize u = String.eqb wv "" && String.eqb hv "" ∧
   exec Part000.onSetImageSize u = u ∧
   returns Part000.setSizeButton_click u = false ∧
   exec Part000.setSizeButton_click u = u).
Proof.
  intros Hi w h wv hv a. unfold a, w, h, wv, hv, returns. clear a w h wv hv.
  destruct u as [cfg nds iel med cont kv]. cbn [imageEl] in Hi. subst iel.
  cbn [nodes config]. split.
  - run_ui.
    destruct (prop_text (nds imageWidth) "textContent") as [|c1 w];
      destruct (prop_text (nds imageHeight) "textContent") as [|c2 h];
      cbn [String.eqb String.length Nat.eqb negb]; run_ui; simpl_field;
      rewrite ?Ascii.eqb_refl, ?String.eqb_refl; by repeat split.
  - run_ui.
    destruct (prop_text (nds inputWidth) "value") as [|c1 w];
      destruct (prop_text (nds inputHeight) "value") as [|c2 h];
      cbn [truthy String.eqb negb andb]; run_ui; by repeat split.
Qed.

(** Entering resize mode in [src/src/ui.js] needs no image. *)
Lemma SrcUi_enter u imgW imgH trBox :
  resize_mode u = false →
  let u1 := SrcUi.step u (click_resizeModeButton imgW imgH trBox) in
  returns (SrcUi.handle (click_resizeModeButton imgW imgH trBox)) u = true ∧
  resize_mode u1 = true ∧ container u1 = [StageContent] ∧
  imageEl u1 = imageEl u ∧ media u1 = media u ∧
  (∃ k, konva u1 = Some k ∧ tr_back k = trBox) ∧
  (∀ key, key ≠ "isChangeResizeMode" → field (config u1) key = field (config u) key) ∧
  prop_text (nodes u1 imageWidth) "textContent"
    = prop_text (nodes u imageWidth) "textContent" ∧
  prop_text (nodes u1 imageHeight) "textContent"
    = prop_text (nodes u imageHeight) "textContent".
Proof.
  intros Hm u1. unfold u1, returns, resize_mode in *. clear u1.
  destruct u as [cfg nds iel med cont kv]. cbn [config] in Hm.
  run_ui. simpl_field. rewrite !truthy_js_not, Hm. cbn [negb]. run_ui. simpl_field.
  rewrite ?truthy_js_not, ?Hm.
  repeat split; try reflexivity.
  - by eexists.
  - intros key Hkey. by rewrite field_insert_ne.
  - by simpl_prop.
  - by simpl_prop.
Qed.

(** Leaving it throws when there is no image, after the size was written
    to [config.konvaWidth] and [config.konvaHeight]. *)
Lemma SrcUi_exit_without_image u1 imgW imgH trBox k :
  resize_mode u1 = true → konva u1 = Some k → imageEl u1 = None →
  let u2 := SrcUi.step u1 (click_resizeModeButton imgW imgH trBox) in
  returns (SrcUi.handle (click_resizeModeButton imgW imgH trBox)) u1 = false ∧
  resize_mode u2 = false ∧
  container u2 = filter (λ d, d ≠ StageContent) (container u1) ∧
  field (config u2) "konvaWidth" = JNum (width (tr_back k)) ∧
  field (config u2) "konvaHeight" = JNum (height (tr_back k)) ∧
  field (config u2) "imageWidth" = field (config u1) "imageWidth" ∧
  field (config u2) "imageHeight" = field (config u1) "imageHeight" ∧
  prop_text (nodes u2 imageWidth) "textContent"
    = prop_text (nodes u1 imageWidth) "textContent" ∧
  prop_text (nodes u2 imageHeight) "textContent"
    = prop_text (nodes u1 imageHeight) "textContent".
Proof.
  intros Hm Hk Hi u2. unfold u2, returns, resize_mode in *. clear u2.
  destruct u1 as [cfg nds iel med cont kv]. cbn [config konva imageEl] in Hm, Hk, Hi.
  subst iel kv.
  run_ui. simpl_field. rewrite !truthy_js_not, Hm. cbn [negb]. run_ui. simpl_field.
  rewrite ?truthy_js_not, ?Hm.
  repeat split; try reflexivity; by simpl_prop.
Qed.

(** X11. The resize-mode control of [src/src/ui.js] on a block without an
    image. The first press enters resize mode and puts the canvas into the
    image container. The second press throws when it reaches the image, after
    it has turned the mode off, removed the canvas and written the size of
    the transformer's box to [config.konvaWidth] and [config.konvaHeight];
    [config.imageWidth], [config.imageHeight] and the texts of the two size
    fields are not updated. *)
Theorem SrcUi_resize_without_image (u : Ui) (imgW imgH imgW' imgH' : number)
    (trBox trBox' : box) :
  imageEl u = None → resize_mode u = false →
  let enter := click_resizeModeButton imgW imgH trBox in
  let leave := click_resizeModeButton imgW' imgH' trBox' in
  let u1 := SrcUi.step u enter in
  let u2 := SrcUi.step u1 leave in
  returns (SrcUi.handle enter) u = true ∧
  resize_mode u1 = true ∧ container u1 = [StageContent] ∧
  returns (SrcUi.handle leave) u1 = false ∧
  resize_mode u2 = false ∧ container u2 = [] ∧
  field (config u2) "konvaWidth" = JNum (width trBox) ∧
  field (config u2) "konvaHeight" = JNum (height trBox) ∧
  field (config u2) "imageWidth" = field (config u) "imageWidth" ∧
  field (config u2) "imageHeight" = field (config u) "imageHeight" ∧
  prop_text (nodes u2 imageWidth) "textContent"
    = prop_text (nodes u imageWidth) "textContent" ∧
  prop_text (nodes u2 imageHeight) "textContent"
    = prop_text (nodes u imageHeight) "textContent".
Proof.
  intros Hi Hm enter leave u1 u2.
  destruct (SrcUi_enter u imgW imgH trBox Hm)
    as (Hr1 & Hm1 & Hc1 & Hi1 & _ & (k & Hk & Hb) & Hcfg & Hpw & Hph).
  fold enter u1 in Hr1, Hm1, Hc1, Hi1, Hk, Hcfg, Hpw, Hph. rewrite Hi in Hi1.
  destruct (SrcUi_exit_without_image u1 imgW' imgH' trBox' k Hm1 Hk Hi1)
    as (Hr2 & Hm2 & Hc2 & Hkw & Hkh & Hiw & Hih & Htw & Hth).
  fold leave u2 in Hr2, Hm2, Hc2, Hkw, Hkh, Hiw, Hih, Htw, Hth.
  rewrite Hc1 in Hc2. rewrite Hb in Hkw, Hkh. rewrite Hcfg in Hiw, Hih by done.
  repeat split; try assumption.
  - by rewrite Htw.
  - by rewrite Hth.
Qed.

(** In [part_000] entering resize mode reads the size of the image first. *)
Lemma Part000_enter_without_image u imgW imgH trBox :
  imageEl u = None → resize_mode u = false →
  let u1 := Part000.step u (click_resizeModeButton imgW imgH trBox) in
  returns (Part000.handle (click_resizeModeButton imgW imgH trBox)) u = false ∧
  resize_mode u1 = true ∧ konva u1 = konva u ∧ container u1 = container u ∧
  enabled (nodes u1 setSizeButton) = false ∧
  (∀ key, key ≠ "isChangeResizeMode" → field (config u1) key = field (config u) key) ∧
  style_get (nodes u1 imageContainer) "backgroundImage"
    = JStr "url('https://cdn.pixabay.com/photo/2016/07/29/23/03/white-1556097_1280.png')" ∧
  nodes u1 undoResizeButton = nodes u undoResizeButton.
Proof.
  intros Hi Hm u1. unfold u1, returns, resize_mode in *. clear u1.
  destruct u as [cfg nds iel med cont kv]. cbn [config imageEl] in Hi, Hm. subst iel.
  run_ui. simpl_field. rewrite !truthy_js_not, Hm. cbn [negb]. run_ui. simpl_field.
  rewrite ?truthy_js_not, ?Hm.
  repeat split; try reflexivity.
  - simpl_prop. unfold js_not. by rewrite Hm.
  - intros key Hkey. by rewrite field_insert_ne.
  - apply style_get_assign.
Qed.

(** Leaving resize mode reads the stage first. *)
Lemma Part000_exit_without_konva u1 imgW imgH trBox :
  resize_mode u1 = true → konva u1 = None →
  let u2 := Part000.step u1 (click_resizeModeButton imgW imgH trBox) in
  returns (Part000.handle (click_resizeModeButton imgW imgH trBox)) u1 = false ∧
  resize_mode u2 = false ∧ konva u2 = None ∧ container u2 = container u1 ∧
  enabled (nodes u2 setSizeButton) = true ∧
  (∀ key, key ≠ "isChangeResizeMode" → field (config u2) key = field (config u1) key) ∧
  nodes u2 imageContainer = nodes u1 imageContainer ∧
  nodes u2 undoResizeButton = nodes u1 undoResizeButton.
Proof.
  intros Hm Hk u2. unfold u2, returns, resize_mode in *. clear u2.
  destruct u1 as [cfg nds iel med cont kv]. cbn [config konva] in Hk, Hm. subst kv.
  run_ui. simpl_field. rewrite !truthy_js_not, Hm. cbn [negb]. run_ui. simpl_field.
  rewrite ?truthy_js_not, ?Hm.
  repeat split; try reflexivity.
  - simpl_prop. unfold js_not. by rewrite Hm.
  - intros key Hkey. by rewrite field_insert_ne.
Qed.

(** X12. The resize-mode control of [part_000] on a new block without an
    image. The first press throws when it reads the size of the image: no
    canvas is created, yet the mode is on, the apply-size control is
    disabled and the node of the image container has the background image
    that the listener assigns first. The second press throws as well, when
    it reads the stage; it turns the mode off and enables the apply-size
    control again, but throws before it clears that background image, which
    stays on the node. Neither press reaches the undo control, whose node
    stays as it was. The list of children of the image container and every
    field of [this.config] other than [isChangeResizeMode] are as at the
    start. *)
Theorem Part000_resize_without_image (u : Ui) (imgW imgH imgW' imgH' : number)
    (trBox trBox' : box) :
  imageEl u = None → konva u = None → resize_mode u = false →
  let enter := click_resizeModeButton imgW imgH trBox in
  let again := click_resizeModeButton imgW' imgH' trBox' in
  let u1 := Part000.step u enter in
  let u2 := Part000.step u1 again in
  let background :=
    JStr "url('https://cdn.pixabay.com/photo/2016/07/29/23/03/white-1556097_1280.png')" in
  returns (Part000.handle enter) u = false ∧
  resize_mode u1 = true ∧ konva u1 = None ∧ container u1 = container u ∧
  enabled (nodes u1 setSizeButton) = false ∧
  style_get (nodes u1 imageContainer) "backgroundImage" = background ∧
  returns (Part000.handle again) u1 = false ∧
  resize_mode u2 = false ∧ konva u2 = None ∧ container u2 = container u ∧
  enabled (nodes u2 setSizeButton) = true ∧
  style_get (nodes u2 imageContainer) "backgroundImage" = background ∧
  nodes u2 undoResizeButton = nodes u undoResizeButton ∧
  (∀ key, key ≠ "isChangeResizeMode" → field (config u2) key = field (config u) key).
Proof.
  intros Hi Hk Hm enter again u1 u2 background.
  destruct (Part000_enter_without_image u imgW imgH trBox Hi Hm)
    as (Hr1 & Hm1 & Hk1 & Hc1 & He1 & Hcfg1 & Hbg1 & Hun1).
  fold enter u1 in Hr1, Hm1, Hk1, Hc1, He1, Hcfg1, Hbg1, Hun1. rewrite Hk in Hk1.
  destruct (Part000_exit_without_konva u1 imgW' imgH' trBox' Hm1 Hk1)
    as (Hr2 & Hm2 & Hk2 & Hc2 & He2 & Hcfg2 & Hbg2 & Hun2).
  fold again u2 in Hr2, Hm2, Hk2, Hc2, He2, Hcfg2, Hbg2, Hun2. rewrite Hc1 in Hc2.
  repeat split; try assumption.
  - by rewrite Hbg2.
  - by rewrite Hun2.
  - intros key Hkey. by rewrite Hcfg2, Hcfg1.
Qed.

End WithoutImage.

Section ManualSizeFacts.
Context `{JsNumber}.

(** X13. The two [onSetImageSize] of [src/src/ui.js] differ only in
    [config.konvaWidth] and [config.konvaHeight]: on any state both return
    or both throw, they leave the same nodes, media elements, image
    container and canvas, and the same value in every other field of
    [this.config]; the one of the second class leaves [konvaWidth] and
    [konvaHeight] as they were. *)
Theorem onSetImageSize_revisions (u : Ui) :
  let a := exec SrcUi.onSetImageSize u in
  let b := exec SrcUi2.onSetImageSize u in
  returns SrcUi.onSetImageSize u = returns SrcUi2.onSetImageSize u ∧
  nodes a = nodes b ∧ imageEl a = imageEl b ∧ media a = media b ∧
  container a = container b ∧ konva a = konva b ∧
  (∀ key, key ≠ "konvaWidth" → key ≠ "konvaHeight" →
     field (config a) key = field (config b) key) ∧
  field (config b) "konvaWidth" = field (config u) "konvaWidth" ∧
  field (config b) "konvaHeight" = field (config u) "konvaHeight".
Proof.
  intros a b. unfold a, b, returns. clear a b.
  destruct u as [cfg nds iel med cont kv].
  run_ui2.
  destruct (prop_text (nds imageWidth) "textContent") as [|c1 w];
    destruct (prop_text (nds imageHeight) "textContent") as [|c2 h];
    cbn [String.eqb String.length Nat.eqb negb]; run_ui;
    destruct iel as [i|]; run_ui; simpl_field;
    (repeat split; try reflexivity);
    intros key Hw Hh; by simpl_field.
Qed.

(** X14. [onSetImageSize()] with both size fields empty, on a block with
    an image. In [src/src/ui.js] it resets the size: [config.imageWidth] and
    [config.imageHeight] become 0 and the inline width and height of the
    image are removed, while [config.konvaWidth] and [config.konvaHeight]
    keep their values. In [part_000] it changes nothing. *)
Theorem onSetImageSize_empty_fields (u v : Ui) (i j : nat) :
  prop_text (nodes u imageWidth) "textContent" = "" →
  prop_text (nodes u imageHeight) "textContent" = "" →
  imageEl u = Some i →
  prop_text (nodes v inputWidth) "value" = "" →
  prop_text (nodes v inputHeight) "value" = "" →
  imageEl v = Some j →
  let a := exec SrcUi.onSetImageSize u in
  (returns SrcUi.onSetImageSize u = true ∧
   field (config a) "imageWidth" = JNum (num_of_Z 0) ∧
   field (config a) "imageHeight" = JNum (num_of_Z 0) ∧
   field (config a) "konvaWidth" = field (config u) "konvaWidth" ∧
   field (config a) "konvaHeight" = field (config u) "konvaHeight" ∧
   image_style a = (delete "height" ∘ delete "width") <$> image_style u) ∧
  (returns Part000.onSetImageSize v = true ∧ exec Part000.onSetImageSize v = v).
Proof.
  intros Hw Hh Hi Hwv Hhv Hj a. unfold a, returns. clear a.
  destruct u as [cfg nds iel med cont kv]. cbn [nodes imageEl] in Hw, Hh, Hi. subst iel.
  destruct v as [cfg' nds' iel' med' cont' kv']. cbn [nodes imageEl] in Hwv, Hhv, Hj.
  subst iel'. split.
  - run_ui. rewrite Hw, Hh. cbn [String.eqb String.length Nat.eqb negb]. run_ui.
    simpl_field. repeat split; try reflexivity.
    unfold image_style. cbn [imageEl media mbind option_bind].
    rewrite !list_lookup_alter. case_decide; [|done].
    destruct (med !! i); reflexivity.
  - run_ui. rewrite Hwv, Hhv. cbn [truthy String.eqb negb]. by run_ui.
Qed.

(** X15. [onSetImageSize()] with a text in both size fields, on a block
    with an image. In [src/src/ui.js] the numbers entered are written to
    [config.imageWidth], [config.imageHeight], [config.konvaWidth] and
    [config.konvaHeight], and the texts followed by [px] are assigned to the
    inline width and height of the image. In [part_000] the numbers
    themselves are assigned to the inline width and height, and
    [this.config] stays as it is. Neither touches the nodes or the image
    container. *)
Theorem onSetImageSize_both_fields (u v : Ui) (w h : string) (i j : nat) :
  prop_text (nodes u imageWidth) "textContent" = w → w ≠ "" →
  prop_text (nodes u imageHeight) "textContent" = h → h ≠ "" →
  imageEl u = Some i →
  prop_text (nodes v inputWidth) "value" = w →
  prop_text (nodes v inputHeight) "value" = h →
  imageEl v = Some j →
  let a := exec SrcUi.onSetImageSize u in
  let c := exec Part000.onSetImageSize v in
  (returns SrcUi.onSetImageSize u = true ∧
   field (config a) "imageWidth" = JNum (Number w) ∧
   field (config a) "imageHeight" = JNum (Number h) ∧
   field (config a) "konvaWidth" = JNum (Number w) ∧
   field (config a) "konvaHeight" = JNum (Number h) ∧
   image_style a = (insert "height" (JStr (h +:+ "px")) ∘ insert "width" (JStr (w +:+ "px")))
                     <$> image_style u ∧
   nodes a = nodes u ∧ container a = container u) ∧
  (returns Part000.onSetImageSize v = true ∧
   config c = config v ∧
   image_style c = (insert "height" (JNum (Number h)) ∘ insert "width" (JNum (Number w)))
                     <$> image_style v ∧
   nodes c = nodes v ∧ container c = container v).
Proof.
  intros Hw Hwne Hh Hhne Hi Hwv Hhv Hj a c. unfold a, c, returns. clear a c.
  destruct u as [cfg nds iel med cont kv]. cbn [nodes imageEl] in Hw, Hh, Hi. subst iel.
  destruct v as [cfg' nds' iel' med' cont' kv']. cbn [nodes imageEl] in Hwv, Hhv, Hj.
  subst iel'.
  destruct w as [|c1 w]; [done|]. destruct h as [|c2 h]; [done|].
  split.
  - run_ui. rewrite Hw, Hh. cbn [String.eqb String.length Nat.eqb negb]. run_ui.
    simpl_field. repeat split; try reflexivity.
    unfold image_style. cbn [imageEl media mbind option_bind].
    rewrite !list_lookup_alter. case_decide; [|done].
    destruct (med !! i); reflexivity.
  - run_ui. rewrite Hwv, Hhv. cbn [truthy String.eqb negb]. run_ui.
    repeat split; try reflexivity.
    unfold image_style. cbn [imageEl media mbind option_bind].
    rewrite !list_lookup_alter. case_decide; [|done].
    destruct (med' !! j); reflexivity.
Qed.

End ManualSizeFacts.

Section ReadOnlyFacts.
Context `{JsNumber}.

Lemma editable_make_contentEditable tag classNames name v readOnly :
  prop_key name ≠ "contentEditable" →
  editable (assign name v (make tag classNames [("contentEditable", js_not readOnly)]))
  = negb (truthy readOnly).
Proof.
  intros Hne. unfold editable, make. cbn [foldl fst snd].
  rewrite !prop_assign.
  change (prop_key "contentEditable") with "contentEditable".
  destruct (String.eqb_spec (prop_key name) "contentEditable") as [Heq|_]; [done|].
  cbn. unfold js_not. by destruct (truthy readOnly).
Qed.

(** X16. The constructors make the caption and the two size fields
    editable exactly when [readOnly] is falsy. The read-only setting of the
    size fields does not survive a resize session: after resize mode was
    entered and left, through the resize-mode control or through the undo
    control, both size fields are editable whatever [readOnly] was; the
    caption keeps its setting. In both revisions. *)
Theorem readOnly_until_resize_mode (api : Api) (cfg : gmap string jsval)
    (readOnly : jsval) (imgW imgH imgW' imgH' : number) (trBox trBox' : box) :
  truthy (field cfg "isChangeResizeMode") = false →
  let a0 := SrcUi.constructor api cfg readOnly in
  let c0 := Part000.constructor api cfg readOnly in
  let enter := click_resizeModeButton imgW imgH trBox in
  let leave := click_resizeModeButton imgW' imgH' trBox' in
  (editable (nodes a0 imageWidth) = negb (truthy readOnly) ∧
   editable (nodes a0 imageHeight) = negb (truthy readOnly) ∧
   editable (nodes a0 caption) = negb (truthy readOnly) ∧
   editable (nodes c0 inputWidth) = negb (truthy readOnly) ∧
   editable (nodes c0 inputHeight) = negb (truthy readOnly) ∧
   editable (nodes c0 caption) = negb (truthy readOnly)) ∧
  (∀ e, e = leave ∨ e = click_undoResizeButton →
     let a2 := SrcUi.run a0 [enter; e] in
     let c2 := Part000.run c0 [enter; e] in
     editable (nodes a2 imageWidth) = true ∧ editable (nodes a2 imageHeight) = true ∧
     editable (nodes a2 caption) = negb (truthy readOnly) ∧
     editable (nodes c2 inputWidth) = true ∧ editable (nodes c2 inputHeight) = true ∧
     editable (nodes c2 caption) = negb (truthy readOnly)).
Proof.
  intros Hoff a0 c0 enter leave.
  assert (Hcap : ∀ u e, nodes (SrcUi.step u e) caption = nodes u caption
                        ∨ ∃ t, e = call_fillCaption t).
  { intros [cfg0 nds iel med cont kv] e.
    destruct e; try (right; by eexists); left;
      run_ui; repeat (case_split; run_ui); reflexivity. }
  assert (Hcap' : ∀ u e, nodes (Part000.step u e) caption = nodes u caption
                        ∨ ∃ t, e = call_fillCaption t).
  { intros [cfg0 nds iel med cont kv] e.
    destruct e; try (right; by eexists); left;
      run_ui; repeat (case_split; run_ui); reflexivity. }
  split.
  { unfold a0, c0, SrcUi.constructor, Part000.constructor. cbn [nodes].
    repeat split; by apply editable_make_contentEditable. }
  intros e He a2 c2.
  pose proof (SrcUi_resize_click_controls a0 imgW imgH trBox) as Ha1.
  pose proof (Part000_resize_click_controls c0 imgW imgH trBox) as Hc1.
  cbv zeta in Ha1, Hc1. fold enter in Ha1, Hc1.
  destruct Ha1 as (Hma & _). destruct Hc1 as (Hmc & _).
  change (resize_mode a0) with (truthy (field cfg "isChangeResizeMode")) in Hma.
  change (resize_mode c0) with (truthy (field cfg "isChangeResizeMode")) in Hmc.
  rewrite Hoff in Hma, Hmc. cbn [negb] in Hma, Hmc.
  assert (Hca : editable (nodes a2 caption) = negb (truthy readOnly)).
  { unfold a2, SrcUi.run. cbn [foldl].
    destruct (Hcap (SrcUi.step a0 enter) e) as [->|[t ->]];
      [|destruct He; discriminate].
    destruct (Hcap a0 enter) as [->|[t Ht]]; [|discriminate].
    by apply editable_make_contentEditable. }
  assert (Hcc : editable (nodes c2 caption) = negb (truthy readOnly)).
  { unfold c2, Part000.run. cbn [foldl].
    destruct (Hcap' (Part000.step c0 enter) e) as [->|[t ->]];
      [|destruct He; discriminate].
    destruct (Hcap' c0 enter) as [->|[t Ht]]; [|discriminate].
    by apply editable_make_contentEditable. }
  destruct He as [->| ->].
  - pose proof (SrcUi_resize_click_controls (SrcUi.step a0 enter) imgW' imgH' trBox')
      as (Hm2 & _ & Hw & Hh & _).
    pose proof (Part000_resize_click_controls (Part000.step c0 enter) imgW' imgH' trBox')
      as (Hm2' & _ & Hw' & Hh' & _).
    fold leave in Hm2, Hw, Hh, Hm2', Hw', Hh'.
    rewrite Hma in Hm2. rewrite Hmc in Hm2'. cbn [negb] in Hm2, Hm2'.
    rewrite Hm2 in Hw, Hh. rewrite Hm2' in Hw', Hh'.
    by repeat split.
  - pose proof (SrcUi_undo_controls (SrcUi.step a0 enter) Hma)
      as (_ & _ & Hw & Hh & _).
    pose proof (Part000_undo_controls (Part000.step c0 enter) Hmc)
      as (_ & _ & Hw' & Hh' & _).
    by repeat split.
Qed.

End ReadOnlyFacts.

Section StageFacts.
Context `{JsNumber}.

Lemma stage_not_in_filter (cs : list child) :
  StageContent ∉ filter (λ d, d ≠ StageContent) cs.
Proof. rewrite list_elem_of_filter. tauto. Qed.

Ltac solve_stage_shown cfg :=
  simpl_field; try (split; assumption);
  repeat (rewrite field_insert in * || rewrite field_insert_ne in * by done);
  rewrite ?truthy_js_not in *;
  destruct (truthy (field cfg "isChangeResizeMode")) eqn:?; cbn [negb] in *;
  try discriminate;
  (split; intros ?; try discriminate);
  repeat match goal with
         | Hyp : ?b = ?b → _ |- _ => specialize (Hyp eq_refl)
         | Hyp : true = false → _ |- _ => clear Hyp
         | Hyp : false = true → _ |- _ => clear Hyp
         end;
  try assumption;
  rewrite ?elem_of_app, ?list_elem_of_filter, ?elem_of_cons, ?elem_of_nil;
  try (split; [|by eexists]);
  rewrite ?elem_of_app, ?list_elem_of_filter, ?elem_of_cons, ?elem_of_nil;
  try (intuition (congruence || done)).

Lemma SrcUi_step_stage_shown u e :
  stage_shown u → stage_shown (SrcUi.step u e).
Proof.
  unfold stage_shown, resize_mode.
  destruct u as [cfg nds iel med cont kv]. cbn [config container konva].
  intros [Hon Hoff].
  destruct e; run_ui; repeat (case_split; run_ui); solve_stage_shown cfg.
Qed.

Lemma SrcUi_run_stage_shown es u :
  stage_shown u → stage_shown (SrcUi.run u es).
Proof.
  revert u. induction es as [|e es IH]; intros u Hu; [exact Hu|].
  apply (IH (SrcUi.step u e)). by apply SrcUi_step_stage_shown.
Qed.

(** X17. In [src/src/ui.js], for a block constructed with resize mode off
    and under any run of clicks, keys, typing, resize steps, media events and
    calls: the canvas is a child of the image container exactly while resize
    mode is on, and then [this.konva] holds the stage, so that leaving the
    mode never fails on reading it. *)
Theorem SrcUi_stage_shown_in_resize_mode (api : Api) (cfg : gmap string jsval)
    (readOnly : jsval) (es : list event) :
  truthy (field cfg "isChangeResizeMode") = false →
  let a := SrcUi.run (SrcUi.constructor api cfg readOnly) es in
  (StageContent ∈ container a ↔ resize_mode a = true) ∧
  (resize_mode a = true → is_Some (konva a)).
Proof.
  intros Hoff a.
  assert (Ha : stage_shown a).
  { apply SrcUi_run_stage_shown. split.
    - unfold resize_mode. cbn [config SrcUi.constructor]. by rewrite Hoff.
    - intros _. cbn [container SrcUi.constructor]. apply not_elem_of_nil. }
  destruct Ha as [Hon Hno]. split; [split|].
  - intros Hin. destruct (resize_mode a) eqn:Hm; [done|]. by destruct (Hno eq_refl).
  - intros Hm. by destruct (Hon Hm).
  - intros Hm. by destruct (Hon Hm).
Qed.

End StageFacts.

Section StatusInvariant.
Context `{JsNumber}.

Lemma elem_of_classList_toggle_ne t tok f e :
  t ≠ tok → t ∈ classList (classList_toggle tok f e) ↔ t ∈ classList e.
Proof.
  intros Hne. unfold classList_toggle.
  destruct f; repeat case_match; cbn [classList set_classList]; set_unfold;
    intuition congruence.
Qed.

Lemma tune_class_inj a b : CSS_wrapper +:+ "--" +:+ a = CSS_wrapper +:+ "--" +:+ b → a = b.
Proof. intros Heq. by simplify_eq/=. Qed.

Lemma filter_iff_in {A} (P Q : A → Prop) `{∀ x, Decision (P x)} `{∀ x, Decision (Q x)}
    (l : list A) :
  (∀ x, x ∈ l → (P x ↔ Q x)) → filter P l = filter Q l.
Proof.
  induction l as [|x l IH]; intros Hl; [done|].
  rewrite !filter_cons, IH by (intros y Hy; apply Hl; by right).
  pose proof (Hl x (list_elem_of_here _ _)). repeat case_decide; tauto.
Qed.

Lemma status_classes_toggle_other name f e :
  name ∉ Ui_status →
  status_classes (classList_toggle (CSS_wrapper +:+ "--" +:+ name) f e) = status_classes e.
Proof.
  intros Hname. unfold status_classes. apply filter_iff_in. intros st Hst.
  apply elem_of_classList_toggle_ne. intros Heq%tune_class_inj. by subst.
Qed.

Lemma status_classes_toggleStatus s e :
  (length (status_classes
     (classList_toggle (CSS_wrapper +:+ "--" +:+ status_FILLED)
        (JBool (strict_eq_str s status_FILLED))
        (classList_toggle (CSS_wrapper +:+ "--" +:+ status_UPLOADING)
           (JBool (strict_eq_str s status_UPLOADING))
           (classList_toggle (CSS_wrapper +:+ "--" +:+ status_EMPTY)
              (JBool (strict_eq_str s status_EMPTY)) e)))) ≤ 1)%nat.
Proof.
  set (e' := classList_toggle _ _ _).
  assert (He : ∀ st, st ∈ Ui_status →
            (CSS_wrapper +:+ "--" +:+ st ∈ classList e' ↔ strict_eq_str s st = true)).
  { intros st Hst. unfold e'. rewrite !elem_of_classList_toggle_bool.
    unfold Ui_status, status_EMPTY, status_UPLOADING, status_FILLED in *.
    rewrite !elem_of_cons, elem_of_nil in Hst.
    destruct Hst as [->|[->|[->|[]]]]; intuition (congruence || discriminate). }
  unfold status_classes, Ui_status. rewrite !filter_cons, filter_nil.
  pose proof (He status_EMPTY) as H1. pose proof (He status_UPLOADING) as H2.
  pose proof (He status_FILLED) as H3.
  unfold Ui_status in H1, H2, H3. rewrite !elem_of_cons in H1, H2, H3.
  specialize (H1 ltac:(auto)). specialize (H2 ltac:(auto)). specialize (H3 ltac:(auto)).
  clearbody e'. clear He.
  unfold status_EMPTY, status_UPLOADING, status_FILLED in *.
  destruct s as [| | | |s|]; cbn [strict_eq_str] in *;
    repeat case_decide; cbn [length]; try lia;
    repeat match goal with
           | Hyp : _ ↔ _, Hin : _ ∈ classList e' |- _ => apply Hyp in Hin
           end; try discriminate;
    repeat match goal with
           | Hyp : String.eqb _ _ = true |- _ => apply String.eqb_eq in Hyp
           end; congruence.
Qed.

Lemma status_classes_make api :
  (length (status_classes (make "div" [styles_block api; CSS_wrapper] [])) ≤ 1)%nat.
Proof.
  unfold status_classes, Ui_status, make. cbn [foldl classList list_to_set foldr].
  rewrite !filter_cons, filter_nil.
  unfold status_EMPTY, status_UPLOADING, status_FILLED.
  change (CSS_wrapper +:+ "--" +:+ "empty") with "image-tool--empty".
  change (CSS_wrapper +:+ "--" +:+ "loading") with "image-tool--loading".
  change (CSS_wrapper +:+ "--" +:+ "filled") with "image-tool--filled".
  change CSS_wrapper with "image-tool".
  repeat case_decide; cbn [length]; try lia; set_unfold;
    intuition (congruence || discriminate).
Qed.

Ltac solve_status :=
  repeat (rewrite status_classes_toggle_other
            by (unfold Ui_status, status_EMPTY, status_UPLOADING, status_FILLED;
                rewrite !elem_of_cons, elem_of_nil; intuition discriminate));
  first [assumption | apply status_classes_toggleStatus].

Lemma SrcUi_step_status u e :
  (length (status_classes (nodes u wrapper)) ≤ 1)%nat →
  (length (status_classes (nodes (SrcUi.step u e) wrapper)) ≤ 1)%nat.
Proof.
  destruct u as [cfg nds iel med cont kv]. cbn [nodes]. intros Hinv.
  destruct e; run_ui; repeat (case_split; run_ui); solve_status.
Qed.

Lemma Part000_step_status u e :
  (length (status_classes (nodes u wrapper)) ≤ 1)%nat →
  (length (status_classes (nodes (Part000.step u e) wrapper)) ≤ 1)%nat.
Proof.
  destruct u as [cfg nds iel med cont kv]. cbn [nodes]. intros Hinv.
  destruct e; run_ui; repeat (case_split; run_ui); solve_status.
Qed.

(** X18. In every state that a block reaches from its constructor, under
    any run of clicks, keys, typing, resize steps, media events and calls,
    the wrapper carries at most one of the three status classes. In both
    revisions. *)
Theorem status_at_most_one (api : Api) (cfg : gmap string jsval) (readOnly : jsval)
    (es : list event) :
  let a := SrcUi.run (SrcUi.constructor api cfg readOnly) es in
  let c := Part000.run (Part000.constructor api cfg readOnly) es in
  (length (shown_status a) ≤ 1)%nat ∧ (length (shown_status c) ≤ 1)%nat.
Proof.
  intros a c. split.
  - change (length (status_classes (nodes a wrapper)) ≤ 1)%nat. unfold a. clear a c.
    generalize (status_classes_make api).
    change (make "div" [styles_block api; CSS_wrapper] [])
      with (nodes (SrcUi.constructor api cfg readOnly) wrapper).
    generalize (SrcUi.constructor api cfg readOnly).
    induction es as [|e es IH]; intros u Hu; [exact Hu|].
    apply (IH (SrcUi.step u e)). by apply SrcUi_step_status.
  - change (length (status_classes (nodes c wrapper)) ≤ 1)%nat. unfold c. clear a c.
    generalize (status_classes_make api).
    change (make "div" [styles_block api; CSS_wrapper] [])
      with (nodes (Part000.constructor api cfg readOnly) wrapper).
    generalize (Part000.constructor api cfg readOnly).
    induction es as [|e es IH]; intros u Hu; [exact Hu|].
    apply (IH (Part000.step u e)). by apply Part000_step_status.
Qed.

End StatusInvariant.

(** ** The further properties on concrete runs *)

(** X3 on a filled block whose image fires [load]. *)
Lemma media_event_effect_witness :
  let u' := exec (on_media_event 0 "load") src_ui_filled in
  (∃ el, media src_ui_filled !! 0%nat = Some el ∧ "load" ∈ listeners el) ∧
  shown_status u' = [status_FILLED].
Proof.
  intros u'.
  assert (Hlen : length (media src_ui_filled) = 1%nat) by reflexivity.
  destruct (lookup_lt_is_Some_2 (media src_ui_filled) 0%nat) as [el Hel];
    [rewrite Hlen; lia|].
  assert (Hl : listeners <$> media src_ui_filled !! 0%nat = Some ["load"]) by reflexivity.
  rewrite Hel in Hl. injection Hl as Hl.
  assert (Hin : "load" ∈ listeners el) by (rewrite Hl; apply list_elem_of_here).
  split; [by exists el|].
  pose proof (media_event_effect 0 "load" src_ui_filled) as Hall.
  cbv zeta in Hall. destruct Hall as (_ & Hfill & _).
  exact (proj1 (Hfill el Hel Hin)).
Defined.

(** X8 on a filled block that never entered resize mode. *)
Lemma undoResizeButton_click_outside_resize_mode_witness :
  resize_mode src_ui_filled = false ∧
  config (SrcUi.step src_ui_filled click_undoResizeButton) = config src_ui_filled ∧
  enabled (nodes (SrcUi.step src_ui_filled click_undoResizeButton) undoResizeButton) = true.
Proof.
  assert (H1 : resize_mode src_ui_filled = false) by reflexivity.
  split; [exact H1|].
  pose proof (undoResizeButton_click_outside_resize_mode src_ui_filled H1) as Hall.
  cbv zeta in Hall. destruct Hall as ((_ & Hc & _ & _ & _ & _ & _ & He) & _).
  split; [exact Hc | exact He].
Defined.

(** X7 on a filled block in resize mode. *)
Lemma undoResizeButton_click_controls_witness :
  resize_mode src_ui_resizing = true ∧
  resize_mode (SrcUi.step src_ui_resizing click_undoResizeButton) = false ∧
  editable (nodes (SrcUi.step src_ui_resizing click_undoResizeButton) imageWidth) = true.
Proof.
  assert (H1 : resize_mode src_ui_resizing = true) by reflexivity.
  split; [exact H1|].
  pose proof (undoResizeButton_click_controls src_ui_resizing H1) as Hall.
  cbv zeta in Hall. destruct Hall as ((Hm & _ & Hw & _) & _).
  split; [exact Hm | exact Hw].
Defined.

(** X9 on a session whose last request, 900 x 600, is rejected: the request
    before it, 500 x 400, is committed, in both revisions. *)
Lemma resize_commits_last_accepted_witness :
  let news := [int_box 500 400; int_box 900 600] in
  let click := click_resizeModeButton (IInt 300) (IInt 300) (int_box 300 200) in
  let a := SrcUi.step (SrcUi_session src_ui_sized (IInt 300) (IInt 300) (int_box 300 200) news)
             click in
  let c := Part000.step
             (Part000_session part000_filled (IInt 300) (IInt 300) (int_box 300 200) news)
             click in
  (resize_mode src_ui_sized = false ∧ imageEl src_ui_sized = Some 0%nat ∧
   resize_mode part000_filled = false ∧ imageEl part000_filled = Some 0%nat) ∧
  (field (config a) "konvaWidth" = JNum (IInt 500) ∧
   field (config a) "konvaHeight" = JNum (IInt 400)) ∧
  (field (config c) "width" = JNum (IInt 500) ∧
   field (config c) "height" = JNum (IInt 400)).
Proof.
  intros news click a c.
  assert (H1 : resize_mode src_ui_sized = false) by reflexivity.
  assert (H2 : imageEl src_ui_sized = Some 0%nat) by reflexivity.
  assert (H3 : resize_mode part000_filled = false) by reflexivity.
  assert (H4 : imageEl part000_filled = Some 0%nat) by reflexivity.
  assert (Hlen : length (media part000_filled) = 1%nat) by reflexivity.
  destruct (lookup_lt_is_Some_2 (media part000_filled) 0%nat) as [el H5];
    [rewrite Hlen; lia|].
  split; [by repeat split|].
  pose proof (resize_commits_last_accepted src_ui_sized part000_filled
                (IInt 300) (IInt 300) (int_box 300 200) news
                (IInt 300) (IInt 300) (int_box 300 200) 0%nat 0%nat el
                H1 H2 H3 H4 H5) as Hall.
  cbv zeta in Hall. exact Hall.
Defined.

(** X10 on a new block with 300 typed into the width field. *)
Lemma onSetImageSize_without_image_witness :
  let u := SrcUi.run (src_ui_fresh false) [type_width "300"] in
  imageEl u = None ∧
  returns SrcUi.onSetImageSize u = false ∧
  field (config (exec SrcUi.onSetImageSize u)) "imageWidth" = JNum (IInt 300) ∧
  field (config (exec SrcUi.onSetImageSize u)) "imageHeight" = JNum (IInt 0).
Proof.
  intros u.
  assert (H1 : imageEl u = None) by reflexivity.
  split; [exact H1|].
  pose proof (onSetImageSize_without_image u H1) as Hall.
  cbv zeta in Hall. destruct Hall as ((Hr & Hw & Hh & _) & _).
  split; [exact Hr|]. split; [exact Hw | exact Hh].
Defined.

(** X11 on a new block. *)
Lemma SrcUi_resize_without_image_witness :
  let click := click_resizeModeButton (IInt 0) (IInt 0) (int_box 0 0) in
  let u := src_ui_fresh false in
  (imageEl u = None ∧ resize_mode u = false) ∧
  returns (SrcUi.handle click) u = true ∧
  returns (SrcUi.handle click) (SrcUi.step u click) = false ∧
  field (config (SrcUi.step (SrcUi.step u click) click)) "konvaWidth" = JNum (IInt 0).
Proof.
  intros click u.
  assert (H1 : imageEl u = None) by reflexivity.
  assert (H2 : resize_mode u = false) by reflexivity.
  split; [by split|].
  pose proof (SrcUi_resize_without_image u (IInt 0) (IInt 0) (IInt 0) (IInt 0)
                (int_box 0 0) (int_box 0 0) H1 H2) as Hall.
  cbv zeta in Hall. destruct Hall as (Hr1 & _ & _ & Hr2 & _ & _ & Hw & _).
  split; [exact Hr1|]. split; [exact Hr2 | exact Hw].
Defined.

(** X12 on a new block, whose image container has no background image at
    the start. *)
Lemma Part000_resize_without_image_witness :
  let click := click_resizeModeButton (IInt 0) (IInt 0) (int_box 0 0) in
  let u := part000_fresh false in
  let u2 := Part000.step (Part000.step u click) click in
  (imageEl u = None ∧ konva u = None ∧ resize_mode u = false) ∧
  style_get (nodes u imageContainer) "backgroundImage" = JStr "" ∧
  returns (Part000.handle click) u = false ∧
  resize_mode (Part000.step u click) = true ∧
  returns (Part000.handle click) (Part000.step u click) = false ∧
  resize_mode u2 = false ∧
  style_get (nodes u2 imageContainer) "backgroundImage"
    = JStr "url('https://cdn.pixabay.com/photo/2016/07/29/23/03/white-1556097_1280.png')".
Proof.
  intros click u u2.
  assert (H1 : imageEl u = None) by reflexivity.
  assert (H2 : konva u = None) by reflexivity.
  assert (H3 : resize_mode u = false) by reflexivity.
  split; [by repeat split|]. split; [reflexivity|].
  pose proof (Part000_resize_without_image u (IInt 0) (IInt 0) (IInt 0) (IInt 0)
                (int_box 0 0) (int_box 0 0) H1 H2 H3) as Hall.
  cbv zeta in Hall.
  destruct Hall as (Hr1 & Hm & _ & _ & _ & _ & Hr2 & Hm2 & _ & _ & _ & Hbg & _).
  split; [exact Hr1|]. split; [exact Hm|]. split; [exact Hr2|].
  split; [exact Hm2 | exact Hbg].
Defined.

(** X14 on a block sized to 300 x 200 whose fields were emptied, and on a
    filled block of [part_000]. *)
Lemma onSetImageSize_empty_fields_witness :
  (prop_text (nodes src_ui_sized imageWidth) "textContent" = "300" ∧
   image_style_get src_ui_sized "width" = Some (JStr "300px")) ∧
  let u := SrcUi.run src_ui_sized [type_width ""; type_height ""] in
  (prop_text (nodes u imageWidth) "textContent" = "" ∧
   prop_text (nodes u imageHeight) "textContent" = "" ∧
   imageEl u = Some 0%nat ∧
   prop_text (nodes part000_filled inputWidth) "value" = "" ∧
   prop_text (nodes part000_filled inputHeight) "value" = "" ∧
   imageEl part000_filled = Some 0%nat) ∧
  field (config (exec SrcUi.onSetImageSize u)) "imageWidth" = JNum (IInt 0) ∧
  field (config (exec SrcUi.onSetImageSize u)) "konvaWidth" = JNum (IInt 300) ∧
  image_style_get (exec SrcUi.onSetImageSize u) "width" = Some (JStr "") ∧
  exec Part000.onSetImageSize part000_filled = part000_filled.
Proof.
  split; [split; reflexivity|]. intros u.
  assert (H1 : prop_text (nodes u imageWidth) "textContent" = "") by reflexivity.
  assert (H2 : prop_text (nodes u imageHeight) "textContent" = "") by reflexivity.
  assert (H3 : imageEl u = Some 0%nat) by reflexivity.
  assert (H4 : prop_text (nodes part000_filled inputWidth) "value" = "") by reflexivity.
  assert (H5 : prop_text (nodes part000_filled inputHeight) "value" = "") by reflexivity.
  assert (H6 : imageEl part000_filled = Some 0%nat) by reflexivity.
  split; [by repeat split|].
  pose proof (onSetImageSize_empty_fields u part000_filled 0%nat 0%nat
                H1 H2 H3 H4 H5 H6) as Hall.
  cbv zeta in Hall. destruct Hall as ((_ & Hw & _ & Hk & _ & Hs) & (_ & Hp)).
  split; [exact Hw|]. split; [exact Hk|]. split; [|exact Hp].
  reflexivity.
Defined.

(** X15 with 300 and 200 typed. *)
Lemma onSetImageSize_both_fields_witness :
  (prop_text (nodes src_ui_typed imageWidth) "textContent" = "300" ∧
   prop_text (nodes src_ui_typed imageHeight) "textContent" = "200" ∧
   imageEl src_ui_typed = Some 0%nat ∧
   prop_text (nodes part000_typed inputWidth) "value" = "300" ∧
   prop_text (nodes part000_typed inputHeight) "value" = "200" ∧
   imageEl part000_typed = Some 0%nat) ∧
  field (config (exec SrcUi.onSetImageSize src_ui_typed)) "imageWidth" = JNum (IInt 300) ∧
  field (config (exec SrcUi.onSetImageSize src_ui_typed)) "konvaHeight" = JNum (IInt 200) ∧
  config (exec Part000.onSetImageSize part000_typed) = config part000_typed.
Proof.
  assert (H1 : prop_text (nodes src_ui_typed imageWidth) "textContent" = "300") by reflexivity.
  assert (H2 : prop_text (nodes src_ui_typed imageHeight) "textContent" = "200") by reflexivity.
  assert (H3 : imageEl src_ui_typed = Some 0%nat) by reflexivity.
  assert (H4 : prop_text (nodes part000_typed inputWidth) "value" = "300") by reflexivity.
  assert (H5 : prop_text (nodes part000_typed inputHeight) "value" = "200") by reflexivity.
  assert (H6 : imageEl part000_typed = Some 0%nat) by reflexivity.
  assert (N1 : "300" ≠ "") by discriminate.
  assert (N2 : "200" ≠ "") by discriminate.
  split; [by repeat split|].
  pose proof (onSetImageSize_both_fields src_ui_typed part000_typed "300" "200" 0%nat 0%nat
                H1 N1 H2 N2 H3 H4 H5 H6) as Hall.
  cbv zeta in Hall. destruct Hall as ((_ & Hw & _ & _ & Hk & _) & (_ & Hc & _)).
  split; [exact Hw|]. split; [exact Hk | exact Hc].
Defined.

(** X16 on a read-only block. *)
Lemma readOnly_until_resize_mode_witness :
  let enter := click_resizeModeButton (IInt 300) (IInt 200) (int_box 300 200) in
  truthy (field (∅ : gmap string jsval) "isChangeResizeMode") = false ∧
  editable (nodes (src_ui_fresh true) imageWidth) = false ∧
  editable (nodes (SrcUi.run (src_ui_fresh true) [enter; click_undoResizeButton]) imageWidth)
    = true ∧
  editable (nodes (Part000.run (part000_fresh true) [enter; enter]) inputWidth) = true.
Proof.
  intros enter.
  assert (H1 : truthy (field (∅ : gmap string jsval) "isChangeResizeMode") = false)
    by reflexivity.
  split; [exact H1|].
  pose proof (readOnly_until_resize_mode example_api ∅ (JBool true)
                (IInt 300) (IInt 200) (IInt 300) (IInt 200)
                (int_box 300 200) (int_box 300 200) H1) as Hall.
  cbv zeta in Hall. destruct Hall as ((Hw & _) & Hafter).
  split; [exact Hw|].
  split.
  - exact (proj1 (Hafter click_undoResizeButton (or_intror eq_refl))).
  - destruct (Hafter enter (or_introl eq_refl)) as (_ & _ & _ & Hc & _). exact Hc.
Defined.

(** X17 on a filled block after a press of the resize-mode control. *)
Lemma SrcUi_stage_shown_in_resize_mode_witness :
  truthy (field (∅ : gmap string jsval) "isChangeResizeMode") = false ∧
  (StageContent ∈ container src_ui_resizing ↔ resize_mode src_ui_resizing = true) ∧
  resize_mode src_ui_resizing = true.
Proof.
  assert (H1 : truthy (field (∅ : gmap string jsval) "isChangeResizeMode") = false)
    by reflexivity.
  split; [exact H1|].
  pose proof (SrcUi_stage_shown_in_resize_mode example_api ∅ (JBool false)
                [call_fillImage "a.jpg";
                 click_resizeModeButton (IInt 300) (IInt 200) (int_box 300 200)] H1) as Hall.
  cbv zeta in Hall. split; [exact (proj1 Hall) | reflexivity].
Defined.
